(** * Decision validation and action execution pipeline of the dealership agent

    A shallow embedding of [agents/bedrock_agent.py], [agents/action_executor.py]
    and [agents/autonomous_scheduler.py].

    - [Py]: the fragment of Python the three files rely on: JSON values,
      exceptions, dictionaries, truthiness, [len], iteration, slices.
    - [BedrockAgent]: [_extract_json], [_validate_decisions] and
      [agent_decision_loop].
    - [ActionExecutor]: the four per-category executors, on arguments of
      the annotated type and as [execute_all_actions] calls them on whatever
      the decision set holds, [execute_all_actions], [_save_action_log] and
      [get_action_history], in a state-and-exception monad over the data
      frames, the files and the clock.
    - [AutonomousAgent]: [run_agent_cycle] and the polling loop of
      [start_autonomous_mode].
    - [Dashboard]: the status route of [app.py]. *)

From Stdlib Require Import ZArith List String Ascii Bool Floats Lia.
Import ListNotations.

(* ================================================================== *)
(** * Python values and exceptions *)
(* ================================================================== *)

Module Py.

Local Open Scope string_scope.

(** What [json.loads] can produce: null, booleans, integers, binary64 floats,
    strings, arrays and objects.  An object is kept as an association list in
    insertion order, the way a Python [dict] iterates. *)
#[local] Unset Elimination Schemes.
Inductive value : Type :=
| VNone
| VBool (b : bool)
| VInt (z : Z)
| VFloat (f : float)
| VStr (s : string)
| VList (l : list value)
| VDict (d : list (string * value)).
#[local] Set Elimination Schemes.

Definition dict := list (string * value).

(** The exception classes that occur, each with the text [str(e)] gives. *)
Inductive exn : Type :=
| AttributeError (msg : string)
| TypeError (msg : string)
| ValueError (msg : string)
| OverflowError (msg : string)
| KeyError (msg : string)
| JSONDecodeError (msg : string)
| OSError (msg : string).

Definition exn_str (e : exn) : string :=
  match e with
  | AttributeError m | TypeError m | ValueError m | OverflowError m
  | KeyError m | JSONDecodeError m | OSError m => m
  end.

Inductive result (A : Type) : Type :=
| Ok (a : A)
| Raise (e : exn).
Arguments Ok {A} a.
Arguments Raise {A} e.

Definition rbind {A B} (r : result A) (k : A -> result B) : result B :=
  match r with
  | Ok a => k a
  | Raise e => Raise e
  end.

Declare Scope result_scope.
Delimit Scope result_scope with result.
Notation "'do' x <- c ; k" := (rbind c (fun x => k))
  (at level 10, x name, c at level 100, k at level 200) : result_scope.

(** ** Dictionaries *)

Fixpoint dict_get (d : dict) (k : string) : option value :=
  match d with
  | [] => None
  | (k', v) :: rest => if String.eqb k' k then Some v else dict_get rest k
  end.

Definition dict_mem (d : dict) (k : string) : bool :=
  match dict_get d k with Some _ => true | None => false end.

(** [d[k] = v]: an existing key keeps its place, a new one goes last. *)
Definition dict_set (d : dict) (k : string) (v : value) : dict :=
  if dict_mem d k
  then map (fun kv => if String.eqb (fst kv) k then (fst kv, v) else kv) d
  else (d ++ [(k, v)])%list.

(** [d.get(k)] and [d.get(k, default)]. *)
Definition py_get (d : dict) (k : string) : value :=
  match dict_get d k with Some v => v | None => VNone end.

Definition py_get_default (d : dict) (k : string) (dflt : value) : value :=
  match dict_get d k with Some v => v | None => dflt end.

(** ** Type names, as they appear in error messages *)

Definition type_name (v : value) : string :=
  match v with
  | VNone => "NoneType"
  | VBool _ => "bool"
  | VInt _ => "int"
  | VFloat _ => "float"
  | VStr _ => "str"
  | VList _ => "list"
  | VDict _ => "dict"
  end.

(** ** Truthiness: [not v] is [negb (truthy v)] *)

Definition truthy (v : value) : bool :=
  match v with
  | VNone => false
  | VBool b => b
  | VInt z => negb (Z.eqb z 0)
  | VFloat f => negb (PrimFloat.is_zero f)
  | VStr s => negb (String.eqb s "")
  | VList l => match l with [] => false | _ => true end
  | VDict d => match d with [] => false | _ => true end
  end.

(** ** [len] and iteration *)

Definition py_len (v : value) : result nat :=
  match v with
  | VStr s => Ok (String.length s)
  | VList l => Ok (List.length l)
  | VDict d => Ok (List.length d)
  | _ => Raise (TypeError ("object of type '" ++ type_name v ++ "' has no len()"))
  end.

Fixpoint chars (s : string) : list value :=
  match s with
  | EmptyString => []
  | String c rest => VStr (String c EmptyString) :: chars rest
  end.

(** [for x in v]: a list yields its items, a string its characters, a dict
    its keys; anything else is not iterable. *)
Definition py_iter (v : value) : result (list value) :=
  match v with
  | VStr s => Ok (chars s)
  | VList l => Ok l
  | VDict d => Ok (map (fun kv => VStr (fst kv)) d)
  | _ => Raise (TypeError ("'" ++ type_name v ++ "' object is not iterable"))
  end.

(** ** Slices *)

(** [l[start:]] for a signed [start]: a negative index counts from the end
    and both ends are clamped to the list. *)
Definition slice_from {A} (start : Z) (l : list A) : list A :=
  let n := Z.of_nat (List.length l) in
  let i := if (start <? 0)%Z then Z.max 0 (n + start) else Z.min start n in
  skipn (Z.to_nat i) l.

(** [s[:n]] on a string, for [n >= 0]. *)
Definition str_prefix (n : nat) (s : string) : string := String.substring 0 n s.

(** ** Hashability and membership in a set of strings

    [v in s] hashes [v] first, so a list or a dict raises even when [s] is
    empty; a hashable value that is not a string equals no string. *)
Definition py_in_set (v : value) (s : list string) : result bool :=
  match v with
  | VList _ | VDict _ =>
      Raise (TypeError ("unhashable type: '" ++ type_name v ++ "'"))
  | VStr x => Ok (existsb (String.eqb x) s)
  | _ => Ok false
  end.

Definition hashable (v : value) : bool :=
  match v with
  | VList _ | VDict _ => false
  | _ => true
  end.

(** ** Integer to binary64 conversion, round to nearest even *)

Definition Z2float (z : Z) : float :=
  SF2Prim (binary_normalize prec emax z 0 false).

(** The exact integer a float denotes, when it denotes one. *)
Definition float_to_Z (f : float) : option Z :=
  match Prim2SF f with
  | S754_zero _ => Some 0%Z
  | S754_finite sg m e =>
      let signed (x : Z) := if sg then Z.opp x else x in
      if (0 <=? e)%Z then Some (signed (Z.pos m * 2 ^ e)%Z)
      else if (Z.pos m mod 2 ^ (- e) =? 0)%Z
           then Some (signed (Z.pos m / 2 ^ (- e))%Z)
           else None
  | _ => None
  end.

(** ** Containment, subscription and item assignment with a string key *)

(** [key in decisions] *)
Definition py_contains (decisions : value) (key : string) : result bool :=
  match decisions with
  | VDict d => Ok (dict_mem d key)
  | VList l =>
      Ok (existsb (fun x => match x with
                            | VStr s => String.eqb s key
                            | _ => false
                            end) l)
  | VStr s => Ok (match String.index 0 key s with Some _ => true | None => false end)
  | _ => Raise (TypeError
                  ("argument of type '" ++ type_name decisions ++ "' is not iterable"))
  end.

(** [decisions[key]] for a string [key] *)
Definition py_getitem (decisions : value) (key : string) : result value :=
  match decisions with
  | VDict d => match dict_get d key with
               | Some v => Ok v
               | None => Raise (KeyError key)
               end
  | VList _ => Raise (TypeError "list indices must be integers or slices, not str")
  | VStr _ => Raise (TypeError "string indices must be integers, not 'str'")
  | _ => Raise (TypeError ("'" ++ type_name decisions ++ "' object is not subscriptable"))
  end.

(** [decisions[key] = v] *)
Definition py_setitem (decisions : value) (key : string) (v : value) : result value :=
  match decisions with
  | VDict d => Ok (VDict (dict_set d key v))
  | _ => Raise (TypeError
                  ("'" ++ type_name decisions ++ "' object does not support item assignment"))
  end.

(** ** Statements: state passing with exceptions

    A raised exception keeps the state reached so far, as an [except] clause
    sees every mutation made before the [raise]. *)
Definition stmt (S A : Type) : Type := S -> result A * S.

Definition ret {S A} (a : A) : stmt S A := fun s => (Ok a, s).

Definition bind {S A B} (m : stmt S A) (k : A -> stmt S B) : stmt S B :=
  fun s => match m s with
           | (Ok a, s') => k a s'
           | (Raise e, s') => (Raise e, s')
           end.

Declare Scope stmt_scope.
Delimit Scope stmt_scope with stmt.
Notation "x <- c ;; k" := (bind c (fun x => k))
  (at level 61, c at next level, right associativity) : stmt_scope.
Notation "c ;; k" := (bind c (fun _ => k))
  (at level 61, right associativity) : stmt_scope.

(** An expression that may raise, evaluated as a statement. *)
Definition lift {S A} (r : result A) : stmt S A := fun s => (r, s).

Definition gets {S A} (f : S -> A) : stmt S A := fun s => (Ok (f s), s).

Definition modify {S} (f : S -> S) : stmt S unit := fun s => (Ok tt, f s).

(** [try: body except Exception as e: handler(e)] *)
Definition try_except {S A} (body : stmt S A) (handler : exn -> stmt S A)
  : stmt S A :=
  fun s => match body s with
           | (Raise e, s') => handler e s'
           | done => done
           end.

(** [for x in xs: body(x)] *)
Fixpoint for_each {S A} (body : A -> stmt S unit) (xs : list A) : stmt S unit :=
  match xs with
  | [] => ret tt
  | x :: rest => bind (body x) (fun _ => for_each body rest)
  end.

End Py.

(* ================================================================== *)
(** * agents/bedrock_agent.py *)
(* ================================================================== *)

Module BedrockAgent.

Import Py.
Local Open Scope string_scope.
Local Open Scope result_scope.

(** ** [_extract_json] *)

(** [text.replace(pat, '')] for a non-empty [pat]: occurrences are removed
    left to right without overlap; [skip] counts the characters of a match
    still to be dropped. *)
Fixpoint remove_from (pat : string) (skip : nat) (text : string) : string :=
  match text with
  | EmptyString => EmptyString
  | String c rest =>
      match skip with
      | S k => remove_from pat k rest
      | O => if String.prefix pat text
             then remove_from pat (String.length pat - 1) rest
             else String c (remove_from pat 0 rest)
      end
  end.

Definition str_remove (pat text : string) : string := remove_from pat 0 text.

(** The ASCII characters [str.strip()] removes. *)
Definition is_space (c : ascii) : bool :=
  let n := nat_of_ascii c in
  (((9 <=? n) && (n <=? 13)) || ((28 <=? n) && (n <=? 32)))%nat.

Fixpoint lstrip (s : string) : string :=
  match s with
  | EmptyString => EmptyString
  | String c rest => if is_space c then lstrip rest else s
  end.

Fixpoint rstrip (s : string) : string :=
  match s with
  | EmptyString => EmptyString
  | String c rest =>
      match rstrip rest with
      | EmptyString => if is_space c then EmptyString else String c EmptyString
      | r => String c r
      end
  end.

Definition strip (s : string) : string := rstrip (lstrip s).

(** [text.find(c)] and [text.rfind(c)], with [None] for -1. *)
Fixpoint find_char (c : ascii) (s : string) : option nat :=
  match s with
  | EmptyString => None
  | String c' rest =>
      if Ascii.eqb c' c then Some 0
      else match find_char c rest with Some i => Some (S i) | None => None end
  end.

Fixpoint rfind_char (c : ascii) (s : string) : option nat :=
  match s with
  | EmptyString => None
  | String c' rest =>
      match rfind_char c rest with
      | Some i => Some (S i)
      | None => if Ascii.eqb c' c then Some 0 else None
      end
  end.

Definition _extract_json (text : string) : string :=
  let text := strip (str_remove "```" (str_remove "```json" text)) in
  let stop := match rfind_char "}" text with Some i => S i | None => 0 end in
  match find_char "{" text with
  | Some start =>
      if (start <? stop)%nat then String.substring start (stop - start) text else text
  | None => text
  end.

(** ** [_validate_decisions] *)

(** [adj.get]: only a dict has the method. *)
Definition getattr_get (v : value) : result dict :=
  match v with
  | VDict d => Ok d
  | _ => Raise (AttributeError
                  ("'" ++ type_name v ++ "' object has no attribute 'get'"))
  end.

(** [[x for x in items if x.get(field) in valid]] *)
Fixpoint comprehension (field : string) (valid : list string)
    (items : list value) : result (list value) :=
  match items with
  | [] => Ok []
  | x :: rest =>
      do d <- getattr_get x;
      do keep <- py_in_set (py_get d field) valid;
      do kept <- comprehension field valid rest;
      Ok (if keep then x :: kept else kept)
  end.

(** One of the two [if key in decisions:] blocks. *)
Definition filter_category (field key : string) (valid : list string)
    (decisions : value) : result value :=
  do present <- py_contains decisions key;
  if present then
    do original <- py_getitem decisions key;
    do original_count <- py_len original;
    do items <- py_iter original;
    do kept <- comprehension field valid items;
    py_setitem decisions key (VList kept)
  else Ok decisions.

Definition _validate_decisions (decisions : value)
    (valid_vins valid_inquiry_ids : list string) : result value :=
  do decisions <- filter_category "vin" "price_adjustments" valid_vins decisions;
  filter_category "inquiry_id" "customer_responses" valid_inquiry_ids decisions.

(** ** [agent_decision_loop] *)

(** Everything the class body of [BedrockAgentCore] defines, with the
    attributes [__init__] sets on the instance. *)
Definition BedrockAgentCore_attrs : list string :=
  [ "__init__"; "invoke_claude"; "agent_decision_loop"; "_validate_decisions";
    "_prepare_decision_context"; "_extract_json";
    "generate_vehicle_description"; "negotiate_with_customer";
    "bedrock"; "model_id"; "dealer_name"; "min_margin"; "max_adjustment" ].

(** [self.<name>]: the attribute reference is evaluated before the call. *)
Definition getattr_self (name : string) : result unit :=
  if existsb (String.eqb name) BedrockAgentCore_attrs then Ok tt
  else Raise (AttributeError
                ("'BedrockAgentCore' object has no attribute '" ++ name ++ "'")).

(** [self._generate_fallback_decisions(inventory_df, inquiries_df)], the
    expression the three recovery paths return.  No method of that name is
    defined, so the attribute reference raises and nothing is called. *)
Definition call_generate_fallback_decisions : result value :=
  do _ <- getattr_self "_generate_fallback_decisions";
  Ok VNone.

(** [try: ... except Exception: ...] around an expression. *)
Definition rescue {A} (body : result A) (handler : exn -> result A) : result A :=
  match body with
  | Ok a => Ok a
  | Raise e => handler e
  end.

Section DecisionLoop.

(** [json.loads], which raises [JSONDecodeError] on text that is not JSON. *)
Variable json_loads : string -> result value.

(** The part of [agent_decision_loop] from the outer [try] on.  [response] is
    what [invoke_claude] returned: the text of the reply, or [None] after any
    failure of the call.  The two sets are built from the [vin] and
    [inquiry_id] columns of the data frames. *)
Definition agent_decision_loop (response : option string)
    (valid_vins valid_inquiry_ids : list string) : result value :=
  rescue
    (match response with
     | None => call_generate_fallback_decisions
     | Some text =>
         if String.eqb text "" then call_generate_fallback_decisions
         else
           match (do decisions <- json_loads (_extract_json text);
                  _validate_decisions decisions valid_vins valid_inquiry_ids) with
           | Raise (JSONDecodeError _) => call_generate_fallback_decisions
           | outcome => outcome
           end
     end)
    (fun _ => call_generate_fallback_decisions).

End DecisionLoop.

End BedrockAgent.

(* ================================================================== *)
(** * agents/action_executor.py *)
(* ================================================================== *)

Module ActionExecutor.

Import Py.
Local Open Scope string_scope.

(** ** The record store and the files *)

(** A row of [data/inventory.csv].  [current_price] is a float64 column;
    [last_price_change] holds the ISO text of an instant. *)
Record InventoryRecord : Type := mkInventoryRecord {
  vin : string;
  stock_number : string;
  current_price : float;
  cost : float;
  days_in_inventory : Z;
  last_price_change : string
}.

(** A row of [data/customer_inquiries.csv]. *)
Record InquiryRecord : Type := mkInquiryRecord {
  inquiry_id : string;
  customer_email : string;
  customer_name : string;
  status : string
}.

(** The dict [execute_all_actions] builds and returns. *)
Record CycleSummary : Type := mkCycleSummary {
  timestamp : value;
  total_actions : Z;
  successful_actions : Z;
  failed_actions : Z;
  actions_by_type : list (string * list dict);
  details : list value
}.

(** Everything a method of the executor reads or writes.  [results] is the
    local list the running method appends to; the two data frames are the
    objects the caller passed in, mutated in place; the [_csv] fields are the
    contents of the files [to_csv] rewrites; [emails] and [social] are the
    files written under [logs/]; [log_file] is [logs/agent_actions.json],
    [None] while it does not exist; [clock] counts the readings of
    [datetime.now()]. *)
Record state : Type := mkState {
  results : list dict;
  inventory_df : list InventoryRecord;
  inquiries_df : list InquiryRecord;
  inventory_csv : list InventoryRecord;
  inquiries_csv : list InquiryRecord;
  emails : list dict;
  social : list dict;
  log_file : option (list CycleSummary);
  clock : nat
}.

Definition set_results (rs : list dict) (s : state) : state :=
  mkState rs (inventory_df s) (inquiries_df s) (inventory_csv s)
    (inquiries_csv s) (emails s) (social s) (log_file s) (clock s).

Definition set_inventory_df (df : list InventoryRecord) (s : state) : state :=
  mkState (results s) df (inquiries_df s) (inventory_csv s)
    (inquiries_csv s) (emails s) (social s) (log_file s) (clock s).

Definition set_inquiries_df (df : list InquiryRecord) (s : state) : state :=
  mkState (results s) (inventory_df s) df (inventory_csv s)
    (inquiries_csv s) (emails s) (social s) (log_file s) (clock s).

Definition set_inventory_csv (f : list InventoryRecord) (s : state) : state :=
  mkState (results s) (inventory_df s) (inquiries_df s) f
    (inquiries_csv s) (emails s) (social s) (log_file s) (clock s).

Definition set_inquiries_csv (f : list InquiryRecord) (s : state) : state :=
  mkState (results s) (inventory_df s) (inquiries_df s) (inventory_csv s)
    f (emails s) (social s) (log_file s) (clock s).

Definition set_emails (f : list dict) (s : state) : state :=
  mkState (results s) (inventory_df s) (inquiries_df s) (inventory_csv s)
    (inquiries_csv s) f (social s) (log_file s) (clock s).

Definition set_social (f : list dict) (s : state) : state :=
  mkState (results s) (inventory_df s) (inquiries_df s) (inventory_csv s)
    (inquiries_csv s) (emails s) f (log_file s) (clock s).

Definition set_log_file (f : option (list CycleSummary)) (s : state) : state :=
  mkState (results s) (inventory_df s) (inquiries_df s) (inventory_csv s)
    (inquiries_csv s) (emails s) (social s) f (clock s).

Definition set_clock (n : nat) (s : state) : state :=
  mkState (results s) (inventory_df s) (inquiries_df s) (inventory_csv s)
    (inquiries_csv s) (emails s) (social s) (log_file s) n.

(** ** Statements of the executor *)

Definition M : Type -> Type := stmt state.

Local Open Scope stmt_scope.

(** [results.append(r)] *)
Definition append (r : dict) : M unit :=
  modify (fun s => set_results (results s ++ [r])%list s).

(** ** Rows selected by a boolean mask *)

Fixpoint select {A} (mask : list bool) (rows : list A) : list A :=
  match mask, rows with
  | b :: mask', r :: rows' => if b then r :: select mask' rows' else select mask' rows'
  | _, _ => []
  end.

(** [df.loc[mask, column] = ...], as a function [f] applied to the rows the
    mask selects. *)
Fixpoint set_where {A} (mask : list bool) (f : A -> A) (rows : list A) : list A :=
  match mask, rows with
  | b :: mask', r :: rows' => (if b then f r else r) :: set_where mask' f rows'
  | _, _ => rows
  end.

Definition set_current_price (p : float) (r : InventoryRecord) : InventoryRecord :=
  mkInventoryRecord (vin r) (stock_number r) p (cost r) (days_in_inventory r)
    (last_price_change r).

Definition set_last_price_change (t : string) (r : InventoryRecord) : InventoryRecord :=
  mkInventoryRecord (vin r) (stock_number r) (current_price r) (cost r)
    (days_in_inventory r) t.

Definition set_status (st : string) (r : InquiryRecord) : InquiryRecord :=
  mkInquiryRecord (inquiry_id r) (customer_email r) (customer_name r) st.

(** ** Arithmetic on a price taken from the decision item *)

Definition bool_float (b : bool) : float := if b then 1%float else 0%float.

(** [new_price - old_price], with [old_price] a float64 cell. *)
Definition py_sub_float (new_price : value) (old_price : float) : result float :=
  match new_price with
  | VInt z => Ok (Z2float z - old_price)%float
  | VFloat f => Ok (f - old_price)%float
  | VBool b => Ok (bool_float b - old_price)%float
  | _ => Raise (TypeError ("unsupported operand type(s) for -: '"
                           ++ type_name new_price ++ "' and 'float'"))
  end.

(** The value a float64 column takes when [v] is assigned into it.  An
    integer is stored as the float it equals; a value the column cannot hold
    without loss is refused, as pandas 3 does (pandas 2 warns and turns the
    column into an object column instead, which is outside this model). *)
Definition float64_cell (v : value) : result float :=
  match v with
  | VFloat f => Ok f
  | VInt z =>
      match float_to_Z (Z2float z) with
      | Some z' => if Z.eqb z' z then Ok (Z2float z)
                   else Raise (TypeError "Invalid value for dtype 'float64'")
      | None => Raise (TypeError "Invalid value for dtype 'float64'")
      end
  | _ => Raise (TypeError "Invalid value for dtype 'float64'")
  end.

(** [float(v)] for a value that is not already a float64 cell; the parser
    for strings is a parameter of the section below. *)
Definition py_float (float_of_string : string -> option float) (v : value)
  : result float :=
  match v with
  | VFloat f => Ok f
  | VInt z =>
      let f := Z2float z in
      if PrimFloat.is_infinity f
      then Raise (OverflowError "int too large to convert to float")
      else Ok f
  | VBool b => Ok (bool_float b)
  | VStr s =>
      match float_of_string s with
      | Some f => Ok f
      | None => Raise (ValueError ("could not convert string to float: '" ++ s ++ "'"))
      end
  | _ => Raise (TypeError ("float() argument must be a string or a real number, not '"
                           ++ type_name v ++ "'"))
  end.

(** [v[:n] + '...']: only a string can be sliced and then joined to a
    string. *)
Definition slice_ellipsis (n : nat) (v : value) : result value :=
  match v with
  | VStr s => Ok (VStr (str_prefix n s ++ "..."))
  | VList _ => Raise (TypeError "can only concatenate list (not 'str') to list")
  | VDict _ => Raise (TypeError "unhashable type: 'slice'")
  | _ => Raise (TypeError ("'" ++ type_name v ++ "' object is not subscriptable"))
  end.

(** [v[:n]] *)
Definition slice_prefix (n : nat) (v : value) : result value :=
  match v with
  | VStr s => Ok (VStr (str_prefix n s))
  | VList l => Ok (VList (firstn n l))
  | VDict _ => Raise (TypeError "unhashable type: 'slice'")
  | _ => Raise (TypeError ("'" ++ type_name v ++ "' object is not subscriptable"))
  end.

(** [r['status'] == text] *)
Definition status_is (text : string) (r : dict) : bool :=
  match dict_get r "status" with
  | Some (VStr x) => String.eqb x text
  | _ => false
  end.

(** [sum(1 for r in rs if r['status'] == 'success')] *)
Definition count_success (rs : list dict) : Z :=
  Z.of_nat (List.length (filter (status_is "success") rs)).

Section Executor.

(** What the libraries decide and this development leaves open:
    - [listlike_eq column v]: pandas' [column == v] when [v] is a list or a
      dict; it yields one boolean per row or raises;
    - [float_of_string]: the numbers [float()] reads from text;
    - [isoformat n]: the text of [datetime.now().isoformat()] at the [n]-th
      reading of the clock.
    [self.dry_run] is the argument [dry_run] of every method that reads it. *)
Variable listlike_eq : list string -> value -> result (list bool).
Variable float_of_string : string -> option float.
Variable isoformat : nat -> string.

Definition now : M string :=
  fun s => (Ok (isoformat (clock s)), set_clock (S (clock s)) s).

(** [column == v] for a column of strings.  A string is compared with every
    cell; [None], a boolean or a number equals none of them. *)
Definition series_eq (column : list string) (v : value) : result (list bool) :=
  match v with
  | VStr x => Ok (map (fun cell => String.eqb cell x) column)
  | VList _ | VDict _ =>
      match listlike_eq column v with
      | Ok mask =>
          if Nat.eqb (List.length mask) (List.length column) then Ok mask
          else Raise (ValueError "Lengths must match to compare")
      | Raise e => Raise e
      end
  | _ => Ok (map (fun _ => false) column)
  end.

(** [inventory_df.loc[inventory_df['vin'] == v, <column>] = ...] *)
Definition inventory_loc_set (v : value)
    (assigned : result (InventoryRecord -> InventoryRecord)) : M unit :=
  df <- gets inventory_df ;;
  mask <- lift (series_eq (map vin df) v) ;;
  f <- lift assigned ;;
  modify (set_inventory_df (set_where mask f df)).

(** [inquiries_df.loc[inquiries_df['inquiry_id'] == v, 'status'] = ...] *)
Definition inquiries_loc_set (v : value) (f : InquiryRecord -> InquiryRecord)
  : M unit :=
  df <- gets inquiries_df ;;
  mask <- lift (series_eq (map inquiry_id df) v) ;;
  modify (set_inquiries_df (set_where mask f df)).

(** [df.to_csv(path, index=False)] *)
Definition inventory_to_csv : M unit :=
  modify (fun s => set_inventory_csv (inventory_df s) s).

Definition inquiries_to_csv : M unit :=
  modify (fun s => set_inquiries_csv (inquiries_df s) s).

Definition execution_type_text (dry_run : bool) : string :=
  if dry_run then "SIMULATED" else "EXECUTED".

(** ** [execute_price_adjustments] *)

(** The [else] branch of [if self.dry_run]: both cells of the rows with this
    VIN are written, then the frame is saved. *)
Definition apply_price_change (vin_ new_price : value) : M unit :=
  inventory_loc_set vin_
    (rbind (float64_cell new_price) (fun cell => Ok (set_current_price cell))) ;;
  t <- now ;;
  inventory_loc_set vin_ (Ok (set_last_price_change t)) ;;
  inventory_to_csv.

(** The body of the [try] for one item. *)
Definition price_adjustment_body (dry_run : bool) (adjustment : dict) : M unit :=
  let vin_ := py_get adjustment "vin" in
  let new_price := py_get adjustment "recommended_price" in
  let reason := py_get_default adjustment "reason" (VStr "AI recommendation") in
  if negb (truthy vin_) || negb (truthy new_price) then
    t <- now ;;
    append [("status", VStr "failed");
            ("error", VStr "Missing VIN or price");
            ("timestamp", VStr t)]
  else
    df <- gets inventory_df ;;
    mask <- lift (series_eq (map vin df) vin_) ;;
    match select mask df with
    | [] =>
        t <- now ;;
        append [("vin", vin_);
                ("status", VStr "failed");
                ("error", VStr "Vehicle not found");
                ("timestamp", VStr t)]
    | vehicle :: _ =>
        let old_price := current_price vehicle in
        (if dry_run then ret tt else apply_price_change vin_ new_price) ;;
        new_float <- lift (py_float float_of_string new_price) ;;
        amount <- lift (py_sub_float new_price old_price) ;;
        percent <- lift (rbind (py_sub_float new_price old_price)
                           (fun d => Ok (d / old_price * Z2float 100)%float)) ;;
        t <- now ;;
        append [("action_type", VStr "price_adjustment");
                ("status", VStr "success");
                ("vin", vin_);
                ("stock_number", py_get adjustment "stock_number");
                ("old_price", VFloat old_price);
                ("new_price", VFloat new_float);
                ("adjustment_amount", VFloat amount);
                ("adjustment_percent", VFloat percent);
                ("reason", reason);
                ("confidence", py_get_default adjustment "confidence" (VFloat 0x1.999999999999ap-1));
                ("urgency", py_get_default adjustment "urgency" (VStr "medium"));
                ("execution_type", VStr (execution_type_text dry_run));
                ("timestamp", VStr t)]
    end.

(** The [except Exception as e] clause of the item. *)
Definition price_adjustment_handler (adjustment : dict) (e : exn) : M unit :=
  t <- now ;;
  append [("vin", py_get adjustment "vin");
          ("status", VStr "failed");
          ("error", VStr (exn_str e));
          ("timestamp", VStr t)].

Definition price_adjustment_item (dry_run : bool) (adjustment : dict) : M unit :=
  try_except (price_adjustment_body dry_run adjustment)
             (price_adjustment_handler adjustment).

Definition execute_price_adjustments (dry_run : bool) (adjustments : list dict) : M (list dict) :=
  modify (set_results []) ;;
  for_each (price_adjustment_item dry_run) adjustments ;;
  gets results.

(** ** [_send_email] and [_save_social_post]

    Each writes one file under [logs/]; the file is recorded as the dict of
    what was written into it. *)
Definition _send_email (to subject body : value) : M value :=
  t <- now ;;
  let email_log := VDict [("sent", VBool true); ("to", to); ("subject", subject);
                          ("timestamp", VStr t); ("method", VStr "demo_mode")] in
  name <- now ;;
  stamp <- now ;;
  modify (fun s => set_emails
                     (emails s ++ [[("filename", VStr name); ("To", to);
                                    ("Subject", subject); ("Timestamp", VStr stamp);
                                    ("body", body)]])%list s) ;;
  ret email_log.

Definition _save_social_post (platform content vehicle_vin : value) : M unit :=
  name <- now ;;
  stamp <- now ;;
  modify (fun s => set_social
                     (social s ++ [[("filename", VStr name); ("Platform", platform);
                                    ("Vehicle VIN", vehicle_vin);
                                    ("Timestamp", VStr stamp);
                                    ("content", content)]])%list s).

(** ** [execute_customer_responses] *)

(** The [else] branch of [if self.dry_run]: the mail is handed over, the
    inquiry is marked and the frame is saved. *)
Definition send_response (inquiry_id_ customer_email_ : value) (response : dict)
  : M value :=
  email_log <- _send_email customer_email_
                 (py_get response "response_subject")
                 (py_get response "response_body") ;;
  inquiries_loc_set inquiry_id_ (set_status "responded") ;;
  inquiries_to_csv ;;
  ret email_log.

Definition customer_response_body (dry_run : bool) (response : dict) : M unit :=
  let inquiry_id_ := py_get response "inquiry_id" in
  df <- gets inquiries_df ;;
  mask <- lift (series_eq (map inquiry_id df) inquiry_id_) ;;
  match select mask df with
  | [] =>
      t <- now ;;
      append [("inquiry_id", inquiry_id_);
              ("status", VStr "failed");
              ("error", VStr "Inquiry not found");
              ("timestamp", VStr t)]
  | inquiry :: _ =>
      let customer_email_ := VStr (customer_email inquiry) in
      let customer_name_ := VStr (customer_name inquiry) in
      email_log <-
        (if dry_run then
           preview <- lift (slice_ellipsis 200 (py_get response "response_body")) ;;
           ret (VDict [("to", customer_email_);
                       ("subject", py_get response "response_subject");
                       ("body_preview", preview)])
         else send_response inquiry_id_ customer_email_ response) ;;
      t <- now ;;
      append [("action_type", VStr "customer_response");
              ("status", VStr "success");
              ("inquiry_id", inquiry_id_);
              ("customer_name", customer_name_);
              ("customer_email", customer_email_);
              ("subject", py_get response "response_subject");
              ("offer_price", py_get response "offer_price");
              ("strategy", py_get response "strategy");
              ("execution_type", VStr (execution_type_text dry_run));
              ("email_log", email_log);
              ("timestamp", VStr t)]
  end.

Definition customer_response_handler (response : dict) (e : exn) : M unit :=
  t <- now ;;
  append [("inquiry_id", py_get response "inquiry_id");
          ("status", VStr "failed");
          ("error", VStr (exn_str e));
          ("timestamp", VStr t)].

Definition customer_response_item (dry_run : bool) (response : dict) : M unit :=
  try_except (customer_response_body dry_run response)
             (customer_response_handler response).

Definition execute_customer_responses (dry_run : bool) (responses : list dict) : M (list dict) :=
  modify (set_results []) ;;
  for_each (customer_response_item dry_run) responses ;;
  gets results.

(** ** [execute_social_media_posts] *)

(** The [print] that closes the [try] formats [content[:50]] after the result
    has been appended, so it is part of the body. *)
Definition social_media_post_body (dry_run : bool) (post : dict) : M unit :=
  let platform := py_get post "platform" in
  let content := py_get post "content" in
  let vehicle_vin := py_get post "vehicle_vin" in
  (if dry_run then ret tt
   else _save_social_post platform content vehicle_vin) ;;
  n <- lift (py_len content) ;;
  content_preview <- (if (100 <? n)%nat then lift (slice_ellipsis 100 content)
                      else ret content) ;;
  t <- now ;;
  append [("action_type", VStr "social_media_post");
          ("status", VStr "success");
          ("platform", platform);
          ("content_preview", content_preview);
          ("vehicle_vin", vehicle_vin);
          ("hashtags", py_get_default post "hashtags" (VList []));
          ("execution_type", VStr (execution_type_text dry_run));
          ("timestamp", VStr t)] ;;
  lift (slice_prefix 50 content) ;;
  ret tt.

Definition social_media_post_handler (post : dict) (e : exn) : M unit :=
  t <- now ;;
  append [("platform", py_get post "platform");
          ("status", VStr "failed");
          ("error", VStr (exn_str e));
          ("timestamp", VStr t)].

Definition social_media_post_item (dry_run : bool) (post : dict) : M unit :=
  try_except (social_media_post_body dry_run post) (social_media_post_handler post).

Definition execute_social_media_posts (dry_run : bool) (posts : list dict) : M (list dict) :=
  modify (set_results []) ;;
  for_each (social_media_post_item dry_run) posts ;;
  gets results.

(** ** [log_urgent_alerts] *)

Definition urgent_alert_item (alert : dict) : M unit :=
  t <- now ;;
  append [("action_type", VStr "urgent_alert");
          ("status", VStr "logged");
          ("priority", py_get alert "priority");
          ("category", py_get alert "category");
          ("message", py_get alert "message");
          ("recommended_action", py_get alert "recommended_action");
          ("timestamp", VStr t)].

Definition log_urgent_alerts (alerts : list dict) : M (list dict) :=
  modify (set_results []) ;;
  for_each urgent_alert_item alerts ;;
  gets results.

(** ** [_save_action_log] and [get_action_history] *)

Definition _save_action_log (summary : CycleSummary) : M unit :=
  existing <- gets log_file ;;
  let logs := match existing with Some logs => logs | None => [] end in
  let logs := (logs ++ [summary])%list in
  let logs := slice_from (-100) logs in
  modify (set_log_file (Some logs)).

Definition get_action_history (limit : Z) : M (list CycleSummary) :=
  existing <- gets log_file ;;
  match existing with
  | Some logs => ret (slice_from (- limit) logs)
  | None => ret []
  end.

(** ** The methods as [execute_all_actions] calls them

    The decision set is what [json.loads] produced: nothing has checked
    what it holds under a category key when the method is called with it,
    and the validator has looked at the items of two categories only.  The
    annotation [List[Dict]] of the methods is not enforced.  So each method
    is given here once more for an argument of any type: it iterates
    whatever it receives, and calls [.get] on whatever the iteration
    yields.  On a list of dicts these are the methods above. *)

(** One iteration of [execute_price_adjustments].  The [try] opens with
    [adjustment.get], and the dict the [except] clause builds opens with it
    too: on an item that is not a dict the first raises [AttributeError],
    the clause catches it and raises it anew, out of the method. *)
Definition price_adjustment_step (dry_run : bool) (item : value) : M unit :=
  try_except
    (adjustment <- lift (BedrockAgent.getattr_get item) ;;
     price_adjustment_body dry_run adjustment)
    (fun e =>
       adjustment <- lift (BedrockAgent.getattr_get item) ;;
       price_adjustment_handler adjustment e).

(** The progress message formats [len(adjustments)] before the loop. *)
Definition call_execute_price_adjustments (dry_run : bool) (adjustments : value)
  : M (list dict) :=
  modify (set_results []) ;;
  lift (py_len adjustments) ;;
  items <- lift (py_iter adjustments) ;;
  for_each (price_adjustment_step dry_run) items ;;
  gets results.

Definition customer_response_step (dry_run : bool) (item : value) : M unit :=
  try_except
    (response <- lift (BedrockAgent.getattr_get item) ;;
     customer_response_body dry_run response)
    (fun e =>
       response <- lift (BedrockAgent.getattr_get item) ;;
       customer_response_handler response e).

Definition call_execute_customer_responses (dry_run : bool) (responses : value)
  : M (list dict) :=
  modify (set_results []) ;;
  items <- lift (py_iter responses) ;;
  for_each (customer_response_step dry_run) items ;;
  gets results.

Definition social_media_post_step (dry_run : bool) (item : value) : M unit :=
  try_except
    (post <- lift (BedrockAgent.getattr_get item) ;;
     social_media_post_body dry_run post)
    (fun e =>
       post <- lift (BedrockAgent.getattr_get item) ;;
       social_media_post_handler post e).

Definition call_execute_social_media_posts (dry_run : bool) (posts : value)
  : M (list dict) :=
  modify (set_results []) ;;
  items <- lift (py_iter posts) ;;
  for_each (social_media_post_step dry_run) items ;;
  gets results.

(** [log_urgent_alerts] has no [try]: [alert.get] on an item that is not a
    dict raises out of the method, before the clock is read. *)
Definition urgent_alert_step (item : value) : M unit :=
  alert <- lift (BedrockAgent.getattr_get item) ;;
  urgent_alert_item alert.

Definition call_log_urgent_alerts (alerts : value) : M (list dict) :=
  modify (set_results []) ;;
  items <- lift (py_iter alerts) ;;
  for_each urgent_alert_step items ;;
  gets results.

(** ** [execute_all_actions] *)

(** One [if key in decisions:] block: run the category on
    [decisions[key]], file its results under [key], add their number to the
    total and [successes] of them to the successes. *)
Definition record_category (key : string) (decisions : value)
    (run : value -> M (list dict)) (successes : list dict -> Z)
    (summary : CycleSummary) : M CycleSummary :=
  present <- lift (py_contains decisions key) ;;
  if present then
    category <- lift (py_getitem decisions key) ;;
    rs <- run category ;;
    ret (mkCycleSummary (timestamp summary)
           (total_actions summary + Z.of_nat (List.length rs))
           (successful_actions summary + successes rs)
           (failed_actions summary)
           (actions_by_type summary ++ [(key, rs)])%list
           (details summary))
  else ret summary.

Definition all_of (rs : list dict) : Z := Z.of_nat (List.length rs).

Definition execute_all_actions (dry_run : bool) (decisions : value) : M CycleSummary :=
  t <- now ;;
  let summary := mkCycleSummary (VStr t) 0 0 0 [] [] in
  summary <- record_category "price_adjustments" decisions
               (call_execute_price_adjustments dry_run) count_success summary ;;
  summary <- record_category "customer_responses" decisions
               (call_execute_customer_responses dry_run) count_success summary ;;
  summary <- record_category "social_media_posts" decisions
               (call_execute_social_media_posts dry_run) count_success summary ;;
  summary <- record_category "urgent_alerts" decisions
               call_log_urgent_alerts all_of summary ;;
  let summary := mkCycleSummary (timestamp summary) (total_actions summary)
                   (successful_actions summary)
                   (total_actions summary - successful_actions summary)
                   (actions_by_type summary) (details summary) in
  _save_action_log summary ;;
  ret summary.

End Executor.

End ActionExecutor.

(* ================================================================== *)
(** * agents/autonomous_scheduler.py *)
(* ================================================================== *)

Module AutonomousAgent.

Import Py.
Local Open Scope string_scope.
Local Open Scope stmt_scope.

Section Driver.

(** The collaborators of a cycle act on everything outside the agent object
    (files, data frames, the network); each may return or raise, and none of
    them holds a reference to the agent. *)
Variables World Tables Summary Instant : Type.

(** The three [pd.read_csv] calls. *)
Variable read_csvs : stmt World Tables.
(** [self.agent_core.agent_decision_loop(inventory, competitors, inquiries)] *)
Variable decision_loop : Tables -> stmt World value.
(** [self.executor.execute_all_actions(decisions, inventory, inquiries)] *)
Variable execute_all : value -> Tables -> stmt World Summary.
(** [datetime.now()] *)
Variable datetime_now : World -> Instant * World.

(** The fields [__init__] sets, with the world the agent runs in. *)
Record agent : Type := mkAgent {
  is_running : bool;
  run_count : Z;
  last_run : option Instant;
  world : World
}.

Definition set_is_running (b : bool) (a : agent) : agent :=
  mkAgent b (run_count a) (last_run a) (world a).

Definition set_run_count (n : Z) (a : agent) : agent :=
  mkAgent (is_running a) n (last_run a) (world a).

Definition set_last_run (t : option Instant) (a : agent) : agent :=
  mkAgent (is_running a) (run_count a) t (world a).

Definition set_world (w : World) (a : agent) : agent :=
  mkAgent (is_running a) (run_count a) (last_run a) w.

(** A collaborator's call, seen from the agent. *)
Definition call {A} (m : stmt World A) : stmt agent A :=
  fun a => let (r, w) := m (world a) in (r, set_world w a).

Definition now : stmt agent Instant :=
  fun a => let (t, w) := datetime_now (world a) in (Ok t, set_world w a).

(** The body of the [try] in [run_agent_cycle]; the early [return] ends it.
    The analysis line formats [decisions['analysis_summary']] when [in]
    finds the key. *)
Definition cycle_body : stmt agent unit :=
  tables <- call read_csvs ;;
  decisions <- call (decision_loop tables) ;;
  if negb (truthy decisions) then ret tt
  else
    present <- lift (py_contains decisions "analysis_summary") ;;
    (if present then lift (py_getitem decisions "analysis_summary") ;; ret tt
     else ret tt) ;;
    call (execute_all decisions tables) ;;
    modify (fun a => set_run_count (run_count a + 1) a) ;;
    t <- now ;;
    modify (set_last_run (Some t)).

Definition run_agent_cycle : stmt agent unit :=
  try_except cycle_body (fun _ => ret tt).

(** The [while self.is_running:] loop, one list element per iteration: the
    element tells whether [schedule.run_pending()] finds the job due. *)
Fixpoint polling_loop (ticks : list bool) : stmt agent unit :=
  match ticks with
  | [] => ret tt
  | due :: rest =>
      running <- gets is_running ;;
      if running then
        (if due then run_agent_cycle else ret tt) ;;
        polling_loop rest
      else ret tt
  end.

Definition start_autonomous_mode (ticks : list bool) : stmt agent unit :=
  modify (set_is_running true) ;;
  run_agent_cycle ;;
  polling_loop ticks.

Definition stop : stmt agent unit := modify (set_is_running false).

End Driver.

Arguments mkAgent {World Instant} is_running run_count last_run world.
Arguments is_running {World Instant} a.
Arguments run_count {World Instant} a.
Arguments last_run {World Instant} a.
Arguments world {World Instant} a.
Arguments cycle_body {World Tables Summary Instant}.
Arguments run_agent_cycle {World Tables Summary Instant}.
Arguments polling_loop {World Tables Summary Instant}.
Arguments start_autonomous_mode {World Tables Summary Instant}.
Arguments stop {World Instant}.

End AutonomousAgent.

(* ================================================================== *)
(** * Facts about the Python fragment *)
(* ================================================================== *)

Module PyFacts.

Import Py.
Local Open Scope string_scope.

Lemma dict_mem_true d k : dict_mem d k = true <-> dict_get d k <> None.
Proof.
  unfold dict_mem. destruct (dict_get d k); split; congruence.
Qed.

Lemma dict_get_app_absent d k v :
  dict_get d k = None -> dict_get (d ++ [(k, v)])%list k = Some v.
Proof.
  induction d as [|[k' v'] d IH]; simpl.
  - now rewrite String.eqb_refl.
  - destruct (String.eqb k' k); [discriminate | exact IH].
Qed.

Lemma dict_get_app_other d k k' v :
  k' <> k -> dict_get (d ++ [(k, v)])%list k' = dict_get d k'.
Proof.
  intros Hne. induction d as [|[k0 v0] d IH]; simpl.
  - apply String.eqb_neq in Hne. rewrite String.eqb_sym. now rewrite Hne.
  - destruct (String.eqb k0 k'); [reflexivity | exact IH].
Qed.

Lemma dict_get_map_same d k v :
  dict_get d k <> None ->
  dict_get (map (fun kv => if String.eqb (fst kv) k then (fst kv, v) else kv) d) k
  = Some v.
Proof.
  induction d as [|[k' v'] d IH]; simpl; [congruence|].
  destruct (String.eqb k' k) eqn:E; simpl; rewrite E; auto.
Qed.

Lemma dict_get_map_other d k k' v :
  k' <> k ->
  dict_get (map (fun kv => if String.eqb (fst kv) k then (fst kv, v) else kv) d) k'
  = dict_get d k'.
Proof.
  intros Hne. induction d as [|[k0 v0] d IH]; simpl; [reflexivity|].
  destruct (String.eqb k0 k) eqn:E; simpl.
  - apply String.eqb_eq in E. subst k0.
    apply String.eqb_neq in Hne. rewrite String.eqb_sym, Hne. exact IH.
  - destruct (String.eqb k0 k'); [reflexivity | exact IH].
Qed.

Lemma dict_get_set_same d k v : dict_get (dict_set d k v) k = Some v.
Proof.
  unfold dict_set. destruct (dict_mem d k) eqn:E.
  - apply dict_get_map_same. now apply dict_mem_true.
  - apply dict_get_app_absent. unfold dict_mem in E.
    destruct (dict_get d k); [discriminate | reflexivity].
Qed.

Lemma dict_get_set_other d k k' v :
  k' <> k -> dict_get (dict_set d k v) k' = dict_get d k'.
Proof.
  intros Hne. unfold dict_set. destruct (dict_mem d k).
  - now apply dict_get_map_other.
  - now apply dict_get_app_other.
Qed.

(** ** Running statements *)

Lemma run_bind {S A B} (m : stmt S A) (k : A -> stmt S B) s a s' :
  m s = (Ok a, s') -> bind m k s = k a s'.
Proof. unfold bind. intros ->. reflexivity. Qed.

Lemma run_modify {S B} (f : S -> S) (k : unit -> stmt S B) s :
  bind (modify f) k s = k tt (f s).
Proof. reflexivity. Qed.

Lemma run_gets {S A B} (f : S -> A) (k : A -> stmt S B) s :
  bind (gets f) k s = k (f s) s.
Proof. reflexivity. Qed.

Lemma run_ret {S A B} (a : A) (k : A -> stmt S B) s :
  bind (ret a) k s = k a s.
Proof. reflexivity. Qed.

Lemma run_lift {S A B} (a : A) (k : A -> stmt S B) s :
  bind (lift (Ok a)) k s = k a s.
Proof. reflexivity. Qed.

Lemma run_raise {S A B} (e : exn) (k : A -> stmt S B) s :
  bind (lift (Raise e)) k s = (Raise e, s).
Proof. reflexivity. Qed.

(** Statements that agree on every state can replace one another. *)
Lemma bind_cong {S A B} (m m' : stmt S A) (k k' : A -> stmt S B) :
  (forall s, m s = m' s) -> (forall a s, k a s = k' a s) ->
  forall s, bind m k s = bind m' k' s.
Proof.
  intros Hm Hk s. unfold bind. rewrite Hm.
  destruct (m' s) as [[a|e] s1]; [apply Hk | reflexivity].
Qed.

Lemma for_each_cong {S A B} (f : A -> stmt S unit) (g : B -> stmt S unit)
    (h : B -> A) :
  (forall x s, f (h x) s = g x s) ->
  forall xs s, for_each f (map h xs) s = for_each g xs s.
Proof.
  intros H. induction xs as [|x xs IH]; intros s; [reflexivity|].
  cbn [map for_each]. apply bind_cong; [apply H | intros _; exact IH].
Qed.

(** ** [l[start:]] *)

Lemma slice_from_zero {A} (l : list A) : slice_from 0 l = l.
Proof.
  unfold slice_from. simpl. rewrite Z.min_l by lia. reflexivity.
Qed.

(** A negative start keeps the last [n] elements, all of them when the list
    is shorter. *)
Lemma slice_from_neg {A} (n : nat) (l : list A) :
  (0 < n)%nat ->
  slice_from (- Z.of_nat n) l = skipn (List.length l - n) l.
Proof.
  intros Hn. unfold slice_from. cbv zeta.
  destruct (- Z.of_nat n <? 0)%Z eqn:E; [|apply Z.ltb_ge in E; lia].
  f_equal.
  destruct (Z.max_spec 0 (Z.of_nat (List.length l) + - Z.of_nat n)) as [[? ->]|[? ->]];
    lia.
Qed.

(** The last [n] elements of a list. *)
Definition last_n {A} (n : nat) (l : list A) : list A :=
  skipn (List.length l - n) l.

Lemma last_n_rev {A} (n : nat) (l : list A) :
  last_n n l = rev (firstn n (rev l)).
Proof.
  unfold last_n. rewrite firstn_rev, rev_involutive. reflexivity.
Qed.

(** Appending and keeping the last [n] can be done on the already cut
    list. *)
Lemma last_n_app_last_n {A} (n : nat) (l : list A) (x : A) :
  last_n n (last_n n l ++ [x]) = last_n n (l ++ [x]).
Proof.
  rewrite (last_n_rev n (l ++ [x])), (last_n_rev n (last_n n l ++ [x])).
  rewrite !rev_app_distr. simpl.
  rewrite (last_n_rev n l), rev_involutive.
  destruct n as [|m]; [reflexivity|].
  rewrite !firstn_cons, firstn_firstn, Nat.min_l by lia. reflexivity.
Qed.

Lemma last_n_short {A} (n : nat) (l : list A) :
  (List.length l <= n)%nat -> last_n n l = l.
Proof.
  intros H. unfold last_n. replace (List.length l - n)%nat with 0%nat by lia.
  reflexivity.
Qed.

Lemma last_n_length {A} (n : nat) (l : list A) :
  List.length (last_n n l) = Nat.min n (List.length l).
Proof.
  unfold last_n. rewrite length_skipn. lia.
Qed.

(** The last [n] of [l0 ++ xs] are the last [n] of [xs] once [xs] has [n]
    elements. *)
Lemma last_n_app_long {A} (n : nat) (l0 xs : list A) :
  (n <= List.length xs)%nat -> last_n n (l0 ++ xs) = last_n n xs.
Proof.
  intros H. unfold last_n. rewrite length_app, skipn_app.
  replace (List.length l0 + List.length xs - n - List.length l0)%nat
    with (List.length xs - n)%nat by lia.
  rewrite skipn_all2 by lia. reflexivity.
Qed.

Lemma slice_from_last_n {A} (n : nat) (l : list A) :
  (0 < n)%nat -> slice_from (- Z.of_nat n) l = last_n n l.
Proof.
  exact (@slice_from_neg A n l).
Qed.

End PyFacts.

(* ================================================================== *)
(** * The decision validator and the decision loop *)
(* ================================================================== *)

Module BedrockAgentFacts.

Import Py PyFacts BedrockAgent.
Local Open Scope string_scope.

(** The value a decision set holds under a category key. *)
Definition category (decisions : value) (key : string) : option value :=
  match decisions with
  | VDict d => dict_get d key
  | _ => None
  end.

(** The item is a mapping whose [field] is a string of [valid]. *)
Definition id_in (field : string) (valid : list string) (item : value) : Prop :=
  exists d s, item = VDict d /\ dict_get d field = Some (VStr s) /\ In s valid.

(** The test the comprehension applies to an item it can evaluate. *)
Definition keeps (field : string) (valid : list string) (item : value) : bool :=
  match item with
  | VDict d => match py_get d field with
               | VStr s => existsb (String.eqb s) valid
               | _ => false
               end
  | _ => false
  end.

(** The items the comprehension evaluates without raising. *)
Definition item_okb (field : string) (item : value) : bool :=
  match item with
  | VDict d => hashable (py_get d field)
  | _ => false
  end.

(** A category is absent, or a list of such items. *)
Definition category_okb (field key : string) (d : dict) : bool :=
  match dict_get d key with
  | None => true
  | Some (VList items) => forallb (item_okb field) items
  | Some _ => false
  end.

Definition well_shaped (decisions : value) : bool :=
  match decisions with
  | VDict d => category_okb "vin" "price_adjustments" d
               && category_okb "inquiry_id" "customer_responses" d
  | _ => false
  end.

(** What [_validate_decisions] guarantees for one filtered category. *)
Definition filtered (field key : string) (valid : list string)
    (decisions out : value) : Prop :=
  forall validated, category out key = Some validated ->
    exists kept original items,
      validated = VList kept /\
      category decisions key = Some original /\
      py_iter original = Ok items /\
      Forall (id_in field valid) kept /\
      (List.length kept <= List.length items)%nat /\
      incl kept items.

Lemma comprehension_filter field valid items kept :
  comprehension field valid items = Ok kept ->
  kept = filter (keeps field valid) items.
Proof.
  revert kept. induction items as [|x rest IH]; intros kept H; simpl in H.
  - now inversion H.
  - destruct x as [| | | | |l|d]; simpl in H; try discriminate.
    unfold keeps at 1. fold (keeps field valid).
    destruct (py_get d field) eqn:Eg; simpl in H; try discriminate;
      destruct (comprehension field valid rest) as [kept'|e];
      simpl in H; try discriminate;
      inversion H; subst kept; simpl; rewrite Eg;
      rewrite <- (IH kept' eq_refl); reflexivity.
Qed.

Lemma keeps_id_in field valid item :
  keeps field valid item = true -> id_in field valid item.
Proof.
  destruct item as [| | | | |l|d]; simpl; try discriminate.
  unfold py_get. destruct (dict_get d field) as [v|] eqn:Eg; [|discriminate].
  destruct v; try discriminate.
  intros H. apply existsb_exists in H. destruct H as [x [Hin Heq]].
  apply String.eqb_eq in Heq. subst x.
  exists d, s. auto.
Qed.

Lemma comprehension_sound field valid items kept :
  comprehension field valid items = Ok kept ->
  Forall (id_in field valid) kept /\
  (List.length kept <= List.length items)%nat /\
  incl kept items.
Proof.
  intros H. apply comprehension_filter in H. subst kept.
  split; [|split].
  - apply Forall_forall. intros x Hx. apply filter_In in Hx.
    apply keeps_id_in. tauto.
  - apply filter_length_le.
  - apply incl_filter.
Qed.

Lemma comprehension_total field valid items :
  forallb (item_okb field) items = true ->
  exists kept, comprehension field valid items = Ok kept.
Proof.
  induction items as [|x rest IH]; simpl; intros H.
  - eauto.
  - apply andb_prop in H. destruct H as [Hx Hrest].
    destruct (IH Hrest) as [kept Hk]. rewrite Hk.
    destruct x as [| | | | |l|d]; simpl in Hx; try discriminate. simpl.
    destruct (py_get d field); simpl in *; try discriminate; eauto.
Qed.

(** What one [if key in decisions:] block does to a dict. *)
Lemma filter_category_dict field key valid d out :
  filter_category field key valid (VDict d) = Ok out ->
  match dict_get d key with
  | None => out = VDict d
  | Some original =>
      exists items kept,
        py_iter original = Ok items /\
        comprehension field valid items = Ok kept /\
        out = VDict (dict_set d key (VList kept))
  end.
Proof.
  unfold filter_category. simpl. unfold dict_mem.
  destruct (dict_get d key) as [original|]; simpl.
  - destruct (py_len original); simpl; [|discriminate].
    destruct (py_iter original) as [items|]; simpl; [|discriminate].
    destruct (comprehension field valid items) as [kept|] eqn:Ec; simpl;
      [|discriminate].
    intros H. inversion H. exists items, kept. auto.
  - intros H. now inversion H.
Qed.

(** Anything that is not a dict comes back as it is, if it comes back. *)
Lemma filter_category_other field key valid decisions out :
  (forall d, decisions <> VDict d) ->
  filter_category field key valid decisions = Ok out -> out = decisions.
Proof.
  intros Hnd. unfold filter_category.
  destruct decisions; simpl; try discriminate.
  - destruct (String.index 0 key s); simpl; [discriminate|].
    intros H. now inversion H.
  - destruct (existsb _ l); simpl; [discriminate|].
    intros H. now inversion H.
  - now destruct (Hnd d).
Qed.

Lemma filter_category_frame field key valid decisions out k :
  filter_category field key valid decisions = Ok out ->
  k <> key -> category out k = category decisions k.
Proof.
  intros H Hne. destruct decisions as [| | | | | |d];
    try (apply filter_category_other in H; [subst; reflexivity | congruence]).
  apply filter_category_dict in H.
  destruct (dict_get d key) as [original|].
  - destruct H as (items & kept & _ & _ & ->). simpl.
    now apply dict_get_set_other.
  - now subst.
Qed.

Lemma filter_category_key field key valid decisions out :
  filter_category field key valid decisions = Ok out ->
  filtered field key valid decisions out.
Proof.
  intros H validated Hv. destruct decisions as [| | | | | |d];
    try (apply filter_category_other in H; [subst; discriminate | congruence]).
  apply filter_category_dict in H. simpl.
  destruct (dict_get d key) as [original|] eqn:Eo.
  - destruct H as (items & kept & Hit & Hc & ->). simpl in Hv.
    rewrite dict_get_set_same in Hv. inversion Hv. subst validated.
    exists kept, original, items.
    apply comprehension_sound in Hc. destruct Hc as (? & ? & ?).
    repeat split; auto.
  - subst out. simpl in Hv. congruence.
Qed.

Lemma filter_category_total field key valid d :
  category_okb field key d = true ->
  exists out, filter_category field key valid (VDict d) = Ok (VDict out) /\
              (forall k, dict_get d k = None -> dict_get out k = None) /\
              (forall k, k <> key -> dict_get out k = dict_get d k) /\
              (forall kept, dict_get out key = Some (VList kept) ->
                 exists items, dict_get d key = Some (VList items) /\
                               kept = filter (keeps field valid) items).
Proof.
  unfold category_okb, filter_category. simpl. unfold dict_mem.
  destruct (dict_get d key) as [original|] eqn:Eo.
  - destruct original as [| | | | |items|]; try discriminate. intros Hok.
    destruct (comprehension_total field valid items Hok) as [kept Hk].
    simpl. rewrite Hk. simpl.
    exists (dict_set d key (VList kept)). split; [reflexivity|].
    split; [|split].
    + intros k Hk0. rewrite dict_get_set_other; [assumption | congruence].
    + intros k Hne. now apply dict_get_set_other.
    + intros kept' Hk'. rewrite dict_get_set_same in Hk'. inversion Hk'. subst.
      exists items. split; [reflexivity|]. now apply comprehension_filter.
  - intros _. exists d. split; [reflexivity|].
    split; [auto|]. split; [auto|]. intros kept Hk. congruence.
Qed.

Lemma validate_total d valid_vins valid_inquiry_ids :
  well_shaped (VDict d) = true ->
  exists out,
    _validate_decisions (VDict d) valid_vins valid_inquiry_ids = Ok (VDict out) /\
    (forall k, dict_get d k = None -> dict_get out k = None) /\
    (forall kept, dict_get out "price_adjustments" = Some (VList kept) ->
       exists items, dict_get d "price_adjustments" = Some (VList items) /\
                     kept = filter (keeps "vin" valid_vins) items) /\
    (forall kept, dict_get out "customer_responses" = Some (VList kept) ->
       exists items, dict_get d "customer_responses" = Some (VList items) /\
                     kept = filter (keeps "inquiry_id" valid_inquiry_ids) items).
Proof.
  simpl. intros H. apply andb_prop in H. destruct H as [Hp Hc].
  destruct (filter_category_total "vin" "price_adjustments" valid_vins d Hp)
    as (d1 & E1 & Habs1 & Hfr1 & Hkey1).
  assert (Hc1 : category_okb "inquiry_id" "customer_responses" d1 = true).
  { unfold category_okb in *. rewrite Hfr1 by discriminate. exact Hc. }
  destruct (filter_category_total "inquiry_id" "customer_responses"
              valid_inquiry_ids d1 Hc1) as (d2 & E2 & Habs2 & Hfr2 & Hkey2).
  exists d2. unfold _validate_decisions. rewrite E1. simpl. rewrite E2.
  split; [reflexivity|]. split; [|split].
  - intros k Hk. apply Habs2, Habs1, Hk.
  - intros kept Hk. rewrite Hfr2 in Hk by discriminate. now apply Hkey1.
  - intros kept Hk. destruct (Hkey2 kept Hk) as (items & Hi & ->).
    rewrite Hfr1 in Hi by discriminate. eauto.
Qed.

(** C1. Whenever [_validate_decisions] returns, every item left under
    [price_adjustments] is a mapping whose [vin] is in [valid_vins], every
    item left under [customer_responses] is one whose [inquiry_id] is in
    [valid_inquiry_ids], each list is no longer than the one it was filtered
    from (and made of its items), and [social_media_posts] and
    [urgent_alerts] are what they were.  On a decision set whose two
    filtered categories are absent or lists of mappings with hashable
    identifiers the function does return. *)
Theorem validate_filtering decisions valid_vins valid_inquiry_ids :
  (well_shaped decisions = true ->
   exists out, _validate_decisions decisions valid_vins valid_inquiry_ids = Ok out) /\
  (forall out,
     _validate_decisions decisions valid_vins valid_inquiry_ids = Ok out ->
     filtered "vin" "price_adjustments" valid_vins decisions out /\
     filtered "inquiry_id" "customer_responses" valid_inquiry_ids decisions out /\
     category out "social_media_posts" = category decisions "social_media_posts" /\
     category out "urgent_alerts" = category decisions "urgent_alerts").
Proof.
  split.
  - intros Hw. destruct decisions as [| | | | | |d]; try discriminate.
    destruct (validate_total d valid_vins valid_inquiry_ids Hw) as (out & E & _).
    eauto.
  - intros out H. unfold _validate_decisions in H.
    destruct (filter_category "vin" "price_adjustments" valid_vins decisions)
      as [d1|] eqn:E1; simpl in H; [|discriminate].
    assert (K1 := E1). apply filter_category_key in K1.
    assert (K2 := H). apply filter_category_key in K2.
    assert (F1 : forall k, k <> "price_adjustments" ->
                           category d1 k = category decisions k)
      by (intros; eapply filter_category_frame; eassumption).
    assert (F2 : forall k, k <> "customer_responses" ->
                           category out k = category d1 k)
      by (intros; eapply filter_category_frame; eassumption).
    split; [|split; [|split]].
    + intros validated Hv. rewrite F2 in Hv by discriminate. now apply K1.
    + intros validated Hv.
      destruct (K2 validated Hv) as (kept & original & items & ? & Ho & ?).
      rewrite F1 in Ho by discriminate. exists kept, original, items. tauto.
    + rewrite F2, F1 by discriminate. reflexivity.
    + rewrite F2, F1 by discriminate. reflexivity.
Qed.

(** The proposal of the scenario: one known VIN, one invented, one item
    without a VIN, and an inquiry id that does not exist. *)
Definition sample_decisions : value :=
  VDict [("analysis_summary", VStr "two aged vehicles");
         ("price_adjustments",
          VList [VDict [("vin", VStr "ABC123"); ("recommended_price", VInt 18000)];
                 VDict [("vin", VStr "FAKE999"); ("recommended_price", VInt 1)];
                 VDict [("recommended_price", VInt 5)]]);
         ("customer_responses", VList [VDict [("inquiry_id", VStr "INQ999")]]);
         ("urgent_alerts", VList [VDict [("priority", VStr "high")]])].

Lemma validate_filtering_witness :
  _validate_decisions sample_decisions ["ABC123"] ["INQ20000"]
  = Ok (VDict [("analysis_summary", VStr "two aged vehicles");
               ("price_adjustments",
                VList [VDict [("vin", VStr "ABC123");
                              ("recommended_price", VInt 18000)]]);
               ("customer_responses", VList []);
               ("urgent_alerts", VList [VDict [("priority", VStr "high")]])])
  /\ filtered "vin" "price_adjustments" ["ABC123"] sample_decisions
       (VDict [("analysis_summary", VStr "two aged vehicles");
               ("price_adjustments",
                VList [VDict [("vin", VStr "ABC123");
                              ("recommended_price", VInt 18000)]]);
               ("customer_responses", VList []);
               ("urgent_alerts", VList [VDict [("priority", VStr "high")]])]).
Proof.
  split; [reflexivity|].
  apply (proj2 (validate_filtering sample_decisions ["ABC123"] ["INQ20000"])).
  reflexivity.
Defined.

(** C7, as the claim states it, fails: an item that is not a mapping makes
    the validator raise. *)
Lemma validate_raises_on_non_mapping_item :
  _validate_decisions (VDict [("price_adjustments", VList [VStr "ABC123"])])
    ["ABC123"] []
  = Raise (AttributeError "'str' object has no attribute 'get'").
Proof. reflexivity. Qed.

(** An identifier that cannot be hashed does the same. *)
Lemma validate_raises_on_unhashable_id :
  _validate_decisions
    (VDict [("customer_responses", VList [VDict [("inquiry_id", VList [])]])])
    [] []
  = Raise (TypeError "unhashable type: 'list'").
Proof. reflexivity. Qed.

(** C7, amended.  On a mapping whose [price_adjustments] and
    [customer_responses], when present, are lists of mappings with hashable
    identifiers, [_validate_decisions] returns a mapping; a key absent from
    the input is absent from the output; and an item without the identifier
    field is not in the filtered list. *)
Theorem validate_never_raises_on_mappings d valid_vins valid_inquiry_ids :
  well_shaped (VDict d) = true ->
  exists out,
    _validate_decisions (VDict d) valid_vins valid_inquiry_ids = Ok (VDict out) /\
    (forall key, dict_get d key = None -> dict_get out key = None) /\
    (forall kept item,
       dict_get out "price_adjustments" = Some (VList kept) ->
       dict_get item "vin" = None -> ~ In (VDict item) kept) /\
    (forall kept item,
       dict_get out "customer_responses" = Some (VList kept) ->
       dict_get item "inquiry_id" = None -> ~ In (VDict item) kept).
Proof.
  intros Hw.
  destruct (validate_total d valid_vins valid_inquiry_ids Hw)
    as (out & E & Habs & Hp & Hc).
  exists out. split; [exact E|]. split; [exact Habs|]. split.
  - intros kept item Hk Hnone Hin.
    destruct (Hp kept Hk) as (items & _ & ->).
    apply filter_In in Hin. destruct Hin as [_ Hkeep].
    simpl in Hkeep. unfold py_get in Hkeep. rewrite Hnone in Hkeep. discriminate.
  - intros kept item Hk Hnone Hin.
    destruct (Hc kept Hk) as (items & _ & ->).
    apply filter_In in Hin. destruct Hin as [_ Hkeep].
    simpl in Hkeep. unfold py_get in Hkeep. rewrite Hnone in Hkeep. discriminate.
Qed.

Lemma validate_never_raises_on_mappings_witness :
  exists out,
    _validate_decisions sample_decisions ["ABC123"] ["INQ20000"] = Ok (VDict out) /\
    (forall key, category sample_decisions key = None -> dict_get out key = None) /\
    (forall kept item,
       dict_get out "price_adjustments" = Some (VList kept) ->
       dict_get item "vin" = None -> ~ In (VDict item) kept) /\
    (forall kept item,
       dict_get out "customer_responses" = Some (VList kept) ->
       dict_get item "inquiry_id" = None -> ~ In (VDict item) kept).
Proof.
  apply (validate_never_raises_on_mappings _ ["ABC123"] ["INQ20000"]).
  reflexivity.
Defined.

(** ** The decision loop *)

Section DecisionLoopFacts.

Variable json_loads : string -> result value.

Definition no_fallback : exn :=
  AttributeError
    "'BedrockAgentCore' object has no attribute '_generate_fallback_decisions'".

Lemma call_generate_fallback_decisions_raises :
  call_generate_fallback_decisions = Raise no_fallback.
Proof. reflexivity. Qed.

(** The loop has two outcomes only.  It returns exactly when the reply
    is a non-empty text, [json.loads] accepts what [_extract_json] cut out
    of it and the validator returns: what the loop returns is then the
    validator's result on the parsed reply.  In every other case (no reply,
    an empty reply, text the parser rejects, a parser or validator that
    raises anything) it raises the [AttributeError] of the missing method:
    no path returns a fallback decision set. *)
Lemma agent_decision_loop_outcomes response valid_vins valid_inquiry_ids :
  (exists text parsed decisions,
     response = Some text /\ text <> "" /\
     json_loads (_extract_json text) = Ok parsed /\
     _validate_decisions parsed valid_vins valid_inquiry_ids = Ok decisions /\
     agent_decision_loop json_loads response valid_vins valid_inquiry_ids
     = Ok decisions) \/
  ((forall text parsed decisions,
      response = Some text -> text <> "" ->
      json_loads (_extract_json text) = Ok parsed ->
      _validate_decisions parsed valid_vins valid_inquiry_ids <> Ok decisions) /\
   agent_decision_loop json_loads response valid_vins valid_inquiry_ids
   = Raise no_fallback).
Proof.
  unfold agent_decision_loop, rescue.
  rewrite call_generate_fallback_decisions_raises.
  destruct response as [text|]; [|right; split; [discriminate | reflexivity]].
  destruct (String.eqb_spec text "") as [->|Hne].
  { right. split; [|reflexivity]. intros text parsed decisions H Hne.
    inversion H. congruence. }
  destruct (json_loads (_extract_json text)) as [parsed|e] eqn:Hparse; cbn.
  - destruct (_validate_decisions parsed valid_vins valid_inquiry_ids)
      as [decisions|e] eqn:Hvalid.
    + left. exists text, parsed, decisions. auto.
    + right. split; [|destruct e; reflexivity].
      intros text' parsed' decisions' H _ Hp. inversion H. subst text'.
      rewrite Hparse in Hp. inversion Hp. subst parsed'. congruence.
  - right. split; [|destruct e; reflexivity].
    intros text' parsed decisions H _ Hp. inversion H. subst text'.
    rewrite Hparse in Hp. discriminate.
Qed.

Lemma agent_decision_loop_unparseable text msg valid_vins valid_inquiry_ids :
  json_loads (_extract_json text) = Raise (JSONDecodeError msg) ->
  agent_decision_loop json_loads (Some text) valid_vins valid_inquiry_ids
  = Raise no_fallback.
Proof.
  intros H. unfold agent_decision_loop, rescue.
  rewrite call_generate_fallback_decisions_raises.
  destruct (String.eqb text ""); [reflexivity|].
  rewrite H. reflexivity.
Qed.

End DecisionLoopFacts.

(** C2 fails on the code.  With no reply ([None]) the loop raises
    [AttributeError] whatever the parser and the identifier sets are, and so
    it does on a reply the parser rejects: the recovery paths call a method
    the class does not define, and the outer handler calls it again. *)
Theorem decision_loop_fallback_raises
    (json_loads : string -> result value) (valid_vins valid_inquiry_ids : list string) :
  agent_decision_loop json_loads None valid_vins valid_inquiry_ids
  = Raise no_fallback /\
  agent_decision_loop (fun _ => Raise (JSONDecodeError "Expecting value"))
    (Some "I cannot help with that") valid_vins valid_inquiry_ids
  = Raise no_fallback.
Proof. split; reflexivity. Qed.

End BedrockAgentFacts.

(* ================================================================== *)
(** * The action log *)
(* ================================================================== *)

Module ActionLogFacts.

Import Py PyFacts ActionExecutor.
Local Open Scope string_scope.

(** The entries of the log file, none while the file does not exist. *)
Definition logs_of (s : state) : list CycleSummary :=
  match log_file s with
  | Some logs => logs
  | None => []
  end.

(** [N] appends, one [_save_action_log] per summary. *)
Definition append_all (summaries : list CycleSummary) : M unit :=
  for_each _save_action_log summaries.

Lemma last_n_app_last_n_many {A} (n : nat) (l ys : list A) :
  last_n n (last_n n l ++ ys) = last_n n (l ++ ys).
Proof.
  rewrite (last_n_rev n (l ++ ys)), (last_n_rev n (last_n n l ++ ys)).
  rewrite !rev_app_distr, !firstn_app.
  rewrite (last_n_rev n l), rev_involutive.
  rewrite firstn_firstn. f_equal. f_equal. f_equal. lia.
Qed.

Lemma save_action_log_step summary s :
  _save_action_log summary s
  = (Ok tt, set_log_file (Some (last_n 100 (logs_of s ++ [summary]))) s).
Proof.
  unfold _save_action_log, bind, gets, modify, logs_of.
  change (-100)%Z with (- Z.of_nat 100)%Z.
  rewrite slice_from_last_n by lia. reflexivity.
Qed.

Lemma append_all_spec summaries :
  forall s, exists s',
    append_all summaries s = (Ok tt, s') /\
    (summaries <> [] ->
     log_file s' = Some (last_n 100 (logs_of s ++ summaries))) /\
    inventory_df s' = inventory_df s /\ inquiries_df s' = inquiries_df s /\
    inventory_csv s' = inventory_csv s /\ inquiries_csv s' = inquiries_csv s.
Proof.
  unfold append_all.
  induction summaries as [|x rest IH]; intros s.
  - exists s. simpl. unfold ret. repeat split; auto. congruence.
  - simpl. unfold bind at 1. rewrite save_action_log_step.
    destruct (IH (set_log_file (Some (last_n 100 (logs_of s ++ [x]))) s))
      as (s' & Hrun & Hlog & Hrest).
    exists s'. split; [exact Hrun|]. split; [|exact Hrest].
    intros _. destruct rest as [|y rest'].
    + simpl in Hrun. unfold ret in Hrun. inversion Hrun. reflexivity.
    + rewrite Hlog by discriminate.
      unfold logs_of at 1, set_log_file. cbn [log_file].
      rewrite last_n_app_last_n_many, <- app_assoc. reflexivity.
Qed.

(** C3. After [N > 100] summaries have been appended, whatever the log held
    before (or if it did not exist), the log file holds exactly the last 100
    of them, in the order they were appended: the first [N - 100] are gone.
    The appends never raise. *)
Theorem action_log_bounded (summaries : list CycleSummary) (s : state) :
  (100 < List.length summaries)%nat ->
  exists s',
    append_all summaries s = (Ok tt, s') /\
    log_file s' = Some (skipn (List.length summaries - 100) summaries) /\
    List.length (logs_of s') = 100%nat.
Proof.
  intros HN.
  destruct (append_all_spec summaries s) as (s' & Hrun & Hlog & _).
  assert (Hne : summaries <> []) by (destruct summaries; simpl in HN; [lia | discriminate]).
  specialize (Hlog Hne).
  rewrite last_n_app_long in Hlog by lia.
  exists s'. split; [exact Hrun|]. split; [exact Hlog|].
  unfold logs_of. rewrite Hlog. rewrite last_n_length. lia.
Qed.

(** A summary told apart by its total only. *)
Definition summary_n (n : Z) : CycleSummary :=
  mkCycleSummary (VStr "t") n n 0 [] [].

Definition empty_state : state := mkState [] [] [] [] [] [] [] None 0.

Lemma action_log_bounded_witness :
  exists s',
    append_all (map summary_n (map Z.of_nat (seq 0 103))) empty_state = (Ok tt, s') /\
    log_file s' = Some (map summary_n (map Z.of_nat (seq 3 100))) /\
    List.length (logs_of s') = 100%nat.
Proof.
  apply (action_log_bounded (map summary_n (map Z.of_nat (seq 0 103))) empty_state).
  vm_compute. lia.
Defined.

(** While fewer summaries have been appended than the bound, none is lost. *)
Lemma action_log_short (summaries : list CycleSummary) (s : state) :
  summaries <> [] ->
  (List.length (logs_of s) + List.length summaries <= 100)%nat ->
  exists s',
    append_all summaries s = (Ok tt, s') /\
    log_file s' = Some (logs_of s ++ summaries)%list.
Proof.
  intros Hne Hlen.
  destruct (append_all_spec summaries s) as (s' & Hrun & Hlog & _).
  exists s'. split; [exact Hrun|]. rewrite (Hlog Hne).
  rewrite last_n_short; [reflexivity|]. rewrite length_app. lia.
Qed.

(** ** [get_action_history] *)

(** With a positive limit the query returns the last [limit] entries, in
    order, and changes nothing; without a log file it returns the empty
    list. *)
Lemma get_action_history_positive (limit : Z) (s : state) :
  (0 < limit)%Z ->
  get_action_history limit s = (Ok (last_n (Z.to_nat limit) (logs_of s)), s) /\
  (List.length (last_n (Z.to_nat limit) (logs_of s)) <= Z.to_nat limit)%nat.
Proof.
  intros Hpos. split.
  - unfold get_action_history, bind, gets, ret, logs_of.
    destruct (log_file s) as [logs|]; [|now destruct (Z.to_nat limit)].
    replace limit with (Z.of_nat (Z.to_nat limit)) at 1 by lia.
    rewrite slice_from_last_n by lia. reflexivity.
  - rewrite last_n_length. lia.
Qed.

Lemma get_action_history_no_file (limit : Z) (s : state) :
  log_file s = None -> get_action_history limit s = (Ok [], s).
Proof.
  intros H. unfold get_action_history, bind, gets, ret. rewrite H. reflexivity.
Qed.

(** A log of three cycles. *)
Definition three_cycles : state :=
  mkState [] [] [] [] [] [] [] (Some [summary_n 1; summary_n 2; summary_n 3]) 0.

Lemma get_action_history_positive_witness :
  get_action_history 2 three_cycles
  = (Ok [summary_n 2; summary_n 3], three_cycles) /\
  (2 <= 2)%nat.
Proof. exact (get_action_history_positive 2 three_cycles eq_refl). Defined.

Lemma action_log_short_witness :
  exists s',
    append_all [summary_n 1; summary_n 2] empty_state = (Ok tt, s') /\
    log_file s' = Some [summary_n 1; summary_n 2].
Proof.
  apply (action_log_short [summary_n 1; summary_n 2] empty_state);
    [discriminate | cbn; lia].
Defined.

(** C10 fails on the code at [limit = 0]: [logs[-0:]] is [logs[0:]], the
    whole log, so the query returns three entries where at most zero were
    asked for.  A limit of one returns the last entry, as intended. *)
Theorem get_action_history_zero_limit :
  get_action_history 0 three_cycles
  = (Ok [summary_n 1; summary_n 2; summary_n 3], three_cycles) /\
  get_action_history 1 three_cycles = (Ok [summary_n 3], three_cycles).
Proof. split; reflexivity. Qed.

(** The same for every log: a zero limit returns all of it. *)
Lemma get_action_history_zero (s : state) :
  get_action_history 0 s = (Ok (logs_of s), s).
Proof.
  unfold get_action_history, bind, gets, ret, logs_of.
  destruct (log_file s); [|reflexivity].
  change (- 0)%Z with 0%Z. rewrite slice_from_zero. reflexivity.
Qed.

End ActionLogFacts.

(* ================================================================== *)
(** * The action executor *)
(* ================================================================== *)

Module ExecutorFacts.

Import Py PyFacts ActionExecutor.
Local Open Scope string_scope.

(** The status a result carries. *)
Definition status_of (r : dict) : option value := dict_get r "status".

(** The state after a method has appended [rs] and read the clock [k]
    times, everything else being as it was. *)
Definition advanced (rs : list dict) (k : nat) (s : state) : state :=
  set_clock (clock s + k) (set_results (results s ++ rs)%list s).

Ltac run_stmt :=
  unfold bind, ret, lift, gets, modify, try_except, append, now; cbn.

(** Case analysis on an innermost scrutinee of the goal. *)
Ltac destruct_inner :=
  match goal with
  | |- context [match ?x with _ => _ end] =>
      lazymatch x with
      | context [match _ with _ => _ end] => fail
      | _ => destruct x eqn:?; cbn
      end
  end.

Ltac use_frame :=
  try match goal with
      | H : results _ = results _ |- _ => rewrite H
      end.

(** Two states built from the same one are equal when their fields are. *)
Ltac state_eq :=
  unfold advanced, set_clock, set_results, set_inventory_df, set_inquiries_df,
    set_inventory_csv, set_inquiries_csv, set_emails, set_social, set_log_file;
  cbn; rewrite ?Nat.add_1_r, ?Nat.add_0_r, ?app_nil_r, <- ?app_assoc;
  try reflexivity.

Section ExecutorProofs.

Variable listlike_eq : list string -> value -> result (list bool).
Variable float_of_string : string -> option float.
Variable isoformat : nat -> string.

Local Abbreviation price_body :=
  (price_adjustment_body listlike_eq float_of_string isoformat).
Local Abbreviation price_item :=
  (price_adjustment_item listlike_eq float_of_string isoformat).
Local Abbreviation price_handler := (price_adjustment_handler isoformat).



Lemma apply_price_change_frame v p s r s' :
  apply_price_change listlike_eq isoformat v p s = (r, s') ->
  results s' = results s /\ inquiries_df s' = inquiries_df s /\
  inquiries_csv s' = inquiries_csv s /\ log_file s' = log_file s.
Proof.
  unfold apply_price_change, inventory_loc_set, inventory_to_csv. run_stmt.
  repeat destruct_inner; intros H; inversion H; subst; cbn; auto.
Qed.



End ExecutorProofs.

(** ** Loops that append one result per item *)



(** ** Masks of a string identifier *)

Lemma select_eqb_filter {A} (key : A -> string) (v : string) (rows : list A) :
  select (map (fun cell => String.eqb cell v) (map key rows)) rows
  = filter (fun r => String.eqb (key r) v) rows.
Proof.
  induction rows as [|r rows IH]; cbn; [reflexivity|].
  rewrite IH. reflexivity.
Qed.

Lemma set_where_eqb_map {A} (key : A -> string) (v : string) (f : A -> A)
    (rows : list A) :
  set_where (map (fun cell => String.eqb cell v) (map key rows)) f rows
  = map (fun r => if String.eqb (key r) v then f r else r) rows.
Proof.
  induction rows as [|r rows IH]; cbn; [reflexivity|].
  rewrite IH. reflexivity.
Qed.

Lemma filter_existsb_cons {A} (p : A -> bool) (rows : list A) :
  existsb p rows = true -> exists r rest, filter p rows = r :: rest /\ p r = true.
Proof.
  induction rows as [|x rows IH]; cbn; [discriminate|].
  destruct (p x) eqn:E; cbn; eauto.
Qed.

(** The inventory after the price and the date of the rows with VIN [v]
    have been written. *)
Definition repriced (v : string) (price : float) (date : string)
    (rows : list InventoryRecord) : list InventoryRecord :=
  map (fun r => if String.eqb (vin r) v
                then set_last_price_change date (set_current_price price r)
                else r) rows.

Lemma repriced_two_steps v price date rows :
  map (fun r => if String.eqb (vin r) v then set_last_price_change date r else r)
    (map (fun r => if String.eqb (vin r) v then set_current_price price r else r)
       rows)
  = repriced v price date rows.
Proof.
  unfold repriced. rewrite map_map. apply map_ext. intros r.
  destruct (String.eqb (vin r) v) eqn:E; cbn; rewrite E; reflexivity.
Qed.

(** A price that is truthy and that the float64 column holds exactly. *)
Definition storable_price (p : value) : bool :=
  match p with
  | VFloat f => negb (PrimFloat.is_zero f)
  | VInt z =>
      negb (Z.eqb z 0)
      && match float_to_Z (Z2float z) with
         | Some z' => Z.eqb z' z
         | None => false
         end
      && negb (PrimFloat.is_infinity (Z2float z))
  | _ => false
  end.

(** A fully valid price adjustment: the VIN is a non-empty string found in
    the inventory and the recommended price is a storable number. *)
Definition fully_valid (inventory : list InventoryRecord) (adjustment : dict)
  : bool :=
  match py_get adjustment "vin" with
  | VStr v => negb (String.eqb v "")
              && existsb (fun r => String.eqb (vin r) v) inventory
  | _ => false
  end
  && storable_price (py_get adjustment "recommended_price").


Lemma storable_price_facts float_of_string p :
  storable_price p = true ->
  truthy p = true /\
  (exists cell, float64_cell p = Ok cell) /\
  (exists f, py_float float_of_string p = Ok f) /\
  (forall old, exists d, py_sub_float p old = Ok d).
Proof.
  destruct p; cbn; try discriminate; intros H.
  - apply andb_prop in H. destruct H as [H Hinf].
    apply andb_prop in H. destruct H as [Hnz Hex].
    split; [exact Hnz|].
    destruct (float_to_Z (Z2float z)) as [z'|]; [|discriminate].
    rewrite Hex. apply negb_true_iff in Hinf. rewrite Hinf.
    repeat split; eauto.
  - repeat split; eauto.
Qed.

Section PriceFacts.

Variable listlike_eq : list string -> value -> result (list bool).
Variable float_of_string : string -> option float.
Variable isoformat : nat -> string.

Local Abbreviation price_body :=
  (price_adjustment_body listlike_eq float_of_string isoformat).
Local Abbreviation price_item :=
  (price_adjustment_item listlike_eq float_of_string isoformat).

(** The store update of execute mode, for a string VIN and a price the
    column can hold. *)
Lemma apply_price_change_ok v p cell s :
  float64_cell p = Ok cell ->
  apply_price_change listlike_eq isoformat (VStr v) p s
  = (Ok tt,
     let df := repriced v cell (isoformat (clock s)) (inventory_df s) in
     set_inventory_csv df (set_inventory_df df (set_clock (S (clock s)) s))).
Proof.
  intros Hc. unfold apply_price_change, inventory_loc_set, inventory_to_csv.
  run_stmt. rewrite Hc. cbn.
  rewrite (set_where_eqb_map vin v (set_current_price cell)).
  rewrite (set_where_eqb_map vin v (set_last_price_change (isoformat (clock s)))).
  rewrite repriced_two_steps.
  reflexivity.
Qed.






(** ** The scenario of VIN ABC123 *)

Definition abc123_adjustment : dict :=
  [("vin", VStr "ABC123"); ("recommended_price", VInt 18000)].

(** The result the scenario expects, stamped [t]. *)
Definition abc123_result (t : string) : dict :=
  [("action_type", VStr "price_adjustment");
   ("status", VStr "success");
   ("vin", VStr "ABC123");
   ("stock_number", VNone);
   ("old_price", VFloat 20000);
   ("new_price", VFloat 18000);
   ("adjustment_amount", VFloat (-2000));
   ("adjustment_percent", VFloat (-10));
   ("reason", VStr "AI recommendation");
   ("confidence", VFloat 0x1.999999999999ap-1);
   ("urgency", VStr "medium");
   ("execution_type", VStr "EXECUTED");
   ("timestamp", VStr t)].

Lemma find_filter_cons {A} (p : A -> bool) (rows : list A) (r : A) :
  find p rows = Some r -> exists rest, filter p rows = r :: rest.
Proof.
  induction rows as [|x rows IH]; cbn; [discriminate|].
  destruct (p x); [intros H; inversion H; eauto | exact IH].
Qed.

(** C5. With VIN ABC123 in the inventory at 20000, the single adjustment
    [{vin: ABC123, recommended_price: 18000}] in execute mode gives exactly
    one result: success, old price 20000, new price 18000, amount -2000,
    percent -10.0.  Afterwards every row with that VIN has price 18000 and
    the instant of the change as its [last_price_change], every other row
    is as it was, the frame has been saved to the CSV file, and the
    inquiries are untouched. *)
Theorem price_adjustment_scenario (s : state) (row : InventoryRecord) :
  find (fun r => String.eqb (vin r) "ABC123") (inventory_df s) = Some row ->
  current_price row = 20000%float ->
  exists s',
    execute_price_adjustments listlike_eq float_of_string isoformat false
      [abc123_adjustment] s
    = (Ok [abc123_result (isoformat (S (clock s)))], s') /\
    inventory_df s'
    = repriced "ABC123" 18000 (isoformat (clock s)) (inventory_df s) /\
    (forall i r, nth_error (inventory_df s) i = Some r ->
       nth_error (inventory_df s') i
       = Some (if String.eqb (vin r) "ABC123"
               then mkInventoryRecord (vin r) (stock_number r) 18000 (cost r)
                      (days_in_inventory r) (isoformat (clock s))
               else r)) /\
    inventory_csv s' = inventory_df s' /\
    inquiries_df s' = inquiries_df s /\
    inquiries_csv s' = inquiries_csv s.
Proof.
  intros Hfind Hprice.
  destruct (find_filter_cons _ _ _ Hfind) as (rest & Hrow).
  eexists. split.
  - unfold execute_price_adjustments. rewrite run_modify. cbn [for_each].
    erewrite run_bind.
    2:{ erewrite run_bind.
        2:{ unfold price_adjustment_item, try_except, price_adjustment_body.
            cbn [abc123_adjustment py_get dict_get String.eqb Ascii.eqb Bool.eqb
                 truthy negb orb].
            change (negb (18000 =? 0)%Z) with true. cbn [negb orb].
            rewrite run_gets. unfold bind at 1, lift at 1.
            cbn [series_eq]. rewrite select_eqb_filter.
            cbn [set_results inventory_df]. rewrite Hrow.
            erewrite run_bind
              by (apply (apply_price_change_ok "ABC123" (VInt 18000) 18000%float);
                  reflexivity).
            rewrite Hprice. run_stmt. reflexivity. }
        reflexivity. }
    unfold gets. cbn. reflexivity.
  - cbn. split; [reflexivity|]. split; [|auto].
    intros i r Hi. unfold repriced. rewrite nth_error_map, Hi. reflexivity.
Qed.

End PriceFacts.

(** ** Decision sets of the annotated type *)

Definition is_dict (v : value) : bool :=
  match v with VDict _ => true | _ => false end.

Definition list_of_dicts (v : value) : bool :=
  match v with VList items => forallb is_dict items | _ => false end.

(** The decision set is a dict, and under [key] it holds nothing or a list
    of dicts. *)
Definition typed_category (decisions : value) (key : string) : bool :=
  match decisions with
  | VDict d => match dict_get d key with
               | Some v => list_of_dicts v
               | None => true
               end
  | _ => false
  end.

(** The decision sets the annotations of the executor describe: a [Dict]
    whose category keys, when present, hold a [List[Dict]]. *)
Definition well_typed (decisions : value) : bool :=
  typed_category decisions "price_adjustments"
  && typed_category decisions "customer_responses"
  && typed_category decisions "social_media_posts"
  && typed_category decisions "urgent_alerts".

(** The dicts among the items. *)
Fixpoint as_dicts (items : list value) : list dict :=
  match items with
  | [] => []
  | VDict d :: rest => d :: as_dicts rest
  | _ :: rest => as_dicts rest
  end.

(** The items of a category that is present and a list. *)
Definition category_of (decisions : value) (key : string) : option (list dict) :=
  match decisions with
  | VDict d => match dict_get d key with
               | Some (VList items) => Some (as_dicts items)
               | _ => None
               end
  | _ => None
  end.

(** [record_category] for a category of the annotated type and the method
    of the annotated type. *)
Definition record_typed (key : string) (category : option (list dict))
    (run : list dict -> M (list dict)) (successes : list dict -> Z)
    (summary : CycleSummary) : M CycleSummary :=
  match category with
  | Some items =>
      bind (run items) (fun rs =>
        ret (mkCycleSummary (timestamp summary)
               (total_actions summary + Z.of_nat (List.length rs))
               (successful_actions summary + successes rs)
               (failed_actions summary)
               (actions_by_type summary ++ [(key, rs)])%list
               (details summary)))
  | None => ret summary
  end.

Lemma as_dicts_items items :
  forallb is_dict items = true -> items = map VDict (as_dicts items).
Proof.
  induction items as [|x items IH]; cbn; [reflexivity|].
  destruct x; cbn; try discriminate. intros H. now rewrite <- IH.
Qed.

Lemma well_typed_categories decisions :
  well_typed decisions = true ->
  typed_category decisions "price_adjustments" = true /\
  typed_category decisions "customer_responses" = true /\
  typed_category decisions "social_media_posts" = true /\
  typed_category decisions "urgent_alerts" = true.
Proof.
  unfold well_typed. intros H.
  apply andb_prop in H. destruct H as [H H4].
  apply andb_prop in H. destruct H as [H H3].
  apply andb_prop in H. destruct H as [H1 H2]. auto.
Qed.

Lemma record_category_typed key decisions run run_typed successes summary s :
  (forall ds s, run (VList (map VDict ds)) s = run_typed ds s) ->
  typed_category decisions key = true ->
  record_category key decisions run successes summary s
  = record_typed key (category_of decisions key) run_typed successes summary s.
Proof.
  intros Hrun Ht. destruct decisions as [| | | | | |d]; try discriminate.
  unfold record_category, record_typed, category_of, typed_category in *.
  cbn [py_contains py_getitem]. unfold dict_mem.
  destruct (dict_get d key) as [v|]; [|reflexivity].
  destruct v as [| | | | |items|]; try discriminate.
  rewrite !run_lift. apply bind_cong; [|reflexivity].
  intros s0. cbn in Ht. rewrite (as_dicts_items items Ht) at 1. apply Hrun.
Qed.

Section Calls.

Variable listlike_eq : list string -> value -> result (list bool).
Variable float_of_string : string -> option float.
Variable isoformat : nat -> string.

(** The text of the [AttributeError] that [.get] raises on [v]. *)
Definition no_get (v : value) : exn :=
  AttributeError ("'" ++ type_name v ++ "' object has no attribute 'get'").

(** On a dict an iteration is the item function of the annotated type; on
    anything else it raises and leaves the state as it found it. *)
Lemma price_step_dict dry_run d s :
  price_adjustment_step listlike_eq float_of_string isoformat dry_run (VDict d) s
  = price_adjustment_item listlike_eq float_of_string isoformat dry_run d s.
Proof. reflexivity. Qed.

Lemma price_step_other dry_run v s :
  is_dict v = false ->
  price_adjustment_step listlike_eq float_of_string isoformat dry_run v s
  = (Raise (no_get v), s).
Proof. destruct v; try discriminate; reflexivity. Qed.

Lemma customer_step_dict dry_run d s :
  customer_response_step listlike_eq isoformat dry_run (VDict d) s
  = customer_response_item listlike_eq isoformat dry_run d s.
Proof. reflexivity. Qed.

Lemma customer_step_other dry_run v s :
  is_dict v = false ->
  customer_response_step listlike_eq isoformat dry_run v s = (Raise (no_get v), s).
Proof. destruct v; try discriminate; reflexivity. Qed.

Lemma social_step_dict dry_run d s :
  social_media_post_step isoformat dry_run (VDict d) s
  = social_media_post_item isoformat dry_run d s.
Proof. reflexivity. Qed.

Lemma social_step_other dry_run v s :
  is_dict v = false ->
  social_media_post_step isoformat dry_run v s = (Raise (no_get v), s).
Proof. destruct v; try discriminate; reflexivity. Qed.

Lemma alert_step_dict d s :
  urgent_alert_step isoformat (VDict d) s = urgent_alert_item isoformat d s.
Proof. reflexivity. Qed.

Lemma alert_step_other v s :
  is_dict v = false -> urgent_alert_step isoformat v s = (Raise (no_get v), s).
Proof. destruct v; try discriminate; reflexivity. Qed.

(** On a list of dicts the methods are those of the annotated type. *)
Lemma call_execute_price_adjustments_typed dry_run ds s :
  call_execute_price_adjustments listlike_eq float_of_string isoformat dry_run
    (VList (map VDict ds)) s
  = execute_price_adjustments listlike_eq float_of_string isoformat dry_run ds s.
Proof.
  unfold call_execute_price_adjustments, execute_price_adjustments.
  rewrite !run_modify. cbn [py_len py_iter]. rewrite !run_lift.
  apply bind_cong; [|reflexivity]. intros s0.
  apply for_each_cong. reflexivity.
Qed.

Lemma call_execute_customer_responses_typed dry_run ds s :
  call_execute_customer_responses listlike_eq isoformat dry_run
    (VList (map VDict ds)) s
  = execute_customer_responses listlike_eq isoformat dry_run ds s.
Proof.
  unfold call_execute_customer_responses, execute_customer_responses.
  rewrite !run_modify. cbn [py_iter]. rewrite !run_lift.
  apply bind_cong; [|reflexivity]. intros s0.
  apply for_each_cong. reflexivity.
Qed.

Lemma call_execute_social_media_posts_typed dry_run ds s :
  call_execute_social_media_posts isoformat dry_run (VList (map VDict ds)) s
  = execute_social_media_posts isoformat dry_run ds s.
Proof.
  unfold call_execute_social_media_posts, execute_social_media_posts.
  rewrite !run_modify. cbn [py_iter]. rewrite !run_lift.
  apply bind_cong; [|reflexivity]. intros s0.
  apply for_each_cong. reflexivity.
Qed.

Lemma call_log_urgent_alerts_typed ds s :
  call_log_urgent_alerts isoformat (VList (map VDict ds)) s
  = log_urgent_alerts isoformat ds s.
Proof.
  unfold call_log_urgent_alerts, log_urgent_alerts.
  rewrite !run_modify. cbn [py_iter]. rewrite !run_lift.
  apply bind_cong; [|reflexivity]. intros s0.
  apply for_each_cong. reflexivity.
Qed.

(** The categories of [execute_all_actions] on a decision set of the
    annotated type, after its first reading of the clock. *)
Definition after_timestamp (dry_run : bool) (decisions : value)
    (summary : CycleSummary) : M CycleSummary :=
  bind (record_typed "price_adjustments" (category_of decisions "price_adjustments")
          (execute_price_adjustments listlike_eq float_of_string isoformat dry_run)
          count_success summary) (fun summary =>
  bind (record_typed "customer_responses" (category_of decisions "customer_responses")
          (execute_customer_responses listlike_eq isoformat dry_run)
          count_success summary) (fun summary =>
  bind (record_typed "social_media_posts" (category_of decisions "social_media_posts")
          (execute_social_media_posts isoformat dry_run)
          count_success summary) (fun summary =>
  bind (record_typed "urgent_alerts" (category_of decisions "urgent_alerts")
          (log_urgent_alerts isoformat) all_of summary) (fun summary =>
  let summary := mkCycleSummary (timestamp summary) (total_actions summary)
                   (successful_actions summary)
                   (total_actions summary - successful_actions summary)
                   (actions_by_type summary) (details summary) in
  bind (_save_action_log summary) (fun _ => ret summary))))).

Lemma execute_all_actions_steps dry_run decisions s :
  well_typed decisions = true ->
  execute_all_actions listlike_eq float_of_string isoformat dry_run decisions s
  = after_timestamp dry_run decisions
      (mkCycleSummary (VStr (isoformat (clock s))) 0 0 0 [] [])
      (set_clock (S (clock s)) s).
Proof.
  intros Hw. destruct (well_typed_categories decisions Hw) as (H1 & H2 & H3 & H4).
  unfold execute_all_actions, after_timestamp.
  change (bind (now isoformat) ?k s)
    with (k (isoformat (clock s)) (set_clock (S (clock s)) s)).
  cbv beta zeta.
  apply bind_cong.
  { intros s0. apply record_category_typed; [|exact H1].
    apply call_execute_price_adjustments_typed. }
  intros a1 s1. apply bind_cong.
  { intros s0. apply record_category_typed; [|exact H2].
    apply call_execute_customer_responses_typed. }
  intros a2 s2. apply bind_cong.
  { intros s0. apply record_category_typed; [|exact H3].
    apply call_execute_social_media_posts_typed. }
  intros a3 s3. apply bind_cong.
  { intros s0. apply record_category_typed; [|exact H4].
    apply call_log_urgent_alerts_typed. }
  reflexivity.
Qed.

End Calls.

(** ** Simulate mode *)

(** The record store and the files under [logs/] other than the action
    log are the same in both states. *)
Definition same_store (s s' : state) : Prop :=
  inventory_df s' = inventory_df s /\
  inquiries_df s' = inquiries_df s /\
  inventory_csv s' = inventory_csv s /\
  inquiries_csv s' = inquiries_csv s /\
  emails s' = emails s /\
  social s' = social s.

Lemma same_store_refl s : same_store s s.
Proof. unfold same_store. tauto. Qed.

Lemma same_store_trans s1 s2 s3 :
  same_store s1 s2 -> same_store s2 s3 -> same_store s1 s3.
Proof.
  unfold same_store. intros (?&?&?&?&?&?) (?&?&?&?&?&?).
  repeat split; congruence.
Qed.

(** An item function of simulate mode: it returns, leaves the store alone,
    and the statuses of what it appends depend on the two data frames
    only, not on the clock, the log or the results so far. *)
Definition dry_item (f : dict -> M unit) : Prop :=
  forall it s t,
    inventory_df s = inventory_df t ->
    inquiries_df s = inquiries_df t ->
    exists s' t' rs rs',
      f it s = (Ok tt, s') /\ f it t = (Ok tt, t') /\
      same_store s s' /\ same_store t t' /\
      results s' = (results s ++ rs)%list /\
      results t' = (results t ++ rs')%list /\
      map status_of rs = map status_of rs'.

Ltac dry_leaf :=
  do 4 eexists;
  split; [reflexivity|]; split; [reflexivity|];
  cbn; rewrite <- ?app_assoc;
  split; [unfold same_store; cbn; tauto|];
  split; [unfold same_store; cbn; tauto|];
  split; [reflexivity|]; split; reflexivity.

(** A method of simulate mode: two runs on the same data frames return
    lists with the same statuses and leave the store alone. *)
Definition dry_method (run : list dict -> M (list dict)) : Prop :=
  forall items s t,
    inventory_df s = inventory_df t ->
    inquiries_df s = inquiries_df t ->
    exists rs rs' s' t',
      run items s = (Ok rs, s') /\ run items t = (Ok rs', t') /\
      same_store s s' /\ same_store t t' /\
      map status_of rs = map status_of rs'.

Lemma dry_loop f :
  dry_item f ->
  forall items s t,
    inventory_df s = inventory_df t ->
    inquiries_df s = inquiries_df t ->
    exists s' t' rs rs',
      for_each f items s = (Ok tt, s') /\ for_each f items t = (Ok tt, t') /\
      same_store s s' /\ same_store t t' /\
      results s' = (results s ++ rs)%list /\
      results t' = (results t ++ rs')%list /\
      map status_of rs = map status_of rs'.
Proof.
  intros Hf. induction items as [|it rest IH]; intros s t Hi Hq.
  - exists s, t, [], []. cbn. rewrite !app_nil_r.
    repeat split; auto using same_store_refl.
  - destruct (Hf it s t Hi Hq)
      as (s1 & t1 & rs1 & rs1' & Hs & Ht & Ss & St & Rs & Rt & Hst).
    assert (Hi1 : inventory_df s1 = inventory_df t1)
      by (destruct Ss as (-> & _), St as (-> & _); exact Hi).
    assert (Hq1 : inquiries_df s1 = inquiries_df t1)
      by (destruct Ss as (_ & -> & _), St as (_ & -> & _); exact Hq).
    destruct (IH s1 t1 Hi1 Hq1)
      as (s' & t' & rs & rs' & Hs' & Ht' & Ss' & St' & Rs' & Rt' & Hst').
    exists s', t', (rs1 ++ rs)%list, (rs1' ++ rs')%list. cbn [for_each].
    rewrite (run_bind _ _ _ _ _ Hs), (run_bind _ _ _ _ _ Ht).
    split; [exact Hs'|]. split; [exact Ht'|].
    split; [eauto using same_store_trans|].
    split; [eauto using same_store_trans|].
    rewrite Rs', Rt', Rs, Rt, <- !app_assoc, !map_app, Hst, Hst'. auto.
Qed.

Lemma dry_collect f :
  dry_item f ->
  dry_method (fun items =>
    bind (modify (set_results [])) (fun _ =>
      bind (for_each f items) (fun _ => gets results))).
Proof.
  intros Hf items s t Hi Hq.
  destruct (dry_loop f Hf items (set_results [] s) (set_results [] t) Hi Hq)
    as (s' & t' & rs & rs' & Hs & Ht & Ss & St & Rs & Rt & Hst).
  exists rs, rs', s', t'. rewrite !run_modify.
  rewrite (run_bind _ _ _ _ _ Hs), (run_bind _ _ _ _ _ Ht).
  unfold gets. cbn in Rs, Rt. rewrite Rs, Rt. auto.
Qed.

Lemma status_is_status_of text r r' :
  status_of r = status_of r' -> status_is text r = status_is text r'.
Proof. unfold status_is, status_of. intros ->. reflexivity. Qed.

Lemma count_success_statuses rs : forall rs',
  map status_of rs = map status_of rs' -> count_success rs = count_success rs'.
Proof.
  unfold count_success.
  induction rs as [|r rs IH]; intros [|r' rs'] H; try discriminate; [reflexivity|].
  cbn in H. inversion H as [[Hr Hrs]]. cbn.
  rewrite (status_is_status_of "success" r r' Hr).
  assert (IH' := IH rs' Hrs).
  destruct (status_is "success" r'); cbn; lia.
Qed.

Lemma all_of_statuses rs rs' :
  map status_of rs = map status_of rs' -> all_of rs = all_of rs'.
Proof.
  intros H. unfold all_of.
  rewrite <- (length_map status_of rs), H, length_map. reflexivity.
Qed.

(** Two summaries with the same counts. *)
Definition same_counts (a b : CycleSummary) : Prop :=
  total_actions a = total_actions b /\
  successful_actions a = successful_actions b.

Lemma record_category_dry key category run successes :
  dry_method run ->
  (forall rs rs', map status_of rs = map status_of rs' ->
                  successes rs = successes rs') ->
  forall a b s t,
    same_counts a b ->
    inventory_df s = inventory_df t ->
    inquiries_df s = inquiries_df t ->
    exists a' b' s' t',
      record_typed key category run successes a s = (Ok a', s') /\
      record_typed key category run successes b t = (Ok b', t') /\
      same_counts a' b' /\ same_store s s' /\ same_store t t'.
Proof.
  intros Hrun Hsucc a b s t [Htot Hok] Hi Hq. unfold record_typed.
  destruct category as [items|].
  - destruct (Hrun items s t Hi Hq) as (rs & rs' & s' & t' & Hs & Ht & Ss & St & Hst).
    rewrite (run_bind _ _ _ _ _ Hs), (run_bind _ _ _ _ _ Ht). unfold ret.
    do 4 eexists. split; [reflexivity|]. split; [reflexivity|].
    split; [|auto]. unfold same_counts. cbn.
    rewrite Htot, Hok, (Hsucc rs rs' Hst).
    rewrite <- (length_map status_of rs), Hst, length_map. auto.
  - exists a, b, s, t. unfold ret, same_counts. auto using same_store_refl.
Qed.

Section DryRun.

Variable listlike_eq : list string -> value -> result (list bool).
Variable float_of_string : string -> option float.
Variable isoformat : nat -> string.

Lemma price_item_dry :
  dry_item (price_adjustment_item listlike_eq float_of_string isoformat true).
Proof.
  intros it s t Hi Hq.
  unfold price_adjustment_item, price_adjustment_body, price_adjustment_handler.
  run_stmt. repeat (rewrite ?Hi; destruct_inner); rewrite ?Hi; dry_leaf.
Qed.

Lemma customer_item_dry :
  dry_item (customer_response_item listlike_eq isoformat true).
Proof.
  intros it s t Hi Hq.
  unfold customer_response_item, customer_response_body, customer_response_handler.
  run_stmt. repeat (rewrite ?Hq; destruct_inner); rewrite ?Hq; dry_leaf.
Qed.

Lemma social_item_dry :
  dry_item (social_media_post_item isoformat true).
Proof.
  intros it s t Hi Hq.
  unfold social_media_post_item, social_media_post_body, social_media_post_handler.
  run_stmt. repeat destruct_inner; dry_leaf.
Qed.

Lemma alert_item_dry : dry_item (urgent_alert_item isoformat).
Proof.
  intros it s t Hi Hq. unfold urgent_alert_item. run_stmt. dry_leaf.
Qed.

Lemma same_store_dfs s s' t t' :
  same_store s s' -> same_store t t' ->
  inventory_df s = inventory_df t -> inquiries_df s = inquiries_df t ->
  inventory_df s' = inventory_df t' /\ inquiries_df s' = inquiries_df t'.
Proof.
  intros (-> & -> & _) (-> & -> & _). auto.
Qed.

(** Two runs of simulate mode on the same data frames. *)
Lemma execute_all_actions_dry decisions s t :
  well_typed decisions = true ->
  inventory_df s = inventory_df t ->
  inquiries_df s = inquiries_df t ->
  exists a b s' t',
    execute_all_actions listlike_eq float_of_string isoformat true decisions s
    = (Ok a, s') /\
    execute_all_actions listlike_eq float_of_string isoformat true decisions t
    = (Ok b, t') /\
    same_counts a b /\ same_store s s' /\ same_store t t'.
Proof.
  intros Hw Hi Hq. rewrite !execute_all_actions_steps by exact Hw.
  unfold after_timestamp.
  set (s0 := set_clock (S (clock s)) s). set (t0 := set_clock (S (clock t)) t).
  assert (S0 : same_store s s0) by (unfold same_store; cbn; tauto).
  assert (T0 : same_store t t0) by (unfold same_store; cbn; tauto).
  set (a0 := mkCycleSummary (VStr (isoformat (clock s))) 0 0 0 [] []).
  set (b0 := mkCycleSummary (VStr (isoformat (clock t))) 0 0 0 [] []).
  assert (C0 : same_counts a0 b0) by (unfold same_counts; auto).
  destruct (record_category_dry "price_adjustments"
              (category_of decisions "price_adjustments")
              _ count_success (dry_collect _ price_item_dry)
              count_success_statuses a0 b0 s0 t0 C0 Hi Hq)
    as (a1 & b1 & s1 & t1 & Hs1 & Ht1 & C1 & S1 & T1).
  destruct (same_store_dfs _ _ _ _ S1 T1 Hi Hq) as [Hi1 Hq1].
  destruct (record_category_dry "customer_responses"
              (category_of decisions "customer_responses")
              _ count_success (dry_collect _ customer_item_dry)
              count_success_statuses a1 b1 s1 t1 C1 Hi1 Hq1)
    as (a2 & b2 & s2 & t2 & Hs2 & Ht2 & C2 & S2 & T2).
  destruct (same_store_dfs _ _ _ _ S2 T2 Hi1 Hq1) as [Hi2 Hq2].
  destruct (record_category_dry "social_media_posts"
              (category_of decisions "social_media_posts")
              _ count_success (dry_collect _ social_item_dry)
              count_success_statuses a2 b2 s2 t2 C2 Hi2 Hq2)
    as (a3 & b3 & s3 & t3 & Hs3 & Ht3 & C3 & S3 & T3).
  destruct (same_store_dfs _ _ _ _ S3 T3 Hi2 Hq2) as [Hi3 Hq3].
  destruct (record_category_dry "urgent_alerts"
              (category_of decisions "urgent_alerts")
              _ all_of (dry_collect _ alert_item_dry)
              all_of_statuses a3 b3 s3 t3 C3 Hi3 Hq3)
    as (a4 & b4 & s4 & t4 & Hs4 & Ht4 & C4 & S4 & T4).
  unfold execute_price_adjustments, execute_customer_responses,
    execute_social_media_posts, log_urgent_alerts.
  rewrite (run_bind _ _ _ _ _ Hs1), (run_bind _ _ _ _ _ Ht1).
  rewrite (run_bind _ _ _ _ _ Hs2), (run_bind _ _ _ _ _ Ht2).
  rewrite (run_bind _ _ _ _ _ Hs3), (run_bind _ _ _ _ _ Ht3).
  rewrite (run_bind _ _ _ _ _ Hs4), (run_bind _ _ _ _ _ Ht4).
  unfold _save_action_log. run_stmt.
  do 4 eexists. split; [reflexivity|]. split; [reflexivity|].
  destruct C4 as [Ctot Cok].
  split; [unfold same_counts; cbn; auto|].
  assert (S' : same_store s s4) by eauto using same_store_trans.
  assert (T' : same_store t t4) by eauto using same_store_trans.
  split; [destruct S' as (?&?&?&?&?&?) | destruct T' as (?&?&?&?&?&?)];
    unfold same_store; cbn; tauto.
Qed.

(** C4, as it holds of the code.  For every decision set that is a mapping
    whose categories, where present, are lists of mappings, and every state
    of the record store, the executor in simulate mode returns a summary
    and leaves the inventory and the inquiries as they were, in memory and
    on disk; run again on the state the first run left, it returns a
    summary with the same [total_actions] and [successful_actions], and
    again changes neither table. *)
Theorem simulate_idempotent (decisions : value) (s : state) :
  well_typed decisions = true ->
  exists first s1 second s2,
    execute_all_actions listlike_eq float_of_string isoformat true decisions s
    = (Ok first, s1) /\
    execute_all_actions listlike_eq float_of_string isoformat true decisions s1
    = (Ok second, s2) /\
    total_actions first = total_actions second /\
    successful_actions first = successful_actions second /\
    same_store s s1 /\ same_store s1 s2.
Proof.
  intros Hw.
  destruct (execute_all_actions_dry decisions s s Hw eq_refl eq_refl)
    as (first & _ & s1 & _ & H1 & _ & _ & S1 & _).
  assert (Hi : inventory_df s = inventory_df s1) by (destruct S1 as (-> & _); auto).
  assert (Hq : inquiries_df s = inquiries_df s1)
    by (destruct S1 as (_ & -> & _); auto).
  destruct (execute_all_actions_dry decisions s s1 Hw Hi Hq)
    as (a & second & s1' & s2 & H1' & H2 & [Ctot Cok] & _ & S2).
  rewrite H1 in H1'. inversion H1'. subst a s1'.
  exists first, s1, second, s2. auto 10.
Qed.

End DryRun.

(** ** Customer responses *)

Lemma filter_existsb_nil {A} (p : A -> bool) (rows : list A) :
  existsb p rows = false -> filter p rows = [].
Proof.
  induction rows as [|x rows IH]; cbn; [reflexivity|].
  destruct (p x); cbn; [discriminate | exact IH].
Qed.

Section CustomerFacts.

Variable listlike_eq : list string -> value -> result (list bool).
Variable isoformat : nat -> string.

Local Abbreviation customer_item := (customer_response_item listlike_eq isoformat).

(** What the loop appends when no inquiry has the id. *)
Definition not_found_result (id : value) (n : nat) : dict :=
  [("inquiry_id", id);
   ("status", VStr "failed");
   ("error", VStr "Inquiry not found");
   ("timestamp", VStr (isoformat n))].

(** An id that no row carries gives "Inquiry not found" in either mode, and
    nothing but the result list and the clock changes. *)
Lemma customer_item_not_found dry_run response id s :
  py_get response "inquiry_id" = VStr id ->
  existsb (fun r => String.eqb (inquiry_id r) id) (inquiries_df s) = false ->
  customer_item dry_run response s
  = (Ok tt, advanced [not_found_result (VStr id) (clock s)] 1 s).
Proof.
  intros Hid Habs.
  unfold customer_response_item, try_except, customer_response_body.
  rewrite Hid. rewrite run_gets. unfold bind at 1, lift at 1. cbn [series_eq].
  rewrite select_eqb_filter, (filter_existsb_nil _ _ Habs).
  run_stmt. state_eq.
Qed.

(** In execute mode an id that some row carries always gives success, and
    the rows with that id are marked responded. *)
Lemma customer_item_executed response id s :
  py_get response "inquiry_id" = VStr id ->
  existsb (fun r => String.eqb (inquiry_id r) id) (inquiries_df s) = true ->
  exists r s',
    customer_item false response s = (Ok tt, s') /\
    results s' = (results s ++ [r])%list /\
    status_is "success" r = true /\
    inquiries_df s'
    = map (fun q => if String.eqb (inquiry_id q) id
                    then set_status "responded" q else q) (inquiries_df s) /\
    inquiries_csv s' = inquiries_df s'.
Proof.
  intros Hid Hin.
  destruct (filter_existsb_cons _ _ Hin) as (row & rest & Hrow & _).
  unfold customer_response_item, try_except, customer_response_body.
  rewrite Hid. rewrite run_gets. unfold bind at 1, lift at 1. cbn [series_eq].
  rewrite select_eqb_filter, Hrow.
  unfold send_response, _send_email, inquiries_loc_set, inquiries_to_csv.
  run_stmt. rewrite set_where_eqb_map.
  do 2 eexists. split; [reflexivity|]. cbn. auto.
Qed.

(** In simulate mode the same holds when the response body is a string. *)
Lemma customer_item_simulated response id body s :
  py_get response "inquiry_id" = VStr id ->
  py_get response "response_body" = VStr body ->
  existsb (fun r => String.eqb (inquiry_id r) id) (inquiries_df s) = true ->
  exists r,
    customer_item true response s = (Ok tt, advanced [r] 1 s) /\
    status_is "success" r = true.
Proof.
  intros Hid Hbody Hin.
  destruct (filter_existsb_cons _ _ Hin) as (row & rest & Hrow & _).
  unfold customer_response_item, try_except, customer_response_body.
  rewrite Hid, Hbody. rewrite run_gets. unfold bind at 1, lift at 1.
  cbn [series_eq]. rewrite select_eqb_filter, Hrow.
  run_stmt. eexists. split; [state_eq|reflexivity].
Qed.

End CustomerFacts.

(** ** A concrete dealership *)

(** One behaviour the libraries may have: comparing a column with a list
    or a dict raises, no text reads as a float, every instant prints
    alike. *)
Definition listlike_raises : list string -> value -> result (list bool) :=
  fun _ _ => Raise (ValueError "Lengths must match to compare").

Definition no_float_text : string -> option float := fun _ => None.

Definition same_instant : nat -> string := fun _ => "2025-01-01T09:00:00".

Definition dealership : state :=
  mkState []
    [mkInventoryRecord "XYZ00000001" "STK10000" 31250.5 25000 12 "2024-12-01T08:00:00";
     mkInventoryRecord "ABC123" "STK10001" 20000 17000 75 "2024-11-01T08:00:00"]
    [mkInquiryRecord "INQ20000" "ann@example.com" "Ann" "new"]
    [mkInventoryRecord "XYZ00000001" "STK10000" 31250.5 25000 12 "2024-12-01T08:00:00";
     mkInventoryRecord "ABC123" "STK10001" 20000 17000 75 "2024-11-01T08:00:00"]
    [mkInquiryRecord "INQ20000" "ann@example.com" "Ann" "new"]
    [] [] None 0.

Lemma price_adjustment_scenario_witness :
  exists s',
    execute_price_adjustments listlike_raises no_float_text same_instant false
      [abc123_adjustment] dealership
    = (Ok [abc123_result "2025-01-01T09:00:00"], s') /\
    inventory_df s'
    = [mkInventoryRecord "XYZ00000001" "STK10000" 31250.5 25000 12
         "2024-12-01T08:00:00";
       mkInventoryRecord "ABC123" "STK10001" 18000 17000 75
         "2025-01-01T09:00:00"].
Proof.
  destruct (price_adjustment_scenario listlike_raises no_float_text same_instant
              dealership
              (mkInventoryRecord "ABC123" "STK10001" 20000 17000 75
                 "2024-11-01T08:00:00") eq_refl eq_refl)
    as (s' & Hrun & Hdf & _).
  exists s'. split; [exact Hrun | rewrite Hdf; reflexivity].
Defined.


Lemma customer_item_not_found_witness :
  customer_response_item listlike_raises same_instant true
    [("inquiry_id", VStr "INQ999")] dealership
  = (Ok tt,
     advanced [not_found_result same_instant (VStr "INQ999") 0] 1 dealership).
Proof.
  exact (customer_item_not_found listlike_raises same_instant true
           [("inquiry_id", VStr "INQ999")] "INQ999" dealership eq_refl eq_refl).
Defined.

Lemma customer_item_executed_witness :
  exists r s',
    customer_response_item listlike_raises same_instant false
      [("inquiry_id", VStr "INQ20000")] dealership = (Ok tt, s') /\
    results s' = [r] /\
    status_is "success" r = true /\
    inquiries_df s'
    = [mkInquiryRecord "INQ20000" "ann@example.com" "Ann" "responded"] /\
    inquiries_csv s' = inquiries_df s'.
Proof.
  exact (customer_item_executed listlike_raises same_instant
           [("inquiry_id", VStr "INQ20000")] "INQ20000" dealership
           eq_refl eq_refl).
Defined.

(** A decision set of the annotated type, and one whose alerts are plain
    sentences. *)
Definition typed_decisions : value :=
  VDict [("analysis_summary", VStr "one aged vehicle, one new inquiry");
         ("price_adjustments", VList [VDict abc123_adjustment]);
         ("customer_responses",
          VList [VDict [("inquiry_id", VStr "INQ20000");
                        ("response_body", VStr "Thank you for your interest.")]]);
         ("social_media_posts", VList []);
         ("urgent_alerts", VList [VDict [("priority", VStr "high")]])].

Definition text_alert_decisions : value :=
  VDict [("urgent_alerts", VList [VStr "Vehicle STK10001 is 75 days old"])].

Lemma simulate_idempotent_witness :
  exists first s1 second s2,
    execute_all_actions listlike_raises no_float_text same_instant true
      typed_decisions dealership = (Ok first, s1) /\
    execute_all_actions listlike_raises no_float_text same_instant true
      typed_decisions s1 = (Ok second, s2) /\
    total_actions first = total_actions second /\
    successful_actions first = successful_actions second /\
    same_store dealership s1 /\ same_store s1 s2.
Proof.
  exact (simulate_idempotent listlike_raises no_float_text same_instant
           typed_decisions dealership eq_refl).
Defined.

(** C4, as the claim states it, fails.  Nothing checks the items of
    [urgent_alerts]: the validator hands this decision set on as it is, and
    the executor, in simulate mode, raises at [alert.get] and returns no
    summary (the store is as it was). *)
Lemma simulate_raises_on_text_alert :
  BedrockAgent._validate_decisions text_alert_decisions ["ABC123"] ["INQ20000"]
  = Ok text_alert_decisions /\
  fst (execute_all_actions listlike_raises no_float_text same_instant true
         text_alert_decisions dealership)
  = Raise (AttributeError "'str' object has no attribute 'get'") /\
  same_store dealership
    (snd (execute_all_actions listlike_raises no_float_text same_instant true
            text_alert_decisions dealership)).
Proof.
  split; [reflexivity|]. split; [reflexivity|].
  unfold same_store. cbn. tauto.
Qed.

(** A category that is not a list does the same: [null] cannot be
    iterated. *)
Lemma simulate_raises_on_null_posts :
  fst (execute_all_actions listlike_raises no_float_text same_instant true
         (VDict [("social_media_posts", VNone)]) dealership)
  = Raise (TypeError "'NoneType' object is not iterable").
Proof. reflexivity. Qed.

(** C8 fails on the code in simulate mode.  The inquiry INQ20000 exists and
    the response names it, but carries no [response_body]: the simulated
    branch slices [None] for the preview, the exception is caught, and the
    result is failed with the text of a [TypeError], not success.  Execute
    mode, which hands the body over without slicing it, gives success on the
    same item. *)
Theorem simulated_response_without_body_fails :
  fst (execute_customer_responses listlike_raises same_instant true
         [[("inquiry_id", VStr "INQ20000")]] dealership)
  = Ok [[("inquiry_id", VStr "INQ20000");
         ("status", VStr "failed");
         ("error", VStr "'NoneType' object is not subscriptable");
         ("timestamp", VStr "2025-01-01T09:00:00")]] /\
  exists r,
    fst (execute_customer_responses listlike_raises same_instant false
           [[("inquiry_id", VStr "INQ20000")]] dealership) = Ok [r] /\
    status_is "success" r = true.
Proof.
  split; [reflexivity|]. eexists. split; reflexivity.
Qed.

End ExecutorFacts.

(* ================================================================== *)
(** * The autonomous cycle driver *)
(* ================================================================== *)

Module AutonomousAgentFacts.

Import Py PyFacts AutonomousAgent.
Local Open Scope string_scope.
Local Open Scope Z_scope.

Section DriverFacts.

Variables World Tables Summary Instant : Type.
Variable read_csvs : stmt World Tables.
Variable decision_loop : Tables -> stmt World value.
Variable execute_all : value -> Tables -> stmt World Summary.
Variable datetime_now : World -> Instant * World.

Local Abbreviation body :=
  (cycle_body read_csvs decision_loop execute_all datetime_now).
Local Abbreviation cycle :=
  (run_agent_cycle read_csvs decision_loop execute_all datetime_now).
Local Abbreviation polling :=
  (polling_loop read_csvs decision_loop execute_all datetime_now).

(** The body of the [try] touches the counters only in its last two
    statements, after which nothing can raise. *)
Lemma cycle_body_frame (a a1 : agent World Instant) r :
  body a = (r, a1) ->
  is_running a1 = is_running a /\
  match r with
  | Raise _ => run_count a1 = run_count a /\ last_run a1 = last_run a
  | Ok _ =>
      (run_count a1 = run_count a /\ last_run a1 = last_run a) \/
      (run_count a1 = run_count a + 1 /\ last_run a1 <> None)
  end.
Proof.
  unfold cycle_body, call, AutonomousAgent.now, bind, ret, lift, modify.
  destruct (read_csvs (world a)) as [[tables|e] w1]; cbn;
    [|intros H; inversion H; subst; cbn; auto].
  destruct (decision_loop tables w1) as [[decisions|e] w2]; cbn;
    [|intros H; inversion H; subst; cbn; auto].
  destruct (truthy decisions); cbn;
    [|intros H; inversion H; subst; cbn; auto].
  destruct (py_contains decisions "analysis_summary") as [[|]|e]; cbn;
    [| |intros H; inversion H; subst; cbn; auto].
  1: destruct (py_getitem decisions "analysis_summary"); cbn;
    [|intros H; inversion H; subst; cbn; auto].
  all: destruct (execute_all decisions tables w2) as [[summary|e] w3]; cbn;
    [|intros H; inversion H; subst; cbn; auto].
  all: destruct (datetime_now w3) as [t w4]; cbn.
  all: intros H; inversion H; subst; cbn; (split; [reflexivity|]).
  all: right; split; [reflexivity | discriminate].
Qed.

Lemma cycle_outcome (a : agent World Instant) :
  exists a',
    cycle a = (Ok tt, a') /\
    is_running a' = is_running a /\
    (run_count a' = run_count a \/ run_count a' = run_count a + 1) /\
    (forall e a1, body a = (Raise e, a1) ->
       a' = a1 /\ run_count a' = run_count a /\ last_run a' = last_run a).
Proof.
  unfold run_agent_cycle, try_except.
  destruct (body a) as [[[]|e] a1] eqn:Hb;
    destruct (cycle_body_frame _ _ _ Hb) as [Hrun Hcount].
  - exists a1. split; [reflexivity|]. split; [exact Hrun|].
    split; [tauto|]. intros e' a2 H. discriminate.
  - exists a1. unfold ret. split; [reflexivity|]. split; [exact Hrun|].
    split; [tauto|]. intros e' a2 H. inversion H. subst. tauto.
Qed.

Lemma polling_outcome ticks : forall (a : agent World Instant),
  exists a',
    polling ticks a = (Ok tt, a') /\
    is_running a' = is_running a /\
    run_count a <= run_count a' <= run_count a + Z.of_nat (List.length ticks).
Proof.
  induction ticks as [|due rest IH]; intros a.
  - exists a. cbn. unfold ret. split; [reflexivity|]. split; [reflexivity|]. lia.
  - cbn [polling_loop]. rewrite run_gets.
    destruct (is_running a) eqn:Hrun.
    + destruct due.
      * destruct (cycle_outcome a) as (a1 & Hc & Hr1 & Hn1 & _).
        destruct (IH a1) as (a' & Hp & Hr' & Hn').
        exists a'. rewrite (run_bind _ _ _ _ _ Hc).
        split; [exact Hp|]. split; [congruence|].
        cbn [List.length]. lia.
      * destruct (IH a) as (a' & Hp & Hr' & Hn').
        exists a'. rewrite run_ret.
        split; [exact Hp|]. split; [congruence|].
        cbn [List.length]. lia.
    + exists a. unfold ret. split; [reflexivity|]. split; [exact Hrun|].
      cbn [List.length]. lia.
Qed.

(** C9. A cycle never raises to its caller, whatever the three
    collaborators do: it returns, [run_count] is unchanged or one more,
    and a cycle whose body raised (in loading, deciding or executing)
    leaves [run_count] and [last_run] as they were, so the two are updated
    only by a cycle that completed.  The driver, started with any number of
    polling iterations ahead, never raises either: it keeps running after a
    failed cycle and [run_count] only grows, by at most one per cycle. *)
Theorem cycle_never_raises (a : agent World Instant) (ticks : list bool) :
  (exists a',
     cycle a = (Ok tt, a') /\
     (run_count a' = run_count a \/ run_count a' = run_count a + 1) /\
     (forall e a1, body a = (Raise e, a1) ->
        run_count a' = run_count a /\ last_run a' = last_run a) /\
     ((run_count a' <> run_count a \/ last_run a' <> last_run a) ->
      exists a1, body a = (Ok tt, a1))) /\
  (exists a',
     start_autonomous_mode read_csvs decision_loop execute_all datetime_now
       ticks a = (Ok tt, a') /\
     is_running a' = true /\
     run_count a <= run_count a' <= run_count a + 1 + Z.of_nat (List.length ticks)).
Proof.
  split.
  - destruct (cycle_outcome a) as (a' & Hc & _ & Hn & Hraise).
    exists a'. split; [exact Hc|]. split; [exact Hn|]. split.
    + intros e a1 Hb. destruct (Hraise e a1 Hb) as (_ & ? & ?). auto.
    + intros Hchanged.
      destruct (body a) as [[[]|e] a1] eqn:Hb; [eauto|].
      destruct (Hraise e a1 eq_refl) as (_ & ? & ?). tauto.
  - unfold start_autonomous_mode. rewrite run_modify.
    destruct (cycle_outcome (set_is_running World Instant true a))
      as (a1 & Hc & Hr1 & Hn1 & _).
    destruct (polling_outcome ticks a1) as (a' & Hp & Hr' & Hn').
    exists a'. rewrite (run_bind _ _ _ _ _ Hc).
    split; [exact Hp|]. split; [rewrite Hr', Hr1; reflexivity|].
    cbn in Hn1. lia.
Qed.

End DriverFacts.

End AutonomousAgentFacts.

(* ================================================================== *)
(** * app.py: the status endpoint *)
(* ================================================================== *)

Module Dashboard.

Import Py ActionExecutor.
Local Open Scope string_scope.
Local Open Scope stmt_scope.

(** [action_history[-1]] of a list known to be non-empty. *)
Fixpoint last_entry (first : CycleSummary) (rest : list CycleSummary)
  : CycleSummary :=
  match rest with
  | [] => first
  | next :: rest' => last_entry next rest'
  end.

(** [agent_status], the body of the route [/api/agent-status]; the value is
    the dict handed to [jsonify]. *)
Definition agent_status : M value :=
  action_history <- get_action_history 1 ;;
  match action_history with
  | first :: rest =>
      let last_run := last_entry first rest in
      ret (VDict [("status", VStr "active");
                  ("last_run", timestamp last_run);
                  ("total_actions", VInt (total_actions last_run));
                  ("successful_actions", VInt (successful_actions last_run))])
  | [] =>
      ret (VDict [("status", VStr "idle"); ("last_run", VNone)])
  end.

End Dashboard.

(* ================================================================== *)
(** * The executor in both modes: totality, counts and the log *)
(* ================================================================== *)

Module ExecutorTotality.

Import Py PyFacts ActionExecutor ExecutorFacts ActionLogFacts.
Local Open Scope string_scope.

(** An item function that always returns, having appended between [lo] and
    [hi] results that satisfy [P], and that leaves the action log alone. *)
Definition appends (lo hi : nat) (P : dict -> Prop) (f : dict -> M unit) : Prop :=
  forall it s, exists rs s',
    f it s = (Ok tt, s') /\
    results s' = (results s ++ rs)%list /\
    (lo <= List.length rs <= hi)%nat /\
    Forall P rs /\
    log_file s' = log_file s.

Definition settled (r : dict) : Prop :=
  status_is "success" r = true \/ status_is "failed" r = true.

Definition logged (r : dict) : Prop := status_is "logged" r = true.

(** What the execute branches leave alone. *)
Definition kept (s s' : state) : Prop :=
  results s' = results s /\ log_file s' = log_file s.

Ltac use_kept :=
  repeat match goal with
         | H : kept _ _ |- _ => destruct H as [? ?]
         end.

Ltac appends_leaf :=
  use_kept;
  eexists; eexists; split; [reflexivity|]; cbn; rewrite <- ?app_assoc;
  use_frame;
  split; [reflexivity|]; split; [cbn; lia|];
  split; [|assumption || reflexivity];
  repeat first [apply Forall_nil | apply Forall_cons];
  unfold settled, logged; cbn; auto.

Lemma apply_price_change_kept listlike_eq isoformat v p s r s' :
  apply_price_change listlike_eq isoformat v p s = (r, s') -> kept s s'.
Proof.
  intros H. apply apply_price_change_frame in H. unfold kept. tauto.
Qed.

Lemma send_response_kept listlike_eq isoformat id email response s r s' :
  send_response listlike_eq isoformat id email response s = (r, s') -> kept s s'.
Proof.
  unfold send_response, _send_email, inquiries_loc_set, inquiries_to_csv, kept.
  run_stmt. repeat destruct_inner; intros H; inversion H; subst; cbn; auto.
Qed.

Lemma save_social_post_kept isoformat platform content v s r s' :
  _save_social_post isoformat platform content v s = (r, s') -> kept s s'.
Proof.
  unfold _save_social_post, kept. run_stmt.
  intros H; inversion H; subst; cbn; auto.
Qed.

#[local] Arguments apply_price_change : simpl never.
#[local] Arguments send_response : simpl never.
#[local] Arguments _save_social_post : simpl never.

Ltac fold_branches :=
  try match goal with
      | H : apply_price_change _ _ _ _ _ = _ |- _ =>
          apply apply_price_change_kept in H
      | H : send_response _ _ _ _ _ _ = _ |- _ =>
          apply send_response_kept in H
      | H : _save_social_post _ _ _ _ _ = _ |- _ =>
          apply save_social_post_kept in H
      end.

Section Totality.

Variable listlike_eq : list string -> value -> result (list bool).
Variable float_of_string : string -> option float.
Variable isoformat : nat -> string.

Lemma price_item_appends dry_run :
  appends 1 1 settled
    (price_adjustment_item listlike_eq float_of_string isoformat dry_run).
Proof.
  intros it s.
  unfold price_adjustment_item, price_adjustment_body, price_adjustment_handler.
  destruct dry_run; run_stmt; repeat destruct_inner; fold_branches; appends_leaf.
Qed.

Lemma customer_item_appends dry_run :
  appends 1 1 settled (customer_response_item listlike_eq isoformat dry_run).
Proof.
  intros it s.
  unfold customer_response_item, customer_response_body, customer_response_handler.
  destruct dry_run; run_stmt; repeat destruct_inner; fold_branches; appends_leaf.
Qed.

Lemma social_item_appends dry_run :
  appends 1 2 settled (social_media_post_item isoformat dry_run).
Proof.
  intros it s.
  unfold social_media_post_item, social_media_post_body, social_media_post_handler.
  destruct dry_run; run_stmt; repeat destruct_inner; fold_branches; appends_leaf.
Qed.

Lemma alert_item_appends : appends 1 1 logged (urgent_alert_item isoformat).
Proof.
  intros it s. unfold urgent_alert_item. run_stmt. appends_leaf.
Qed.

(** ** Loops and methods *)

Lemma loop_appends lo hi P f :
  appends lo hi P f ->
  forall items s, exists rs s',
    for_each f items s = (Ok tt, s') /\
    results s' = (results s ++ rs)%list /\
    (lo * List.length items <= List.length rs <= hi * List.length items)%nat /\
    Forall P rs /\
    log_file s' = log_file s.
Proof.
  intros Hf. induction items as [|it rest IH]; intros s.
  - exists [], s. cbn. rewrite app_nil_r. repeat split; auto; lia.
  - destruct (Hf it s) as (rs1 & s1 & H1 & R1 & L1 & P1 & G1).
    destruct (IH s1) as (rs & s' & H2 & R2 & L2 & P2 & G2).
    exists (rs1 ++ rs)%list, s'. cbn [for_each].
    rewrite (run_bind _ _ _ _ _ H1).
    split; [exact H2|]. split; [rewrite R2, R1, <- app_assoc; reflexivity|].
    split; [rewrite length_app; cbn [List.length]; lia|].
    split; [apply Forall_app; auto | congruence].
Qed.

Lemma method_appends lo hi P f :
  appends lo hi P f ->
  forall items s, exists rs s',
    bind (modify (set_results [])) (fun _ =>
      bind (for_each f items) (fun _ => gets results)) s = (Ok rs, s') /\
    (lo * List.length items <= List.length rs <= hi * List.length items)%nat /\
    Forall P rs /\
    log_file s' = log_file s.
Proof.
  intros Hf items s.
  destruct (loop_appends lo hi P f Hf items (set_results [] s))
    as (rs & s' & H & R & L & HP & G).
  exists rs, s'. rewrite run_modify, (run_bind _ _ _ _ _ H).
  unfold gets. cbn in R. rewrite R. auto.
Qed.

(** The counts of a summary agree with the results filed in it. *)
Definition counts_ok (a : CycleSummary) : Prop :=
  total_actions a
  = Z.of_nat (List.length (List.concat (map snd (actions_by_type a)))) /\
  (0 <= successful_actions a <= total_actions a)%Z.

Lemma count_success_bounds rs :
  (0 <= count_success rs <= Z.of_nat (List.length rs))%Z.
Proof.
  unfold count_success. pose proof (filter_length_le (status_is "success") rs). lia.
Qed.

Lemma all_of_bounds rs : (0 <= all_of rs <= Z.of_nat (List.length rs))%Z.
Proof. unfold all_of. lia. Qed.

Lemma record_category_counts key category run successes :
  (forall items s, exists rs s',
      run items s = (Ok rs, s') /\ log_file s' = log_file s) ->
  (forall rs, (0 <= successes rs <= Z.of_nat (List.length rs))%Z) ->
  forall a s, counts_ok a ->
    exists a' s',
      record_typed key category run successes a s = (Ok a', s') /\
      counts_ok a' /\ log_file s' = log_file s /\ timestamp a' = timestamp a.
Proof.
  intros Hrun Hsucc a s [Htot Hok]. unfold record_typed.
  destruct category as [items|].
  - destruct (Hrun items s) as (rs & s' & H & G).
    rewrite (run_bind _ _ _ _ _ H). unfold ret.
    do 2 eexists. split; [reflexivity|]. split; [|auto].
    unfold counts_ok. cbn.
    rewrite map_app, concat_app, length_app. cbn. rewrite app_nil_r.
    pose proof (Hsucc rs). lia.
  - exists a, s. unfold ret, counts_ok. auto.
Qed.

Lemma method_returns lo hi P f :
  appends lo hi P f ->
  forall items s, exists rs s',
    bind (modify (set_results [])) (fun _ =>
      bind (for_each f items) (fun _ => gets results)) s = (Ok rs, s') /\
    log_file s' = log_file s.
Proof.
  intros Hf items s.
  destruct (method_appends lo hi P f Hf items s) as (rs & s' & H & _ & _ & G).
  eauto.
Qed.

(** [execute_all_actions] in either mode: the summary it returns and the log
    it leaves. *)
Lemma execute_all_actions_returns dry_run decisions s :
  well_typed decisions = true ->
  exists summary s',
    execute_all_actions listlike_eq float_of_string isoformat dry_run decisions s
    = (Ok summary, s') /\
    counts_ok summary /\
    failed_actions summary
    = (total_actions summary - successful_actions summary)%Z /\
    timestamp summary = VStr (isoformat (clock s)) /\
    log_file s' = Some (last_n 100 (logs_of s ++ [summary])).
Proof.
  intros Hw. rewrite execute_all_actions_steps by exact Hw.
  unfold after_timestamp.
  set (s0 := set_clock (S (clock s)) s).
  set (a0 := mkCycleSummary (VStr (isoformat (clock s))) 0 0 0 [] []).
  assert (C0 : counts_ok a0) by (unfold counts_ok; cbn; lia).
  destruct (record_category_counts "price_adjustments"
              (category_of decisions "price_adjustments")
              _ count_success
              (method_returns 1 1 settled _ (price_item_appends dry_run))
              count_success_bounds a0 s0 C0) as (a1 & s1 & H1 & C1 & G1 & T1).
  destruct (record_category_counts "customer_responses"
              (category_of decisions "customer_responses")
              _ count_success
              (method_returns 1 1 settled _ (customer_item_appends dry_run))
              count_success_bounds a1 s1 C1) as (a2 & s2 & H2 & C2 & G2 & T2).
  destruct (record_category_counts "social_media_posts"
              (category_of decisions "social_media_posts")
              _ count_success
              (method_returns 1 2 settled _ (social_item_appends dry_run))
              count_success_bounds a2 s2 C2) as (a3 & s3 & H3 & C3 & G3 & T3).
  destruct (record_category_counts "urgent_alerts"
              (category_of decisions "urgent_alerts")
              _ all_of
              (method_returns 1 1 logged _ alert_item_appends)
              all_of_bounds a3 s3 C3) as (a4 & s4 & H4 & C4 & G4 & T4).
  unfold execute_price_adjustments, execute_customer_responses,
    execute_social_media_posts, log_urgent_alerts.
  rewrite (run_bind _ _ _ _ _ H1), (run_bind _ _ _ _ _ H2).
  rewrite (run_bind _ _ _ _ _ H3), (run_bind _ _ _ _ _ H4).
  cbv zeta. unfold bind at 1. rewrite save_action_log_step. unfold ret.
  do 2 eexists. split; [reflexivity|].
  split; [exact C4|]. split; [reflexivity|].
  split; [cbn; rewrite T4, T3, T2, T1; reflexivity|].
  cbn. unfold logs_of. rewrite G4, G3, G2, G1. reflexivity.
Qed.

Lemma last_n_snoc {A} (m : nat) (l : list A) (x : A) :
  last_n (S m) (l ++ [x]) = (last_n m l ++ [x])%list.
Proof.
  rewrite (last_n_rev (S m)), rev_app_distr. cbn [rev app firstn].
  rewrite (last_n_rev m). reflexivity.
Qed.

Lemma last_n_zero {A} (l : list A) : last_n 0 l = [].
Proof. unfold last_n. rewrite Nat.sub_0_r. apply skipn_all. Qed.

(** Every run of the executor, in simulate or execute mode, on a decision
    set that is a mapping whose categories, where present, are lists of
    mappings, returns a summary (no exception escapes).  Its
    [total_actions] is the number of results filed under
    [actions_by_type], [successful_actions] lies between zero and the total,
    and [failed_actions] is their difference, so it is never negative and
    the three counts add up. *)
Theorem execute_all_actions_counts dry_run decisions s :
  well_typed decisions = true ->
  exists summary s',
    execute_all_actions listlike_eq float_of_string isoformat dry_run decisions s
    = (Ok summary, s') /\
    total_actions summary
    = Z.of_nat (List.length (List.concat (map snd (actions_by_type summary)))) /\
    (0 <= successful_actions summary <= total_actions summary)%Z /\
    (0 <= failed_actions summary)%Z /\
    (total_actions summary
     = successful_actions summary + failed_actions summary)%Z.
Proof.
  intros Hw.
  destruct (execute_all_actions_returns dry_run decisions s Hw)
    as (summary & s' & H & [Htot Hok] & Hfail & _).
  exists summary, s'. split; [exact H|]. split; [exact Htot|].
  split; [exact Hok|]. rewrite Hfail. lia.
Qed.

(** Right after a run of the executor on such a decision set the action
    log ends with the summary the run returned and holds at most 100
    entries; a query for the last entry returns exactly that summary, and
    the status endpoint reports [active] with that run's timestamp and
    counts. *)
Theorem status_reports_last_run dry_run decisions s :
  well_typed decisions = true ->
  exists summary s',
    execute_all_actions listlike_eq float_of_string isoformat dry_run decisions s
    = (Ok summary, s') /\
    (exists earlier, log_file s' = Some (earlier ++ [summary])%list /\
                     (List.length earlier <= 99)%nat) /\
    get_action_history 1 s' = (Ok [summary], s') /\
    Dashboard.agent_status s'
    = (Ok (VDict [("status", VStr "active");
                  ("last_run", VStr (isoformat (clock s)));
                  ("total_actions", VInt (total_actions summary));
                  ("successful_actions", VInt (successful_actions summary))]),
       s').
Proof.
  intros Hw.
  destruct (execute_all_actions_returns dry_run decisions s Hw)
    as (summary & s' & H & _ & _ & Hts & Hlog).
  exists summary, s'. split; [exact H|].
  rewrite (last_n_snoc 99) in Hlog.
  assert (Hq : get_action_history 1 s' = (Ok [summary], s')).
  { unfold get_action_history. rewrite run_gets, Hlog. unfold ret.
    change (- (1))%Z with (- Z.of_nat 1)%Z.
    rewrite slice_from_last_n by lia.
    rewrite (last_n_snoc 0), last_n_zero. reflexivity. }
  split; [|split; [exact Hq|]].
  - exists (last_n 99 (logs_of s)). split; [exact Hlog|].
    rewrite last_n_length. lia.
  - unfold Dashboard.agent_status. rewrite (run_bind _ _ _ _ _ Hq).
    unfold ret. cbn [Dashboard.last_entry]. rewrite Hts. reflexivity.
Qed.

(** ** An item that is not a mapping *)

Lemma loop_aborts (step : value -> M unit) (item : dict -> M unit) :
  (forall d s, step (VDict d) s = item d s) ->
  (forall v s, is_dict v = false -> step v s = (Raise (no_get v), s)) ->
  (forall d s, exists s', item d s = (Ok tt, s')) ->
  forall ds v rest s, is_dict v = false ->
    exists s',
      for_each item ds s = (Ok tt, s') /\
      for_each step (map VDict ds ++ v :: rest) s = (Raise (no_get v), s').
Proof.
  intros Hdict Hother Htotal ds v rest s Hv. revert s.
  induction ds as [|d ds IH]; intros s.
  - exists s. split; [reflexivity|]. cbn [map app for_each]. unfold bind.
    rewrite (Hother v s Hv). reflexivity.
  - destruct (Htotal d s) as (s1 & H1). destruct (IH s1) as (s' & Hi & Hs).
    exists s'. cbn [map app for_each]. unfold bind. rewrite Hdict, H1. auto.
Qed.

Lemma appends_total lo hi P f :
  appends lo hi P f -> forall d s, exists s', f d s = (Ok tt, s').
Proof. intros Hf d s. destruct (Hf d s) as (rs & s' & H & _). eauto. Qed.

(** An item that is not a mapping aborts the method it reaches, in either
    mode and in each of the four categories: the items before it have been
    processed exactly as if the list had ended there (in execute mode their
    changes are in the frames and on disk), the item's [.get] raises
    [AttributeError], the [except] clause of the item, where there is one,
    raises it again, and the exception leaves the method: no result list is
    returned, and the items after it are never looked at. *)
Theorem non_mapping_item_aborts dry_run ds v rest s :
  is_dict v = false ->
  (exists rs s',
     execute_price_adjustments listlike_eq float_of_string isoformat dry_run ds s
     = (Ok rs, s') /\
     call_execute_price_adjustments listlike_eq float_of_string isoformat dry_run
       (VList (map VDict ds ++ v :: rest)) s = (Raise (no_get v), s')) /\
  (exists rs s',
     execute_customer_responses listlike_eq isoformat dry_run ds s = (Ok rs, s') /\
     call_execute_customer_responses listlike_eq isoformat dry_run
       (VList (map VDict ds ++ v :: rest)) s = (Raise (no_get v), s')) /\
  (exists rs s',
     execute_social_media_posts isoformat dry_run ds s = (Ok rs, s') /\
     call_execute_social_media_posts isoformat dry_run
       (VList (map VDict ds ++ v :: rest)) s = (Raise (no_get v), s')) /\
  (exists rs s',
     log_urgent_alerts isoformat ds s = (Ok rs, s') /\
     call_log_urgent_alerts isoformat (VList (map VDict ds ++ v :: rest)) s
     = (Raise (no_get v), s')).
Proof.
  intros Hv. split; [|split; [|split]].
  - destruct (loop_aborts _ _
                (price_step_dict listlike_eq float_of_string isoformat dry_run)
                (price_step_other listlike_eq float_of_string isoformat dry_run)
                (appends_total _ _ _ _ (price_item_appends dry_run))
                ds v rest (set_results [] s) Hv) as (s' & Hitem & Hstep).
    exists (results s'), s'. split.
    + unfold execute_price_adjustments.
      rewrite run_modify, (run_bind _ _ _ _ _ Hitem). reflexivity.
    + unfold call_execute_price_adjustments. rewrite run_modify.
      cbn [py_len py_iter]. rewrite !run_lift. unfold bind. rewrite Hstep.
      reflexivity.
  - destruct (loop_aborts _ _
                (customer_step_dict listlike_eq isoformat dry_run)
                (customer_step_other listlike_eq isoformat dry_run)
                (appends_total _ _ _ _ (customer_item_appends dry_run))
                ds v rest (set_results [] s) Hv) as (s' & Hitem & Hstep).
    exists (results s'), s'. split.
    + unfold execute_customer_responses.
      rewrite run_modify, (run_bind _ _ _ _ _ Hitem). reflexivity.
    + unfold call_execute_customer_responses. rewrite run_modify.
      cbn [py_iter]. rewrite !run_lift. unfold bind. rewrite Hstep.
      reflexivity.
  - destruct (loop_aborts _ _
                (social_step_dict isoformat dry_run)
                (social_step_other isoformat dry_run)
                (appends_total _ _ _ _ (social_item_appends dry_run))
                ds v rest (set_results [] s) Hv) as (s' & Hitem & Hstep).
    exists (results s'), s'. split.
    + unfold execute_social_media_posts.
      rewrite run_modify, (run_bind _ _ _ _ _ Hitem). reflexivity.
    + unfold call_execute_social_media_posts. rewrite run_modify.
      cbn [py_iter]. rewrite !run_lift. unfold bind. rewrite Hstep.
      reflexivity.
  - destruct (loop_aborts _ _
                (alert_step_dict isoformat) (alert_step_other isoformat)
                (appends_total _ _ _ _ alert_item_appends)
                ds v rest (set_results [] s) Hv) as (s' & Hitem & Hstep).
    exists (results s'), s'. split.
    + unfold log_urgent_alerts.
      rewrite run_modify, (run_bind _ _ _ _ _ Hitem). reflexivity.
    + unfold call_log_urgent_alerts. rewrite run_modify.
      cbn [py_iter]. rewrite !run_lift. unfold bind. rewrite Hstep.
      reflexivity.
Qed.

End Totality.

(** ** The concrete dealership *)

Lemma execute_all_actions_counts_witness :
  exists summary s',
    execute_all_actions listlike_raises no_float_text same_instant false
      typed_decisions dealership = (Ok summary, s') /\
    total_actions summary
    = Z.of_nat (List.length (List.concat (map snd (actions_by_type summary)))) /\
    (0 <= successful_actions summary <= total_actions summary)%Z /\
    (0 <= failed_actions summary)%Z /\
    (total_actions summary
     = successful_actions summary + failed_actions summary)%Z.
Proof.
  exact (execute_all_actions_counts listlike_raises no_float_text same_instant
           false typed_decisions dealership eq_refl).
Defined.

Lemma status_reports_last_run_witness :
  exists summary s',
    execute_all_actions listlike_raises no_float_text same_instant true
      typed_decisions dealership = (Ok summary, s') /\
    get_action_history 1 s' = (Ok [summary], s') /\
    total_actions summary = 3%Z.
Proof.
  destruct (status_reports_last_run listlike_raises no_float_text same_instant
              true typed_decisions dealership eq_refl)
    as (summary & s' & Hrun & _ & Hq & _).
  exists summary, s'. split; [exact Hrun|]. split; [exact Hq|].
  cbv in Hrun. inversion Hrun. reflexivity.
Defined.

Lemma non_mapping_item_aborts_witness :
  exists rs s',
    execute_price_adjustments listlike_raises no_float_text same_instant false
      [abc123_adjustment] dealership = (Ok rs, s') /\
    call_execute_price_adjustments listlike_raises no_float_text same_instant
      false (VList [VDict abc123_adjustment; VStr "XYZ00000001"]) dealership
    = (Raise (AttributeError "'str' object has no attribute 'get'"), s').
Proof.
  exact (proj1 (non_mapping_item_aborts listlike_raises no_float_text
                  same_instant false [abc123_adjustment] (VStr "XYZ00000001") []
                  dealership eq_refl)).
Defined.

End ExecutorTotality.

(* ================================================================== *)
(** * The executor, item by item *)
(* ================================================================== *)

Module ExecutorBehaviour.

Import Py PyFacts ActionExecutor ExecutorFacts.
Local Open Scope string_scope.

Lemma advanced_twice rs1 k1 rs2 k2 s :
  advanced rs2 k2 (advanced rs1 k1 s) = advanced (rs1 ++ rs2) (k1 + k2) s.
Proof.
  unfold advanced, set_clock, set_results. cbn.
  rewrite app_assoc, Nat.add_assoc. reflexivity.
Qed.

Lemma existsb_find_some {A} (p : A -> bool) (rows : list A) :
  existsb p rows = true -> exists r, find p rows = Some r /\ p r = true.
Proof.
  induction rows as [|x rows IH]; cbn; [discriminate|].
  destruct (p x) eqn:E; cbn; eauto.
Qed.

Lemma find_filter_head {A} (p : A -> bool) (rows : list A) (r : A) :
  find p rows = Some r -> exists rest, filter p rows = r :: rest.
Proof.
  induction rows as [|x rows IH]; cbn; [discriminate|].
  destruct (p x); [intros H; inversion H; eauto | exact IH].
Qed.

Section Items.

Variable listlike_eq : list string -> value -> result (list bool).
Variable float_of_string : string -> option float.
Variable isoformat : nat -> string.

Local Abbreviation price_item :=
  (price_adjustment_item listlike_eq float_of_string isoformat).

(** ** Urgent alerts *)

Definition alert_result (alert : dict) (n : nat) : dict :=
  [("action_type", VStr "urgent_alert");
   ("status", VStr "logged");
   ("priority", py_get alert "priority");
   ("category", py_get alert "category");
   ("message", py_get alert "message");
   ("recommended_action", py_get alert "recommended_action");
   ("timestamp", VStr (isoformat n))].

Fixpoint alert_results (alerts : list dict) (n : nat) : list dict :=
  match alerts with
  | [] => []
  | alert :: rest => alert_result alert n :: alert_results rest (S n)
  end.

Lemma alert_loop alerts : forall s,
  for_each (urgent_alert_item isoformat) alerts s
  = (Ok tt, advanced (alert_results alerts (clock s)) (List.length alerts) s).
Proof.
  induction alerts as [|alert rest IH]; intros s.
  - cbn. unfold ret. f_equal. unfold advanced. state_eq. now destruct s.
  - cbn [for_each]. erewrite run_bind.
    2:{ unfold urgent_alert_item. run_stmt.
        instantiate (1 := advanced [alert_result alert (clock s)] 1 s).
        f_equal. state_eq. }
    rewrite IH, advanced_twice. cbn. rewrite Nat.add_1_r. reflexivity.
Qed.

Lemma alert_results_spec alerts : forall n,
  Forall2 (fun alert r =>
             dict_get r "status" = Some (VStr "logged") /\
             dict_get r "priority" = Some (py_get alert "priority") /\
             dict_get r "category" = Some (py_get alert "category") /\
             dict_get r "message" = Some (py_get alert "message") /\
             dict_get r "recommended_action"
             = Some (py_get alert "recommended_action"))
          alerts (alert_results alerts n).
Proof.
  induction alerts as [|alert rest IH]; intros n; cbn; constructor.
  - cbn. auto 6.
  - apply IH.
Qed.

(** On a list of mappings [log_urgent_alerts] has no failure path: it
    returns one result per alert, in order, each with status [logged] and
    the alert's priority, category, message and recommended action ([None]
    for a field the alert lacks); apart from the result list and the clock
    nothing in the state changes. *)
Theorem alerts_always_logged (alerts : list dict) (s : state) :
  exists rs,
    call_log_urgent_alerts isoformat (VList (map VDict alerts)) s
    = (Ok rs, set_clock (clock s + List.length alerts) (set_results rs s)) /\
    Forall2 (fun alert r =>
               dict_get r "status" = Some (VStr "logged") /\
               dict_get r "priority" = Some (py_get alert "priority") /\
               dict_get r "category" = Some (py_get alert "category") /\
               dict_get r "message" = Some (py_get alert "message") /\
               dict_get r "recommended_action"
               = Some (py_get alert "recommended_action"))
            alerts rs.
Proof.
  exists (alert_results alerts (clock s)). split; [|apply alert_results_spec].
  rewrite call_log_urgent_alerts_typed.
  unfold log_urgent_alerts. rewrite run_modify.
  rewrite (run_bind _ _ _ _ _ (alert_loop alerts (set_results [] s))).
  unfold gets. cbn. reflexivity.
Qed.

(** ** Price adjustments *)

Definition vehicle_not_found (v : value) (n : nat) : dict :=
  [("vin", v);
   ("status", VStr "failed");
   ("error", VStr "Vehicle not found");
   ("timestamp", VStr (isoformat n))].

(** A price adjustment whose VIN is a non-empty string that no inventory
    row carries, with a truthy price of any type, gives the single result
    failed "Vehicle not found" in simulate and in execute mode alike; only
    the result list and the clock change, so the inventory is not written. *)
Theorem unknown_vin_not_found dry_run adjustment v s :
  py_get adjustment "vin" = VStr v ->
  v <> "" ->
  truthy (py_get adjustment "recommended_price") = true ->
  existsb (fun r => String.eqb (vin r) v) (inventory_df s) = false ->
  price_item dry_run adjustment s
  = (Ok tt, advanced [vehicle_not_found (VStr v) (clock s)] 1 s).
Proof.
  intros Hv Hne Hp Habs.
  unfold price_adjustment_item, try_except, price_adjustment_body.
  rewrite Hv. cbn [truthy]. rewrite Hp.
  apply String.eqb_neq in Hne. rewrite Hne. cbn [negb orb].
  rewrite run_gets. unfold bind at 1, lift at 1. cbn [series_eq].
  rewrite select_eqb_filter, (filter_existsb_nil _ _ Habs).
  run_stmt. f_equal. state_eq.
Qed.

(** What a fully valid item does, in either mode. *)
Lemma price_item_valid_run dry_run adjustment s :
  fully_valid (inventory_df s) adjustment = true ->
  exists v cell row r s',
    py_get adjustment "vin" = VStr v /\
    float64_cell (py_get adjustment "recommended_price") = Ok cell /\
    find (fun r => String.eqb (vin r) v) (inventory_df s) = Some row /\
    price_item dry_run adjustment s = (Ok tt, s') /\
    results s' = (results s ++ [r])%list /\
    status_is "success" r = true /\
    dict_get r "old_price" = Some (VFloat (current_price row)) /\
    dict_get r "new_price" = Some (VFloat cell) /\
    inventory_df s'
    = (if dry_run then inventory_df s
       else repriced v cell (isoformat (clock s)) (inventory_df s)) /\
    inventory_csv s' = (if dry_run then inventory_csv s else inventory_df s') /\
    inquiries_df s' = inquiries_df s /\
    inquiries_csv s' = inquiries_csv s.
Proof.
  unfold fully_valid. intros H. apply andb_prop in H. destruct H as [Hv Hp].
  destruct (py_get adjustment "vin") as [| | | |v| |] eqn:Ev; try discriminate.
  apply andb_prop in Hv. destruct Hv as [Hne Hin].
  destruct (storable_price_facts float_of_string _ Hp)
    as (Ht & (cell & Hc) & (f & Hf) & Hsub).
  assert (Hfc : f = cell).
  { destruct (py_get adjustment "recommended_price"); try discriminate.
    - unfold float64_cell in Hc. unfold py_float in Hf.
      destruct (float_to_Z (Z2float z)) as [z'|]; [|discriminate].
      destruct (Z.eqb z' z); [|discriminate].
      destruct (PrimFloat.is_infinity (Z2float z)); [discriminate|].
      congruence.
    - unfold float64_cell in Hc. unfold py_float in Hf. congruence. }
  subst f.
  destruct (existsb_find_some _ _ Hin) as (row & Hfind & _).
  destruct (find_filter_head _ _ _ Hfind) as (rest & Hrow).
  destruct (Hsub (current_price row)) as (d & Hd).
  exists v, cell, row.
  unfold price_adjustment_item, try_except, price_adjustment_body.
  rewrite Ev. cbn [truthy]. rewrite Hne, Ht. cbn [negb orb].
  rewrite run_gets. unfold bind at 1, lift at 1.
  cbn [series_eq]. rewrite select_eqb_filter, Hrow.
  unfold bind at 1.
  destruct dry_run.
  - unfold ret at 1. run_stmt. rewrite Hf, Hd. cbn.
    do 2 eexists. split; [reflexivity|]. split; [exact Hc|].
    split; [exact Hfind|]. split; [reflexivity|]. cbn. auto 10.
  - rewrite (apply_price_change_ok _ _ _ _ _ _ Hc). run_stmt. rewrite Hf, Hd. cbn.
    do 2 eexists. split; [reflexivity|]. split; [exact Hc|].
    split; [exact Hfind|]. split; [reflexivity|]. cbn. auto 10.
Qed.

(** In execute mode a fully valid price adjustment changes exactly the rows
    it targets: every row with its VIN gets the recommended price (as the
    float the column stores) and the instant of the change, every other row
    is the row it was, no row is added or removed, the frame is written to
    the CSV file and the inquiries are untouched.  The result reports the
    price of the first matching row as [old_price] and the stored price as
    [new_price]. *)
Theorem execute_reprices_exactly_target adjustment s :
  fully_valid (inventory_df s) adjustment = true ->
  exists v cell row r s',
    py_get adjustment "vin" = VStr v /\
    float64_cell (py_get adjustment "recommended_price") = Ok cell /\
    find (fun r => String.eqb (vin r) v) (inventory_df s) = Some row /\
    price_item false adjustment s = (Ok tt, s') /\
    results s' = (results s ++ [r])%list /\
    status_is "success" r = true /\
    dict_get r "old_price" = Some (VFloat (current_price row)) /\
    dict_get r "new_price" = Some (VFloat cell) /\
    (forall i old, nth_error (inventory_df s) i = Some old ->
       nth_error (inventory_df s') i
       = Some (if String.eqb (vin old) v
               then mkInventoryRecord (vin old) (stock_number old) cell (cost old)
                      (days_in_inventory old) (isoformat (clock s))
               else old)) /\
    List.length (inventory_df s') = List.length (inventory_df s) /\
    inventory_csv s' = inventory_df s' /\
    inquiries_df s' = inquiries_df s /\
    inquiries_csv s' = inquiries_csv s.
Proof.
  intros Hvalid.
  destruct (price_item_valid_run false adjustment s Hvalid)
    as (v & cell & row & r & s' & Hv & Hc & Hfind & Hrun & Hres & Hok
        & Hold & Hnew & Hdf & Hcsv & Hq & Hqc).
  cbn in Hdf, Hcsv.
  exists v, cell, row, r, s'. repeat (split; [assumption|]).
  split; [|split; [rewrite Hdf; apply length_map | auto]].
  intros i old Hi. rewrite Hdf. unfold repriced.
  rewrite nth_error_map, Hi. reflexivity.
Qed.

Lemma existsb_vin_repriced w v c t rows :
  existsb (fun r => String.eqb (vin r) w) (repriced v c t rows)
  = existsb (fun r => String.eqb (vin r) w) rows.
Proof.
  unfold repriced. induction rows as [|r rows IH]; cbn; [reflexivity|].
  rewrite IH. destruct (String.eqb (vin r) v); reflexivity.
Qed.

Lemma fully_valid_repriced v c t rows adjustment :
  fully_valid (repriced v c t rows) adjustment = fully_valid rows adjustment.
Proof.
  unfold fully_valid. destruct (py_get adjustment "vin"); try reflexivity.
  rewrite existsb_vin_repriced. reflexivity.
Qed.

Lemma find_repriced v c t rows row :
  find (fun r => String.eqb (vin r) v) rows = Some row ->
  find (fun r => String.eqb (vin r) v) (repriced v c t rows)
  = Some (set_last_price_change t (set_current_price c row)).
Proof.
  unfold repriced. induction rows as [|r rows IH]; cbn; [discriminate|].
  destruct (String.eqb (vin r) v) eqn:E; cbn; rewrite E.
  - intros H. inversion H. reflexivity.
  - exact IH.
Qed.

Lemma repriced_price v c t rows row :
  In row (repriced v c t rows) -> vin row = v -> current_price row = c.
Proof.
  unfold repriced. intros Hin Hv. apply in_map_iff in Hin.
  destruct Hin as (old & Hrow & _).
  destruct (String.eqb (vin old) v) eqn:E; subst row; [reflexivity|].
  apply String.eqb_neq in E. contradiction.
Qed.

(** Two fully valid adjustments of one VIN in the same batch.  In execute
    mode the second sees what the first wrote: its [old_price] is the first
    one's [new_price], and the rows end at the second price.  In simulate
    mode both report the same [old_price], the price in the store, and the
    inventory is as it was: the simulation is not a preview of the executed
    batch. *)
Theorem same_vin_twice first second v s :
  py_get first "vin" = VStr v ->
  py_get second "vin" = VStr v ->
  fully_valid (inventory_df s) first = true ->
  fully_valid (inventory_df s) second = true ->
  (exists r1 r2 s' cell1 cell2,
     execute_price_adjustments listlike_eq float_of_string isoformat false
       [first; second] s = (Ok [r1; r2], s') /\
     float64_cell (py_get first "recommended_price") = Ok cell1 /\
     float64_cell (py_get second "recommended_price") = Ok cell2 /\
     dict_get r1 "new_price" = Some (VFloat cell1) /\
     dict_get r2 "old_price" = Some (VFloat cell1) /\
     dict_get r2 "new_price" = Some (VFloat cell2) /\
     (forall row, In row (inventory_df s') -> vin row = v ->
                  current_price row = cell2)) /\
  (exists r1 r2 s',
     execute_price_adjustments listlike_eq float_of_string isoformat true
       [first; second] s = (Ok [r1; r2], s') /\
     dict_get r2 "old_price" = dict_get r1 "old_price" /\
     inventory_df s' = inventory_df s).
Proof.
  intros Hv1 Hv2 Hok1 Hok2. split.
  - destruct (price_item_valid_run false first (set_results [] s) Hok1)
      as (v1 & cell1 & row1 & r1 & s1 & Ev1 & Hc1 & Hfind1 & Hrun1 & Hres1 & _
          & _ & Hnew1 & Hdf1 & _).
    rewrite Hv1 in Ev1. inversion Ev1. subst v1. cbn [set_results inventory_df clock] in Hdf1, Hfind1.
    assert (Hok2' : fully_valid (inventory_df s1) second = true)
      by (rewrite Hdf1, fully_valid_repriced; exact Hok2).
    destruct (price_item_valid_run false second s1 Hok2')
      as (v2 & cell2 & row2 & r2 & s2 & Ev2 & Hc2 & Hfind2 & Hrun2 & Hres2 & _
          & Hold2 & Hnew2 & Hdf2 & _).
    rewrite Hv2 in Ev2. inversion Ev2. subst v2. cbn [set_results inventory_df clock] in Hdf2.
    rewrite Hdf1, (find_repriced _ _ _ _ _ Hfind1) in Hfind2.
    inversion Hfind2. subst row2. cbn in Hold2.
    exists r1, r2, s2, cell1, cell2. split.
    + unfold execute_price_adjustments. rewrite run_modify. cbn [for_each].
      erewrite run_bind.
      2:{ erewrite run_bind by exact Hrun1.
          erewrite run_bind by exact Hrun2. reflexivity. }
      unfold gets. rewrite Hres2, Hres1. reflexivity.
    + repeat (split; [assumption|]).
      intros row Hin Hrow. rewrite Hdf2 in Hin.
      exact (repriced_price _ _ _ _ _ Hin Hrow).
  - destruct (price_item_valid_run true first (set_results [] s) Hok1)
      as (v1 & cell1 & row1 & r1 & s1 & Ev1 & _ & Hfind1 & Hrun1 & Hres1 & _
          & Hold1 & _ & Hdf1 & _).
    rewrite Hv1 in Ev1. inversion Ev1. subst v1. cbn [set_results inventory_df clock] in Hdf1, Hfind1.
    assert (Hok2' : fully_valid (inventory_df s1) second = true)
      by (rewrite Hdf1; exact Hok2).
    destruct (price_item_valid_run true second s1 Hok2')
      as (v2 & cell2 & row2 & r2 & s2 & Ev2 & _ & Hfind2 & Hrun2 & Hres2 & _
          & Hold2 & _ & Hdf2 & _).
    rewrite Hv2 in Ev2. inversion Ev2. subst v2. cbn [set_results inventory_df clock] in Hdf2.
    rewrite Hdf1, Hfind1 in Hfind2.
    inversion Hfind2. subst row2.
    exists r1, r2, s2. split.
    + unfold execute_price_adjustments. rewrite run_modify. cbn [for_each].
      erewrite run_bind.
      2:{ erewrite run_bind by exact Hrun1.
          erewrite run_bind by exact Hrun2. reflexivity. }
      unfold gets. rewrite Hres2, Hres1. reflexivity.
    + split; [congruence|]. rewrite Hdf2, Hdf1. reflexivity.
Qed.

(** ** Social media posts *)

#[local] Arguments Nat.ltb : simpl never.







End Items.

(** ** The concrete dealership *)

Definition second_cut : dict :=
  [("vin", VStr "ABC123"); ("recommended_price", VFloat 17500)].


Lemma unknown_vin_not_found_witness :
  price_adjustment_item listlike_raises no_float_text same_instant false
    [("vin", VStr "FAKE999"); ("recommended_price", VInt 1)] dealership
  = (Ok tt,
     advanced [vehicle_not_found same_instant (VStr "FAKE999") 0] 1 dealership).
Proof.
  apply (unknown_vin_not_found listlike_raises no_float_text same_instant false
           [("vin", VStr "FAKE999"); ("recommended_price", VInt 1)] "FAKE999"
           dealership); [reflexivity | discriminate | reflexivity | reflexivity].
Defined.

Lemma execute_reprices_exactly_target_witness :
  exists r s',
    price_adjustment_item listlike_raises no_float_text same_instant false
      abc123_adjustment dealership = (Ok tt, s') /\
    results s' = [r] /\
    status_is "success" r = true /\
    nth_error (inventory_df s') 0 = nth_error (inventory_df dealership) 0 /\
    List.length (inventory_df s') = 2%nat /\
    inventory_csv s' = inventory_df s'.
Proof.
  destruct (execute_reprices_exactly_target listlike_raises no_float_text
              same_instant abc123_adjustment dealership eq_refl)
    as (v & cell & row & r & s' & Hv & _ & _ & Hrun & Hres & Hst & _ & _
        & Hrows & Hlen & Hcsv & _).
  exists r, s'. split; [exact Hrun|]. split; [exact Hres|].
  split; [exact Hst|]. split; [|split; [exact Hlen | exact Hcsv]].
  rewrite (Hrows 0%nat _ eq_refl). cbn in Hv. inversion Hv. reflexivity.
Defined.

Lemma same_vin_twice_witness :
  exists r1 r2 s',
    execute_price_adjustments listlike_raises no_float_text same_instant false
      [abc123_adjustment; second_cut] dealership = (Ok [r1; r2], s') /\
    dict_get r2 "old_price" = dict_get r1 "new_price" /\
    (forall row, In row (inventory_df s') -> vin row = "ABC123" ->
                 current_price row = 17500%float).
Proof.
  destruct (proj1 (same_vin_twice listlike_raises no_float_text same_instant
                     abc123_adjustment second_cut "ABC123" dealership
                     eq_refl eq_refl eq_refl eq_refl))
    as (r1 & r2 & s' & cell1 & cell2 & Hrun & _ & H2 & Hn1 & Ho2 & _ & Hrows).
  exists r1, r2, s'. split; [exact Hrun|]. split; [congruence|].
  cbn in H2. inversion H2 as [Hcell]. rewrite Hcell. exact Hrows.
Defined.




End ExecutorBehaviour.

(* ================================================================== *)
(** * What no run of the executor does to the record store *)
(* ================================================================== *)

Module StoreInvariants.

Import Py PyFacts ActionExecutor ExecutorFacts.
Local Open Scope string_scope.

(** The columns of an inventory row that identify it. *)
Definition same_keys (a b : InventoryRecord) : Prop :=
  vin b = vin a /\ stock_number b = stock_number a /\
  cost b = cost a /\ days_in_inventory b = days_in_inventory a.

(** An inquiry row keeps its identity, and its status stays or becomes
    [responded]. *)
Definition inquiry_step (a b : InquiryRecord) : Prop :=
  inquiry_id b = inquiry_id a /\ customer_email b = customer_email a /\
  customer_name b = customer_name a /\
  (status b = status a \/ status b = "responded").

Definition evolves (s s' : state) : Prop :=
  Forall2 same_keys (inventory_df s) (inventory_df s') /\
  Forall2 inquiry_step (inquiries_df s) (inquiries_df s').

Lemma Forall2_same {A} (R : A -> A -> Prop) (l : list A) :
  (forall x, R x x) -> Forall2 R l l.
Proof. intros H. induction l; constructor; auto. Qed.

Lemma Forall2_chain {A} (R : A -> A -> Prop) :
  (forall x y z, R x y -> R y z -> R x z) ->
  forall l1 l2 l3, Forall2 R l1 l2 -> Forall2 R l2 l3 -> Forall2 R l1 l3.
Proof.
  intros HR l1 l2 l3 H12. revert l3.
  induction H12; intros l3 H23; inversion H23; subst; constructor; eauto.
Qed.

Lemma Forall2_set_where {A} (R : A -> A -> Prop) (f : A -> A) :
  (forall x, R x x) -> (forall x, R x (f x)) ->
  forall mask rows, Forall2 R rows (set_where mask f rows).
Proof.
  intros Hrefl Hf mask rows. revert mask.
  induction rows as [|r rows IH]; intros [|b mask]; cbn;
    try (apply Forall2_same; exact Hrefl).
  constructor; [destruct b; auto | apply IH].
Qed.

Lemma same_keys_refl r : same_keys r r.
Proof. unfold same_keys. tauto. Qed.

Lemma same_keys_trans a b c : same_keys a b -> same_keys b c -> same_keys a c.
Proof. unfold same_keys. intros (?&?&?&?) (?&?&?&?). repeat split; congruence. Qed.

Lemma inquiry_step_refl r : inquiry_step r r.
Proof. unfold inquiry_step. tauto. Qed.

Lemma inquiry_step_trans a b c :
  inquiry_step a b -> inquiry_step b c -> inquiry_step a c.
Proof.
  unfold inquiry_step. intros (?&?&?&Hab) (?&?&?&Hbc).
  repeat split; try congruence.
  destruct Hbc as [Hbc|Hbc]; [destruct Hab as [Hab|Hab]|]; [left|right|right];
    congruence.
Qed.

Lemma evolves_refl s : evolves s s.
Proof.
  split; apply Forall2_same; [apply same_keys_refl | apply inquiry_step_refl].
Qed.

Lemma evolves_trans s1 s2 s3 : evolves s1 s2 -> evolves s2 s3 -> evolves s1 s3.
Proof.
  intros [A1 B1] [A2 B2]. split.
  - exact (Forall2_chain same_keys same_keys_trans _ _ _ A1 A2).
  - exact (Forall2_chain inquiry_step inquiry_step_trans _ _ _ B1 B2).
Qed.

Lemma evolves_same_frames s s' :
  inventory_df s' = inventory_df s -> inquiries_df s' = inquiries_df s ->
  evolves s s'.
Proof. intros H1 H2. unfold evolves. rewrite H1, H2. apply evolves_refl. Qed.

(** A statement after which the store has only evolved, however it ends. *)
Definition preserving {A} (m : M A) : Prop :=
  forall s r s', m s = (r, s') -> evolves s s'.

Lemma preserving_ret {A} (a : A) : preserving (ret a).
Proof. intros s r s' H. inversion H. apply evolves_refl. Qed.

Lemma preserving_lift {A} (x : result A) : preserving (lift x).
Proof. intros s r s' H. inversion H. apply evolves_refl. Qed.

Lemma preserving_gets {A} (f : state -> A) : preserving (gets f).
Proof. intros s r s' H. inversion H. apply evolves_refl. Qed.

Lemma preserving_modify (f : state -> state) :
  (forall s, inventory_df (f s) = inventory_df s) ->
  (forall s, inquiries_df (f s) = inquiries_df s) ->
  preserving (modify f).
Proof.
  intros H1 H2 s r s' H. inversion H. apply evolves_same_frames; auto.
Qed.

Lemma preserving_bind {A B} (m : M A) (k : A -> M B) :
  preserving m -> (forall a, preserving (k a)) -> preserving (bind m k).
Proof.
  intros Hm Hk s r s' H. unfold bind in H.
  destruct (m s) as [[a|e] s1] eqn:E.
  - eapply evolves_trans; [exact (Hm _ _ _ E) | exact (Hk _ _ _ _ H)].
  - inversion H. subst. exact (Hm _ _ _ E).
Qed.

Lemma preserving_try {A} (body : M A) (handler : exn -> M A) :
  preserving body -> (forall e, preserving (handler e)) ->
  preserving (try_except body handler).
Proof.
  intros Hb Hh s r s' H. unfold try_except in H.
  destruct (body s) as [[a|e] s1] eqn:E.
  - inversion H. subst. exact (Hb _ _ _ E).
  - eapply evolves_trans; [exact (Hb _ _ _ E) | exact (Hh _ _ _ _ H)].
Qed.

Lemma preserving_for_each {A} (f : A -> M unit) (xs : list A) :
  (forall x, preserving (f x)) -> preserving (for_each f xs).
Proof.
  intros Hf. induction xs as [|x xs IH]; cbn [for_each].
  - apply preserving_ret.
  - apply preserving_bind; [apply Hf | intros _; exact IH].
Qed.

Lemma preserving_append r : preserving (append r).
Proof. apply preserving_modify; reflexivity. Qed.

Section Store.

Variable listlike_eq : list string -> value -> result (list bool).
Variable float_of_string : string -> option float.
Variable isoformat : nat -> string.

Lemma preserving_now : preserving (now isoformat).
Proof.
  intros s r s' H. inversion H. apply evolves_same_frames; reflexivity.
Qed.

Lemma preserving_inventory_loc_set v assigned :
  (forall f, assigned = Ok f -> forall r, same_keys r (f r)) ->
  preserving (inventory_loc_set listlike_eq v assigned).
Proof.
  intros Hf s r s'. unfold inventory_loc_set. run_stmt.
  destruct (series_eq listlike_eq (map vin (inventory_df s)) v) as [mask|e];
    cbn; [|intros H; inversion H; apply evolves_refl].
  destruct assigned as [f|e]; cbn; intros H; inversion H;
    [|apply evolves_refl].
  split; cbn.
  - apply Forall2_set_where; [apply same_keys_refl | exact (Hf f eq_refl)].
  - apply Forall2_same, inquiry_step_refl.
Qed.

Lemma preserving_inquiries_loc_set v :
  preserving (inquiries_loc_set listlike_eq v (set_status "responded")).
Proof.
  intros s r s'. unfold inquiries_loc_set. run_stmt.
  destruct (series_eq listlike_eq (map inquiry_id (inquiries_df s)) v)
    as [mask|e]; cbn; intros H; inversion H; [|apply evolves_refl].
  split; cbn.
  - apply Forall2_same, same_keys_refl.
  - apply Forall2_set_where; [apply inquiry_step_refl|].
    intros q. unfold inquiry_step. cbn. tauto.
Qed.

Ltac preserve :=
  repeat first
    [ apply preserving_ret
    | apply preserving_lift
    | apply preserving_gets
    | apply preserving_now
    | apply preserving_append
    | apply preserving_inquiries_loc_set
    | apply preserving_modify; reflexivity
    | apply preserving_bind; [|intros ?]
    | apply preserving_try; [|intros ?]
    | apply preserving_for_each; intros ?
    | match goal with
      | |- preserving (if ?b then _ else _) => destruct b
      | |- preserving (match ?x with _ => _ end) => destruct x
      end ].

Lemma preserving_apply_price_change v p :
  preserving (apply_price_change listlike_eq isoformat v p).
Proof.
  unfold apply_price_change, inventory_to_csv.
  apply preserving_bind.
  - apply preserving_inventory_loc_set. intros f Hf r.
    destruct (float64_cell p); cbn in Hf; inversion Hf.
    unfold same_keys. cbn. tauto.
  - intros _. apply preserving_bind; [apply preserving_now|]. intros t.
    apply preserving_bind.
    + apply preserving_inventory_loc_set. intros f Hf r. inversion Hf.
      unfold same_keys. cbn. tauto.
    + intros _. preserve.
Qed.

Lemma preserving_price_item dry_run adjustment :
  preserving
    (price_adjustment_item listlike_eq float_of_string isoformat dry_run
       adjustment).
Proof.
  unfold price_adjustment_item, price_adjustment_body, price_adjustment_handler.
  apply preserving_try; [|intros e; preserve].
  destruct (negb (truthy (py_get adjustment "vin"))
            || negb (truthy (py_get adjustment "recommended_price")));
    [preserve|].
  apply preserving_bind; [preserve|]. intros df.
  apply preserving_bind; [preserve|]. intros mask.
  destruct (select mask df); [preserve|].
  apply preserving_bind.
  - destruct dry_run; [preserve | apply preserving_apply_price_change].
  - intros _. preserve.
Qed.

Lemma preserving_customer_item dry_run response :
  preserving (customer_response_item listlike_eq isoformat dry_run response).
Proof.
  unfold customer_response_item, customer_response_body,
    customer_response_handler, send_response, _send_email, inquiries_to_csv.
  preserve.
Qed.

Lemma preserving_social_item dry_run post :
  preserving (social_media_post_item isoformat dry_run post).
Proof.
  unfold social_media_post_item, social_media_post_body,
    social_media_post_handler, _save_social_post.
  preserve.
Qed.

Lemma preserving_alert_item alert : preserving (urgent_alert_item isoformat alert).
Proof. unfold urgent_alert_item. preserve. Qed.

Lemma preserving_record_category key decisions run successes summary :
  (forall category, preserving (run category)) ->
  preserving (record_category key decisions run successes summary).
Proof.
  intros Hrun. unfold record_category.
  apply preserving_bind; [apply preserving_lift | intros present].
  destruct present; [|apply preserving_ret].
  apply preserving_bind; [apply preserving_lift | intros category].
  apply preserving_bind; [apply Hrun | intros rs; apply preserving_ret].
Qed.

(** An iteration on an item of any type, from the item function on dicts. *)
Lemma preserving_step (step : value -> M unit) (item : dict -> M unit) :
  (forall d s, step (VDict d) s = item d s) ->
  (forall v s, is_dict v = false -> step v s = (Raise (no_get v), s)) ->
  (forall d, preserving (item d)) ->
  forall v, preserving (step v).
Proof.
  intros Hdict Hother Hitem v s r s' H.
  destruct (is_dict v) eqn:E.
  - destruct v; try discriminate. rewrite Hdict in H. exact (Hitem _ _ _ _ H).
  - rewrite (Hother v s E) in H. inversion H. apply evolves_refl.
Qed.

(** A method on an argument of any type: the list is emptied, the
    argument measured or not, iterated, and the results are returned. *)
Lemma preserving_loop (step : value -> M unit) (items : value) :
  (forall v, preserving (step v)) ->
  preserving (bind (lift (py_iter items)) (fun items =>
                bind (for_each step items) (fun _ => gets results))).
Proof.
  intros Hstep.
  apply preserving_bind; [apply preserving_lift | intros xs].
  apply preserving_bind; [apply preserving_for_each; exact Hstep | intros _].
  apply preserving_gets.
Qed.

Lemma preserving_call_price dry_run adjustments :
  preserving
    (call_execute_price_adjustments listlike_eq float_of_string isoformat
       dry_run adjustments).
Proof.
  unfold call_execute_price_adjustments.
  apply preserving_bind; [apply preserving_modify; reflexivity | intros _].
  apply preserving_bind; [apply preserving_lift | intros _].
  apply preserving_loop.
  exact (preserving_step _ _ (price_step_dict listlike_eq float_of_string
                                isoformat dry_run)
           (price_step_other listlike_eq float_of_string isoformat dry_run)
           (preserving_price_item dry_run)).
Qed.

Lemma preserving_call_customer dry_run responses :
  preserving
    (call_execute_customer_responses listlike_eq isoformat dry_run responses).
Proof.
  unfold call_execute_customer_responses.
  apply preserving_bind; [apply preserving_modify; reflexivity | intros _].
  apply preserving_loop.
  exact (preserving_step _ _ (customer_step_dict listlike_eq isoformat dry_run)
           (customer_step_other listlike_eq isoformat dry_run)
           (preserving_customer_item dry_run)).
Qed.

Lemma preserving_call_social dry_run posts :
  preserving (call_execute_social_media_posts isoformat dry_run posts).
Proof.
  unfold call_execute_social_media_posts.
  apply preserving_bind; [apply preserving_modify; reflexivity | intros _].
  apply preserving_loop.
  exact (preserving_step _ _ (social_step_dict isoformat dry_run)
           (social_step_other isoformat dry_run)
           (preserving_social_item dry_run)).
Qed.

Lemma preserving_call_alerts alerts :
  preserving (call_log_urgent_alerts isoformat alerts).
Proof.
  unfold call_log_urgent_alerts.
  apply preserving_bind; [apply preserving_modify; reflexivity | intros _].
  apply preserving_loop.
  exact (preserving_step _ _ (alert_step_dict isoformat)
           (alert_step_other isoformat) preserving_alert_item).
Qed.

Lemma preserving_execute_all_actions dry_run decisions :
  preserving
    (execute_all_actions listlike_eq float_of_string isoformat dry_run decisions).
Proof.
  unfold execute_all_actions.
  apply preserving_bind; [apply preserving_now | intros t].
  apply preserving_bind.
  { apply preserving_record_category. apply preserving_call_price. }
  intros a1. apply preserving_bind.
  { apply preserving_record_category. apply preserving_call_customer. }
  intros a2. apply preserving_bind.
  { apply preserving_record_category. apply preserving_call_social. }
  intros a3. apply preserving_bind.
  { apply preserving_record_category. apply preserving_call_alerts. }
  intros a4. cbv zeta. unfold _save_action_log. preserve.
Qed.

Lemma Forall2_nth {A} (R : A -> A -> Prop) (l l' : list A) :
  Forall2 R l l' ->
  forall i a, nth_error l i = Some a ->
              exists b, nth_error l' i = Some b /\ R a b.
Proof.
  induction 1 as [|x y l l' Hxy Hl IH]; intros [|i] a Hi; cbn in *;
    try discriminate.
  - inversion Hi. subst. eauto.
  - eauto.
Qed.

Lemma Forall2_same_length {A} (R : A -> A -> Prop) (l l' : list A) :
  Forall2 R l l' -> List.length l' = List.length l.
Proof. induction 1; cbn; congruence. Qed.

(** No run of the executor, in either mode, for any decision set of any
    shape, and whether it returns or raises, adds, removes, reorders or
    re-keys an inventory row: the frame keeps its length and every row
    keeps its [vin], [stock_number], [cost] and [days_in_inventory]; only
    [current_price] and [last_price_change] can differ afterwards. *)
Theorem inventory_rows_keep_identity dry_run (decisions : value) s :
  let s' := snd (execute_all_actions listlike_eq float_of_string isoformat
                   dry_run decisions s) in
  List.length (inventory_df s') = List.length (inventory_df s) /\
  (forall i old, nth_error (inventory_df s) i = Some old ->
     exists new,
       nth_error (inventory_df s') i = Some new /\
       vin new = vin old /\ stock_number new = stock_number old /\
       cost new = cost old /\
       days_in_inventory new = days_in_inventory old).
Proof.
  destruct (execute_all_actions listlike_eq float_of_string isoformat dry_run
              decisions s) as [r s'] eqn:H.
  destruct (preserving_execute_all_actions dry_run decisions _ _ _ H) as [Hinv _].
  cbn. split; [exact (Forall2_same_length _ _ _ Hinv)|].
  intros i old Hi. destruct (Forall2_nth _ _ _ Hinv i old Hi) as (new & Hn & Hk).
  exists new. split; [exact Hn | exact Hk].
Qed.

(** No run of the executor, in either mode, for any decision set of any
    shape, and whether it returns or raises, adds, removes or re-keys an
    inquiry: every row keeps its [inquiry_id], [customer_email] and
    [customer_name], and its [status] is what it was or [responded]; an
    inquiry that was [responded] is [responded] afterwards. *)
Theorem responded_never_reverts dry_run (decisions : value) s :
  let s' := snd (execute_all_actions listlike_eq float_of_string isoformat
                   dry_run decisions s) in
  List.length (inquiries_df s') = List.length (inquiries_df s) /\
  (forall i old, nth_error (inquiries_df s) i = Some old ->
     exists new,
       nth_error (inquiries_df s') i = Some new /\
       inquiry_id new = inquiry_id old /\
       customer_email new = customer_email old /\
       customer_name new = customer_name old /\
       (status new = status old \/ status new = "responded") /\
       (status old = "responded" -> status new = "responded")).
Proof.
  destruct (execute_all_actions listlike_eq float_of_string isoformat dry_run
              decisions s) as [r s'] eqn:H.
  destruct (preserving_execute_all_actions dry_run decisions _ _ _ H) as [_ Hinq].
  cbn. split; [exact (Forall2_same_length _ _ _ Hinq)|].
  intros i old Hi.
  destruct (Forall2_nth _ _ _ Hinq i old Hi) as (new & Hn & Hid & Hm & Hnm & Hst).
  exists new. do 5 (split; [assumption|]).
  intros Hold. destruct Hst as [Hst|Hst]; congruence.
Qed.

(** ** Simulate mode writes nothing, however the run ends *)

(** A statement after which the store and the files under [logs/] other
    than the action log are as before, whether it returned or raised. *)
Definition untouched {A} (m : M A) : Prop :=
  forall s r s', m s = (r, s') -> same_store s s'.

Lemma untouched_pure {A} (m : M A) :
  (forall s, snd (m s) = s) -> untouched m.
Proof.
  intros Hm s r s' H. specialize (Hm s). rewrite H in Hm. cbn in Hm.
  subst s'. apply same_store_refl.
Qed.

Lemma untouched_modify (f : state -> state) :
  (forall s, same_store s (f s)) -> untouched (modify f).
Proof. intros Hf s r s' H. inversion H. apply Hf. Qed.

Lemma untouched_bind {A B} (m : M A) (k : A -> M B) :
  untouched m -> (forall a, untouched (k a)) -> untouched (bind m k).
Proof.
  intros Hm Hk s r s' H. unfold bind in H.
  destruct (m s) as [[a|e] s1] eqn:E.
  - eapply same_store_trans; [exact (Hm _ _ _ E) | exact (Hk _ _ _ _ H)].
  - inversion H. subst. exact (Hm _ _ _ E).
Qed.

Lemma untouched_for_each {A} (f : A -> M unit) (xs : list A) :
  (forall x, untouched (f x)) -> untouched (for_each f xs).
Proof.
  intros Hf. induction xs as [|x xs IH]; cbn [for_each].
  - apply untouched_pure. reflexivity.
  - apply untouched_bind; [apply Hf | intros _; exact IH].
Qed.

(** An item function of simulate mode always returns, so every outcome it
    has is one that left the store alone. *)
Lemma untouched_dry_item (f : dict -> M unit) :
  dry_item f -> forall d, untouched (f d).
Proof.
  intros Hf d s r s' H.
  destruct (Hf d s s eq_refl eq_refl) as (s1 & _ & _ & _ & H1 & _ & S1 & _).
  rewrite H in H1. inversion H1. subst. exact S1.
Qed.

Lemma untouched_step (step : value -> M unit) (item : dict -> M unit) :
  (forall d s, step (VDict d) s = item d s) ->
  (forall v s, is_dict v = false -> step v s = (Raise (no_get v), s)) ->
  dry_item item ->
  forall v, untouched (step v).
Proof.
  intros Hdict Hother Hitem v s r s' H.
  destruct (is_dict v) eqn:E.
  - destruct v; try discriminate. rewrite Hdict in H.
    exact (untouched_dry_item item Hitem _ _ _ _ H).
  - rewrite (Hother v s E) in H. inversion H. apply same_store_refl.
Qed.

Lemma untouched_loop (step : value -> M unit) (items : value) :
  (forall v, untouched (step v)) ->
  untouched (bind (lift (py_iter items)) (fun items =>
               bind (for_each step items) (fun _ => gets results))).
Proof.
  intros Hstep.
  apply untouched_bind; [apply untouched_pure; reflexivity | intros xs].
  apply untouched_bind; [apply untouched_for_each; exact Hstep | intros _].
  apply untouched_pure. reflexivity.
Qed.

Lemma untouched_set_results rs : untouched (modify (set_results rs)).
Proof. apply untouched_modify. intros s. unfold same_store. cbn. tauto. Qed.

Lemma untouched_record_category key decisions run successes summary :
  (forall category, untouched (run category)) ->
  untouched (record_category key decisions run successes summary).
Proof.
  intros Hrun. unfold record_category.
  apply untouched_bind; [apply untouched_pure; reflexivity | intros present].
  destruct present; [|apply untouched_pure; reflexivity].
  apply untouched_bind; [apply untouched_pure; reflexivity | intros category].
  apply untouched_bind; [apply Hrun | intros rs].
  apply untouched_pure. reflexivity.
Qed.

Lemma untouched_execute_all_actions decisions :
  untouched
    (execute_all_actions listlike_eq float_of_string isoformat true decisions).
Proof.
  unfold execute_all_actions.
  apply untouched_bind.
  { intros s r s' H. inversion H. unfold same_store. cbn. tauto. }
  intros t. apply untouched_bind.
  { apply untouched_record_category. intros adjustments.
    unfold call_execute_price_adjustments.
    apply untouched_bind; [apply untouched_set_results | intros _].
    apply untouched_bind; [apply untouched_pure; reflexivity | intros _].
    apply untouched_loop.
    exact (untouched_step _ _
             (price_step_dict listlike_eq float_of_string isoformat true)
             (price_step_other listlike_eq float_of_string isoformat true)
             (price_item_dry listlike_eq float_of_string isoformat)). }
  intros a1. apply untouched_bind.
  { apply untouched_record_category. intros responses.
    unfold call_execute_customer_responses.
    apply untouched_bind; [apply untouched_set_results | intros _].
    apply untouched_loop.
    exact (untouched_step _ _ (customer_step_dict listlike_eq isoformat true)
             (customer_step_other listlike_eq isoformat true)
             (customer_item_dry listlike_eq isoformat)). }
  intros a2. apply untouched_bind.
  { apply untouched_record_category. intros posts.
    unfold call_execute_social_media_posts.
    apply untouched_bind; [apply untouched_set_results | intros _].
    apply untouched_loop.
    exact (untouched_step _ _ (social_step_dict isoformat true)
             (social_step_other isoformat true)
             (social_item_dry float_of_string isoformat)). }
  intros a3. apply untouched_bind.
  { apply untouched_record_category. intros alerts.
    unfold call_log_urgent_alerts.
    apply untouched_bind; [apply untouched_set_results | intros _].
    apply untouched_loop.
    exact (untouched_step _ _ (alert_step_dict isoformat)
             (alert_step_other isoformat) (alert_item_dry isoformat)). }
  intros a4. cbv zeta. unfold _save_action_log.
  apply untouched_bind; [|intros _; apply untouched_pure; reflexivity].
  apply untouched_bind; [apply untouched_pure; reflexivity | intros existing].
  apply untouched_modify. intros s. unfold same_store. cbn. tauto.
Qed.

(** In simulate mode the executor writes nothing but the action log: for
    every decision set of any shape, and whether the run returns a summary
    or raises midway, both data frames, both CSV files and the mail and
    social files are afterwards what they were before. *)
Theorem simulate_never_writes (decisions : value) s :
  same_store s
    (snd (execute_all_actions listlike_eq float_of_string isoformat true
            decisions s)).
Proof.
  destruct (execute_all_actions listlike_eq float_of_string isoformat true
              decisions s) as [r s'] eqn:H.
  exact (untouched_execute_all_actions decisions _ _ _ H).
Qed.

End Store.

End StoreInvariants.

(* ================================================================== *)
(** * The cycle driver, case by case *)
(* ================================================================== *)

Module DriverBehaviour.

Import Py PyFacts AutonomousAgent AutonomousAgentFacts.
Local Open Scope string_scope.
Local Open Scope Z_scope.

(** The number of iterations that find the job due. *)
Definition due_count (ticks : list bool) : Z :=
  Z.of_nat (List.length (filter (fun due => due) ticks)).

Section Cases.

Variables World Tables Summary Instant : Type.
Variable read_csvs : stmt World Tables.
Variable decision_loop : Tables -> stmt World value.
Variable execute_all : value -> Tables -> stmt World Summary.
Variable datetime_now : World -> Instant * World.

Local Abbreviation cycle :=
  (run_agent_cycle read_csvs decision_loop execute_all datetime_now).
Local Abbreviation polling :=
  (polling_loop read_csvs decision_loop execute_all datetime_now).
Local Abbreviation start :=
  (start_autonomous_mode read_csvs decision_loop execute_all datetime_now).

(** When the decision loop returns something falsy ([None], an empty dict,
    an empty list, ...), the cycle ends there: the executor is not called,
    the world is as the decision loop left it, and the cycle is not counted
    ([run_count] and [last_run] keep their values). *)
Theorem empty_decisions_skip_execution (a : agent World Instant)
    tables w1 decisions w2 :
  read_csvs (world a) = (Ok tables, w1) ->
  decision_loop tables w1 = (Ok decisions, w2) ->
  truthy decisions = false ->
  cycle a = (Ok tt, mkAgent (is_running a) (run_count a) (last_run a) w2).
Proof.
  intros Hr Hd Ht.
  unfold run_agent_cycle, try_except, cycle_body, call, bind.
  rewrite Hr. cbn. rewrite Hd. cbn. rewrite Ht. reflexivity.
Qed.

(** The progress line of the analysis raises: [in] cannot search the
    decisions, or it finds the key and the subscript fails (a list that
    holds the string, a text that contains it). *)
Definition summary_line_raises (decisions : value) : bool :=
  match py_contains decisions "analysis_summary" with
  | Raise _ => true
  | Ok true => match py_getitem decisions "analysis_summary" with
               | Raise _ => true
               | Ok _ => false
               end
  | Ok false => false
  end.

(** When the decision loop returns something truthy on which the analysis
    line raises (a number, a list holding the string [analysis_summary], a
    text containing it), the cycle ends in its [except] clause before the
    executor is called: the world is as the decision loop left it and the
    cycle is not counted. *)
Theorem unreadable_decisions_not_counted (a : agent World Instant)
    tables w1 decisions w2 :
  read_csvs (world a) = (Ok tables, w1) ->
  decision_loop tables w1 = (Ok decisions, w2) ->
  truthy decisions = true ->
  summary_line_raises decisions = true ->
  cycle a = (Ok tt, mkAgent (is_running a) (run_count a) (last_run a) w2).
Proof.
  intros Hr Hd Ht Hs.
  unfold run_agent_cycle, try_except, cycle_body, call, bind.
  rewrite Hr. cbn. rewrite Hd. cbn -[py_contains py_getitem]. rewrite Ht.
  cbn -[py_contains py_getitem]. unfold summary_line_raises in Hs. unfold lift.
  destruct (py_contains decisions "analysis_summary") as [[|]|e];
    [|discriminate|reflexivity].
  destruct (py_getitem decisions "analysis_summary"); [discriminate|].
  reflexivity.
Qed.

(** Collaborators that never fail: the data loads, the decision loop returns
    a non-empty mapping, the executor returns. *)
Definition healthy : Prop :=
  (forall w, exists tables w', read_csvs w = (Ok tables, w')) /\
  (forall tables w, exists d w',
      decision_loop tables w = (Ok (VDict d), w') /\ d <> []) /\
  (forall decisions tables w, exists summary w',
      execute_all decisions tables w = (Ok summary, w')).

Lemma healthy_cycle (a : agent World Instant) :
  healthy ->
  exists a',
    cycle a = (Ok tt, a') /\
    is_running a' = is_running a /\
    run_count a' = run_count a + 1 /\
    last_run a' <> None.
Proof.
  intros (Hr & Hd & He).
  destruct (Hr (world a)) as (tables & w1 & Er).
  destruct (Hd tables w1) as (d & w2 & Ed & Hne).
  destruct (He (VDict d) tables w2) as (summary & w3 & Ee).
  unfold run_agent_cycle, try_except, cycle_body, call, AutonomousAgent.now,
    bind, lift, modify.
  assert (Ht : truthy (VDict d) = true)
    by (destruct d; [congruence | reflexivity]).
  rewrite Er. cbn. rewrite Ed. cbn -[truthy py_contains py_getitem].
  rewrite Ht. cbn [negb py_contains py_getitem]. unfold dict_mem.
  destruct (dict_get d "analysis_summary"); cbn;
    rewrite Ee; cbn; destruct (datetime_now w3) as [t w4]; cbn;
    (eexists; split; [reflexivity|]); cbn; repeat split; discriminate.
Qed.

Lemma healthy_polling ticks : healthy -> forall (a : agent World Instant),
  is_running a = true ->
  last_run a <> None ->
  exists a',
    polling ticks a = (Ok tt, a') /\
    is_running a' = true /\
    run_count a' = run_count a + due_count ticks /\
    last_run a' <> None.
Proof.
  intros Hh. induction ticks as [|due rest IH]; intros a Hrun Hlast.
  - exists a. cbn. unfold ret, due_count. cbn. repeat split; auto. lia.
  - cbn [polling_loop]. rewrite run_gets, Hrun. destruct due.
    + destruct (healthy_cycle a Hh) as (a1 & Hc & Hr1 & Hn1 & Hl1).
      destruct (IH a1 (eq_trans Hr1 Hrun) Hl1) as (a' & Hp & Hr' & Hn' & Hl').
      exists a'. rewrite (run_bind _ _ _ _ _ Hc).
      split; [exact Hp|]. split; [exact Hr'|]. split; [|exact Hl'].
      rewrite Hn', Hn1. unfold due_count. cbn [filter List.length]. lia.
    + destruct (IH a Hrun Hlast) as (a' & Hp & Hr' & Hn' & Hl').
      exists a'. rewrite run_ret. split; [exact Hp|]. split; [exact Hr'|].
      split; [|exact Hl'].
      rewrite Hn'. unfold due_count. cbn [filter]. reflexivity.
Qed.

(** With collaborators that never fail, the driver counts the cycle it runs
    at start and then exactly one cycle per iteration that finds the job
    due: [run_count] grows by one plus the number of due iterations, and
    [last_run] is set. *)
Theorem healthy_cycles_all_counted (a : agent World Instant) (ticks : list bool) :
  healthy ->
  exists a',
    start ticks a = (Ok tt, a') /\
    is_running a' = true /\
    run_count a' = run_count a + 1 + due_count ticks /\
    last_run a' <> None.
Proof.
  intros Hh. unfold start_autonomous_mode. rewrite run_modify.
  destruct (healthy_cycle (set_is_running World Instant true a) Hh)
    as (a1 & Hc & Hr1 & Hn1 & Hl1).
  destruct (healthy_polling ticks Hh a1 Hr1 Hl1) as (a' & Hp & Hr' & Hn' & Hl').
  exists a'. rewrite (run_bind _ _ _ _ _ Hc).
  split; [exact Hp|]. split; [exact Hr'|]. split; [|exact Hl'].
  rewrite Hn', Hn1. reflexivity.
Qed.

(** A decision loop that raises whatever it is given. *)
Definition always_raises : Prop :=
  forall tables w, exists e w', decision_loop tables w = (Raise e, w').

Lemma outage_cycle (a : agent World Instant) :
  always_raises ->
  exists a',
    cycle a = (Ok tt, a') /\
    is_running a' = is_running a /\
    run_count a' = run_count a /\ last_run a' = last_run a.
Proof.
  intros Hd.
  unfold run_agent_cycle, try_except, cycle_body, call, bind, ret.
  destruct (read_csvs (world a)) as [[tables|e] w1]; cbn.
  - destruct (Hd tables w1) as (e & w2 & Ed). rewrite Ed. cbn.
    eexists. split; [reflexivity|]. cbn. auto.
  - eexists. split; [reflexivity|]. cbn. auto.
Qed.

Lemma outage_polling ticks : always_raises -> forall (a : agent World Instant),
  exists a',
    polling ticks a = (Ok tt, a') /\
    is_running a' = is_running a /\
    run_count a' = run_count a /\ last_run a' = last_run a.
Proof.
  intros Hd. induction ticks as [|due rest IH]; intros a.
  - exists a. cbn. unfold ret. auto.
  - cbn [polling_loop]. rewrite run_gets.
    destruct (is_running a) eqn:Hrun; [|exists a; unfold ret; auto].
    destruct due.
    + destruct (outage_cycle a Hd) as (a1 & Hc & Hr1 & Hn1 & Hl1).
      destruct (IH a1) as (a' & Hp & Hr' & Hn' & Hl').
      exists a'. rewrite (run_bind _ _ _ _ _ Hc).
      split; [exact Hp|]. repeat split; congruence.
    + destruct (IH a) as (a' & Hp & Hr' & Hn' & Hl').
      exists a'. rewrite run_ret. split; [exact Hp|]. repeat split; congruence.
Qed.

(** While the decision loop raises on every call, the driver keeps going
    and counts nothing: after the cycle at start and any number of polling
    iterations it is still running, and [run_count] and [last_run] are
    what they were before the start. *)
Theorem outage_never_counted (a : agent World Instant) (ticks : list bool) :
  always_raises ->
  exists a',
    start ticks a = (Ok tt, a') /\
    is_running a' = true /\
    run_count a' = run_count a /\ last_run a' = last_run a.
Proof.
  intros Hd. unfold start_autonomous_mode. rewrite run_modify.
  destruct (outage_cycle (set_is_running World Instant true a) Hd)
    as (a1 & Hc & Hr1 & Hn1 & Hl1).
  destruct (outage_polling ticks Hd a1) as (a' & Hp & Hr' & Hn' & Hl').
  exists a'. rewrite (run_bind _ _ _ _ _ Hc).
  split; [exact Hp|]. split; [rewrite Hr', Hr1; reflexivity|].
  cbn in Hn1, Hl1. split; congruence.
Qed.

(** After [stop], the polling loop runs no cycle, however many iterations
    follow and whether or not the job is due: no collaborator is called and
    the agent is as [stop] left it. *)
Theorem stop_prevents_cycles (a : agent World Instant) (ticks : list bool) :
  bind (stop (World := World) (Instant := Instant)) (fun _ => polling ticks) a
  = (Ok tt, mkAgent false (run_count a) (last_run a) (world a)).
Proof.
  unfold stop. rewrite run_modify.
  destruct ticks as [|due rest]; reflexivity.
Qed.

End Cases.

(** ** A concrete driver *)

(** A world that counts the executor's runs, and whose clock shows the
    count; the agent as [__init__] leaves it. *)
Definition loads : stmt nat unit := fun w => (Ok tt, w).

Definition decides_nothing : unit -> stmt nat value :=
  fun _ w => (Ok (VDict []), w).

Definition decides_summary : unit -> stmt nat value :=
  fun _ w => (Ok (VDict [("analysis_summary", VStr "nothing aged")]), w).

(** The decision loop of [BedrockAgentCore] when Bedrock gives no reply. *)
Definition decides_without_reply : unit -> stmt nat value :=
  fun _ =>
    lift (BedrockAgent.agent_decision_loop
            (fun _ => Raise (JSONDecodeError "Expecting value")) None [] []).

Definition executes : value -> unit -> stmt nat unit :=
  fun _ _ w => (Ok tt, S w).

Definition shows_count : nat -> nat * nat := fun w => (w, w).

Definition fresh_agent : agent nat nat := mkAgent false 0 None 0%nat.

Lemma empty_decisions_skip_execution_witness :
  run_agent_cycle loads decides_nothing executes shows_count fresh_agent
  = (Ok tt, fresh_agent).
Proof.
  exact (empty_decisions_skip_execution nat unit unit nat loads decides_nothing
           executes shows_count fresh_agent tt 0%nat (VDict []) 0%nat
           eq_refl eq_refl eq_refl).
Defined.

Definition decides_a_list : unit -> stmt nat value :=
  fun _ w => (Ok (VList [VStr "analysis_summary"; VStr "reprice STK10001"]), w).

Lemma unreadable_decisions_not_counted_witness :
  run_agent_cycle loads decides_a_list executes shows_count fresh_agent
  = (Ok tt, fresh_agent).
Proof.
  exact (unreadable_decisions_not_counted nat unit unit nat loads decides_a_list
           executes shows_count fresh_agent tt 0%nat
           (VList [VStr "analysis_summary"; VStr "reprice STK10001"]) 0%nat
           eq_refl eq_refl eq_refl eq_refl).
Defined.

Lemma healthy_cycles_all_counted_witness :
  exists a',
    start_autonomous_mode loads decides_summary executes shows_count
      [true; false; true] fresh_agent = (Ok tt, a') /\
    run_count a' = 3 /\
    last_run a' <> None.
Proof.
  assert (H : healthy nat unit unit loads decides_summary executes).
  { split; [|split].
    - intros w. exists tt, w. reflexivity.
    - intros tables w. do 2 eexists. split; [reflexivity | discriminate].
    - intros decisions tables w. do 2 eexists. reflexivity. }
  destruct (healthy_cycles_all_counted nat unit unit nat loads decides_summary
              executes shows_count fresh_agent [true; false; true] H)
    as (a' & Hrun & _ & Hn & Hl).
  exists a'. split; [exact Hrun|]. split; [rewrite Hn; reflexivity | exact Hl].
Defined.

Lemma outage_never_counted_witness :
  exists a',
    start_autonomous_mode loads decides_without_reply executes shows_count
      [true; true] fresh_agent = (Ok tt, a') /\
    run_count a' = 0 /\
    last_run a' = None.
Proof.
  assert (H : always_raises nat unit decides_without_reply).
  { intros tables w. do 2 eexists. reflexivity. }
  destruct (outage_never_counted nat unit unit nat loads decides_without_reply
              executes shows_count fresh_agent [true; true] H)
    as (a' & Hrun & _ & Hn & Hl).
  exists a'. auto.
Defined.

End DriverBehaviour.

(* ================================================================== *)
(** * The validator and the JSON extraction, further *)
(* ================================================================== *)

Module ValidatorBehaviour.

Import Py PyFacts BedrockAgent BedrockAgentFacts.
Local Open Scope string_scope.

(** ** Exactly the valid items are kept *)

Lemma comprehension_on_items field valid items :
  forallb (item_okb field) items = true ->
  comprehension field valid items = Ok (filter (keeps field valid) items).
Proof.
  intros H. destruct (comprehension_total field valid items H) as [kept Hk].
  rewrite Hk. f_equal. now apply comprehension_filter.
Qed.

Lemma filter_category_exact field key valid d :
  category_okb field key d = true ->
  exists out,
    filter_category field key valid (VDict d) = Ok (VDict out) /\
    (forall items, dict_get d key = Some (VList items) ->
       dict_get out key = Some (VList (filter (keeps field valid) items))) /\
    (dict_get d key = None -> dict_get out key = None) /\
    (forall k, k <> key -> dict_get out k = dict_get d k).
Proof.
  unfold category_okb, filter_category. cbn. unfold dict_mem.
  destruct (dict_get d key) as [original|] eqn:Eo.
  - destruct original as [| | | | |items|]; try discriminate. intros Hok.
    cbn. rewrite (comprehension_on_items field valid items Hok). cbn.
    eexists. split; [reflexivity|]. split; [|split; [discriminate|]].
    + intros items' H. inversion H. subst. apply dict_get_set_same.
    + intros k Hk. now apply dict_get_set_other.
  - intros _. exists d. split; [reflexivity|].
    split; [congruence|]. split; auto.
Qed.

(** On a decision set whose two filtered categories are absent or lists of
    mappings with hashable identifiers, the validator keeps exactly the
    items whose identifier is a string of the valid set, in their original
    order: no valid item is dropped.  Every other key of the decision set
    ([analysis_summary], [social_media_posts], [urgent_alerts], ...) keeps
    its value, and no key is added. *)
Theorem validate_keeps_exactly_valid d valid_vins valid_inquiry_ids :
  well_shaped (VDict d) = true ->
  exists out,
    _validate_decisions (VDict d) valid_vins valid_inquiry_ids = Ok (VDict out) /\
    (forall items, dict_get d "price_adjustments" = Some (VList items) ->
       dict_get out "price_adjustments"
       = Some (VList (filter (keeps "vin" valid_vins) items))) /\
    (forall items, dict_get d "customer_responses" = Some (VList items) ->
       dict_get out "customer_responses"
       = Some (VList (filter (keeps "inquiry_id" valid_inquiry_ids) items))) /\
    (forall k, k <> "price_adjustments" -> k <> "customer_responses" ->
               dict_get out k = dict_get d k) /\
    (forall k, dict_get d k = None -> dict_get out k = None).
Proof.
  cbn. intros H. apply andb_prop in H. destruct H as [Hp Hc].
  destruct (filter_category_exact "vin" "price_adjustments" valid_vins d Hp)
    as (d1 & E1 & K1 & A1 & F1).
  assert (Hc1 : category_okb "inquiry_id" "customer_responses" d1 = true).
  { unfold category_okb in *. rewrite F1 by discriminate. exact Hc. }
  destruct (filter_category_exact "inquiry_id" "customer_responses"
              valid_inquiry_ids d1 Hc1) as (d2 & E2 & K2 & A2 & F2).
  exists d2. unfold _validate_decisions. rewrite E1. simpl. rewrite E2.
  split; [reflexivity|]. split; [|split; [|split]].
  - intros items Hi. rewrite F2 by discriminate. now apply K1.
  - intros items Hi. apply K2. rewrite F1 by discriminate. exact Hi.
  - intros k Hk1 Hk2. rewrite F2, F1 by assumption. reflexivity.
  - intros k Hk.
    destruct (String.eqb_spec k "customer_responses") as [->|N2].
    + apply A2. rewrite F1 by discriminate. exact Hk.
    + rewrite F2 by assumption.
      destruct (String.eqb_spec k "price_adjustments") as [->|N1].
      * now apply A1.
      * rewrite F1 by assumption. exact Hk.
Qed.

(** ** Validating twice *)

(** A binding of [k], if it is one, holds [v]. *)
Definition bound (k : string) (v : value) (kv : string * value) : Prop :=
  fst kv = k -> snd kv = v.

Lemma absent_no_binding d k :
  dict_get d k = None -> Forall (fun kv => fst kv <> k) d.
Proof.
  induction d as [|[k' v'] d IH]; cbn; [constructor|].
  destruct (String.eqb_spec k' k); [discriminate|]. intros H.
  constructor; [exact n | exact (IH H)].
Qed.

Lemma dict_set_bound d k v : Forall (bound k v) (dict_set d k v).
Proof.
  unfold dict_set, dict_mem. destruct (dict_get d k) eqn:E.
  - apply Forall_forall. intros kv Hin. apply in_map_iff in Hin.
    destruct Hin as ([k' v'] & <- & _). cbn.
    destruct (String.eqb_spec k' k); unfold bound; cbn; congruence.
  - apply Forall_app. split.
    + eapply Forall_impl; [|exact (absent_no_binding d k E)].
      intros kv Hne Heq. contradiction.
    + constructor; [|constructor]. unfold bound. reflexivity.
Qed.

Lemma dict_set_bound_other d k v k2 w :
  k2 <> k -> Forall (bound k v) d -> Forall (bound k v) (dict_set d k2 w).
Proof.
  intros Hne Hd. unfold dict_set. destruct (dict_mem d k2).
  - apply Forall_forall. intros kv Hin. apply in_map_iff in Hin.
    destruct Hin as ([k' v'] & <- & Hin'). cbn.
    destruct (String.eqb_spec k' k2).
    + unfold bound. cbn. congruence.
    + exact (proj1 (Forall_forall _ _) Hd _ Hin').
  - apply Forall_app. split; [exact Hd|].
    constructor; [|constructor]. unfold bound. cbn. congruence.
Qed.

Lemma dict_set_same_value d k v :
  dict_get d k <> None -> Forall (bound k v) d -> dict_set d k v = d.
Proof.
  intros Hmem Hd. unfold dict_set.
  rewrite (proj2 (dict_mem_true d k) Hmem).
  induction Hd as [|[k' v'] d Hkv Hd IH]; cbn; [reflexivity|].
  assert (Hrest : map (fun kv => if String.eqb (fst kv) k then (fst kv, v) else kv) d
                  = d).
  { clear Hmem IH Hkv. induction Hd as [|[k0 v0] d H0 Hd IH]; cbn; [reflexivity|].
    rewrite IH. destruct (String.eqb_spec k0 k); [|reflexivity].
    unfold bound in H0. cbn in H0. now rewrite (H0 e). }
  rewrite Hrest. destruct (String.eqb_spec k' k); [|reflexivity].
  unfold bound in Hkv. cbn in Hkv. now rewrite (Hkv e).
Qed.

(** A dict on which one filtering block has nothing left to do. *)
Definition fixed (field key : string) (valid : list string) (d : dict) : Prop :=
  dict_get d key = None \/
  exists kept,
    dict_get d key = Some (VList kept) /\
    (forall x, In x kept -> keeps field valid x = true) /\
    Forall (bound key (VList kept)) d.

Lemma comprehension_of_kept field valid items :
  (forall x, In x items -> keeps field valid x = true) ->
  comprehension field valid items = Ok items.
Proof.
  induction items as [|x rest IH]; intros H; cbn; [reflexivity|].
  rewrite IH by (intros y Hy; apply H; now right).
  assert (Hx := H x (or_introl eq_refl)).
  destruct x as [| | | | |l|d]; cbn in Hx; try discriminate. cbn.
  destruct (py_get d field); try discriminate. cbn. rewrite Hx. reflexivity.
Qed.

Lemma fixed_filter_category field key valid d :
  fixed field key valid d ->
  filter_category field key valid (VDict d) = Ok (VDict d).
Proof.
  intros [Habs | (kept & Hget & Hkept & Hbound)];
    unfold filter_category; cbn; unfold dict_mem.
  - rewrite Habs. reflexivity.
  - rewrite Hget. cbn. rewrite (comprehension_of_kept field valid kept Hkept).
    cbn. rewrite dict_set_same_value; [reflexivity | congruence | exact Hbound].
Qed.

Lemma filter_category_fixes field key valid d out :
  filter_category field key valid (VDict d) = Ok out ->
  exists x, out = VDict x /\ fixed field key valid x /\
            (x = d \/ exists w, x = dict_set d key w).
Proof.
  intros H. apply filter_category_dict in H.
  destruct (dict_get d key) as [original|] eqn:Eo.
  - destruct H as (items & kept & _ & Hc & ->).
    exists (dict_set d key (VList kept)). split; [reflexivity|]. split; [|eauto].
    right. exists kept. split; [apply dict_get_set_same|].
    split; [|apply dict_set_bound].
    apply comprehension_filter in Hc. intros x Hx. rewrite Hc in Hx.
    apply filter_In in Hx. tauto.
  - subst out. exists d. split; [reflexivity|]. split; [now left | now left].
Qed.

Lemma fixed_dict_set_other field key valid d k2 w :
  k2 <> key -> fixed field key valid d -> fixed field key valid (dict_set d k2 w).
Proof.
  intros Hne [Habs | (kept & Hget & Hkept & Hbound)].
  - left. rewrite dict_get_set_other by congruence. exact Habs.
  - right. exists kept. rewrite dict_get_set_other by congruence.
    split; [exact Hget|]. split; [exact Hkept|].
    now apply dict_set_bound_other.
Qed.

(** Validation is idempotent: whatever the decision set, if the validator
    returns, validating its output again with the same identifier sets
    returns that output unchanged. *)
Theorem validate_idempotent decisions valid_vins valid_inquiry_ids out :
  _validate_decisions decisions valid_vins valid_inquiry_ids = Ok out ->
  _validate_decisions out valid_vins valid_inquiry_ids = Ok out.
Proof.
  intros H. assert (H0 := H). unfold _validate_decisions in H.
  destruct (filter_category "vin" "price_adjustments" valid_vins decisions)
    as [d1|] eqn:E1; simpl in H; [|discriminate].
  destruct decisions as [| | | | | |d];
    try (apply filter_category_other in E1; [|congruence]; subst d1;
         apply filter_category_other in H; [|congruence]; subst out;
         exact H0).
  destruct (filter_category_fixes _ _ _ _ _ E1) as (x1 & -> & Hfix1 & _).
  destruct (filter_category_fixes _ _ _ _ _ H) as (x2 & -> & Hfix2 & Hx2).
  assert (Hfix1' : fixed "vin" "price_adjustments" valid_vins x2).
  { destruct Hx2 as [-> | (w & ->)]; [exact Hfix1|].
    apply fixed_dict_set_other; [discriminate | exact Hfix1]. }
  unfold _validate_decisions.
  rewrite (fixed_filter_category _ _ _ _ Hfix1'). simpl.
  exact (fixed_filter_category _ _ _ _ Hfix2).
Qed.

(** ** [_extract_json] *)

(** The text [_extract_json] searches: code fences removed, then stripped. *)
Definition cleaned (text : string) : string :=
  strip (str_remove "```" (str_remove "```json" text)).

Lemma find_char_get c s i : find_char c s = Some i -> String.get i s = Some c.
Proof.
  revert i. induction s as [|c' s IH]; intros i; cbn; [discriminate|].
  destruct (Ascii.eqb_spec c' c) as [->|Hne].
  - intros H. inversion H. reflexivity.
  - destruct (find_char c s) as [k|]; [|discriminate].
    intros H. inversion H. cbn. now apply IH.
Qed.

Lemma rfind_char_get c s i : rfind_char c s = Some i -> String.get i s = Some c.
Proof.
  revert i. induction s as [|c' s IH]; intros i; cbn; [discriminate|].
  destruct (rfind_char c s) as [k|].
  - intros H. inversion H. cbn. now apply IH.
  - destruct (Ascii.eqb_spec c' c) as [->|Hne]; [|discriminate].
    intros H. inversion H. reflexivity.
Qed.

(** No later position than the one [rfind] returns holds the character. *)
Lemma rfind_char_last c s i :
  rfind_char c s = Some i ->
  forall k, (i < k)%nat -> String.get k s <> Some c.
Proof.
  revert i. induction s as [|c' s IH]; intros i; cbn; [discriminate|].
  destruct (rfind_char c s) as [j|] eqn:E.
  - intros H k Hk. inversion H. subst i.
    destruct k as [|k]; [lia|]. cbn. apply (IH j eq_refl). lia.
  - destruct (Ascii.eqb_spec c' c) as [->|Hne]; [|discriminate].
    intros H k Hk. inversion H. subst i. destruct k as [|k]; [lia|]. cbn.
    clear -E. revert k. induction s as [|c0 s IH]; intros k; cbn in *.
    + destruct k; discriminate.
    + destruct (rfind_char c s) as [j|]; [discriminate|].
      destruct (Ascii.eqb_spec c0 c) as [->|Hne]; [discriminate|].
      destruct k as [|k]; [congruence | now apply IH].
Qed.

(** Whenever the cleaned reply holds an opening brace before a closing one,
    [_extract_json] returns the span from the first opening brace to the
    last closing brace: the result starts with the opening brace at that
    position, ends with the closing brace at that position and is exactly
    as long as the span, so everything before and after the object is cut
    off. *)
Theorem extract_json_span text i j :
  find_char "{" (cleaned text) = Some i ->
  rfind_char "}" (cleaned text) = Some j ->
  (i < j)%nat ->
  String.get 0 (_extract_json text) = Some "{"%char /\
  String.get (j - i) (_extract_json text) = Some "}"%char /\
  String.get (S (j - i)) (_extract_json text) = None /\
  (forall p, (p <= j - i)%nat ->
             String.get p (_extract_json text) = String.get (p + i) (cleaned text)).
Proof.
  intros Hf Hr Hij. unfold _extract_json. fold (cleaned text).
  rewrite Hf, Hr.
  assert (E : (i <? S j)%nat = true) by (apply Nat.ltb_lt; lia).
  rewrite E.
  assert (Hget : forall p, (p <= j - i)%nat ->
            String.get p (String.substring i (S j - i) (cleaned text))
            = String.get (p + i) (cleaned text))
    by (intros p Hp; apply String.substring_correct1; lia).
  split; [|split; [|split]].
  - rewrite Hget by lia. cbn. exact (find_char_get _ _ _ Hf).
  - rewrite Hget by lia. replace (j - i + i)%nat with j by lia.
    exact (rfind_char_get _ _ _ Hr).
  - apply String.substring_correct2. lia.
  - exact Hget.
Qed.

(** Without an opening brace the reply comes back cleaned and otherwise
    whole, and so it does when the only closing braces stand before the
    first opening one. *)
Lemma extract_json_no_object text :
  (find_char "{" (cleaned text) = None \/
   exists i, find_char "{" (cleaned text) = Some i /\
             forall j, rfind_char "}" (cleaned text) = Some j -> (j < i)%nat) ->
  _extract_json text = cleaned text.
Proof.
  unfold _extract_json. fold (cleaned text).
  intros [H | (i & H & Hj)]; rewrite H; [reflexivity|].
  destruct (rfind_char "}" (cleaned text)) as [j|]; [|reflexivity].
  specialize (Hj j eq_refl).
  assert (E : (i <? S j)%nat = false) by (apply Nat.ltb_ge; lia).
  now rewrite E.
Qed.

(** ** Concrete inputs *)

Lemma validate_keeps_exactly_valid_witness :
  exists out,
    _validate_decisions sample_decisions ["ABC123"] ["INQ20000"]
    = Ok (VDict out) /\
    dict_get out "price_adjustments"
    = Some (VList [VDict [("vin", VStr "ABC123");
                          ("recommended_price", VInt 18000)]]) /\
    dict_get out "customer_responses" = Some (VList []) /\
    dict_get out "social_media_posts" = None.
Proof.
  destruct (validate_keeps_exactly_valid _ ["ABC123"] ["INQ20000"]
              (eq_refl : well_shaped sample_decisions = true))
    as (out & Hrun & Hp & Hc & _ & Habs).
  exists out. split; [exact Hrun|].
  split; [erewrite Hp by reflexivity; reflexivity|].
  split; [erewrite Hc by reflexivity; reflexivity | now apply Habs].
Defined.

Lemma validate_idempotent_witness :
  exists out,
    _validate_decisions sample_decisions ["ABC123"] ["INQ20000"] = Ok out /\
    _validate_decisions out ["ABC123"] ["INQ20000"] = Ok out.
Proof.
  eexists. split; [reflexivity|].
  apply (validate_idempotent sample_decisions). reflexivity.
Defined.

(** A reply that wraps the object in a code fence and in prose. *)
Definition fenced_reply : string :=
  "Here you go: ```json {'urgent_alerts': [{}]} ``` Anything else?".

Lemma extract_json_span_witness :
  String.get 0 (_extract_json fenced_reply) = Some "{"%char /\
  String.get 22 (_extract_json fenced_reply) = Some "}"%char /\
  String.get 23 (_extract_json fenced_reply) = None.
Proof.
  destruct (extract_json_span fenced_reply 14 36 eq_refl eq_refl)
    as (H0 & Hj & Hend & _); [lia|].
  auto.
Defined.

End ValidatorBehaviour.
